(** * KS smart-LED BLE controller: command encoder, device registry and
      write engine, embedded from [led_control.py] and [led_menu.py]. *)

From Stdlib Require Import ZArith QArith List String Ascii Bool Lia.
From Stdlib Require HexString DecimalString.
Import ListNotations.
Local Open Scope string_scope.
Local Open Scope Z_scope.

(** ** Python values *)

(** The exceptions that occur in the two modules.  Every one of them is a
    subclass of [Exception], so [except Exception] catches all of them. *)
Inductive exn : Type :=
| BleakError (msg : string)      (* raised by the BLE stack *)
| RuntimeError (msg : string)
| ValueError (msg : string)
| KeyError (key : string).

(** [str(e)] as used by the f-strings of the write engine. *)
Definition str_exn (e : exn) : string :=
  match e with
  | BleakError m | RuntimeError m | ValueError m => m
  | KeyError k => "'" ++ k ++ "'"
  end.

Inductive result (A : Type) : Type :=
| Ok (a : A)
| Raise (e : exn).
Arguments Ok {A} a.
Arguments Raise {A} e.

(** A [bytes] object: a sequence of integers in [range(256)]. *)
Definition bytes := list Z.

(** ** String helpers: [str.upper], [str.startswith], [bytes.fromhex],
       and the format spec [02X] *)

Module PyStr.

Definition upper_ascii (c : ascii) : ascii :=
  let n := nat_of_ascii c in
  if (Nat.leb 97 n && Nat.leb n 122)%bool then ascii_of_nat (n - 32) else c.

(** [s.upper()] on ASCII text. *)
Fixpoint upper (s : string) : string :=
  match s with
  | EmptyString => EmptyString
  | String c s' => String (upper_ascii c) (upper s')
  end.

(** [name.startswith(p)]. *)
Definition startswith (name p : string) : bool := String.prefix p name.

(** [Py_ISSPACE]: space, TAB, LF, VT, FF, CR. *)
Definition is_space (c : ascii) : bool :=
  let n := nat_of_ascii c in
  (Nat.eqb n 32 || (Nat.leb 9 n && Nat.leb n 13))%bool.

Definition hexval (c : ascii) : option Z :=
  option_map Z.of_N (HexString.ascii_to_digit c).

(** [bytes.fromhex(s)]: white space is skipped in front of a pair of hex
    digits; anything else that is not a pair of hex digits is a
    [ValueError].  [None] stands for that error. *)
Fixpoint fromhex_opt (s : string) : option bytes :=
  match s with
  | EmptyString => Some []
  | String c s' =>
      if is_space c then fromhex_opt s'
      else
        match hexval c, s' with
        | Some hi, String c2 s'' =>
            match hexval c2 with
            | Some lo => option_map (cons (16 * hi + lo)) (fromhex_opt s'')
            | None => None
            end
        | _, _ => None
        end
  end.

Definition fromhex_error : exn :=
  ValueError "non-hexadecimal number found in fromhex() arg".

Definition fromhex (s : string) : result bytes :=
  match fromhex_opt s with
  | Some b => Ok b
  | None => Raise fromhex_error
  end.

(** Hex digits of a natural number, upper case, no prefix. *)
Definition hex_upper (n : N) : string :=
  match n with
  | N0 => "0"
  | Npos p => upper (HexString.Raw.of_pos p "")
  end.

(** [f"{v:02X}"]: upper-case hex, zero-filled to width 2; the sign of a
    negative number counts for the width, so nothing is filled then. *)
Definition format_02X (v : Z) : string :=
  let digits := hex_upper (Z.abs_N v) in
  if v <? 0 then "-" ++ digits
  else if (String.length digits <? 2)%nat then "0" ++ digits
  else digits.

End PyStr.

(** ** Command encoder ([led_menu.py]) *)

Definition UUID_TEMPLATE (short : string) : string :=
  "0000" ++ short ++ "-0000-1000-8000-00805f9b34fb".

Definition build_on_off_cmd (is_on : bool) : result bytes :=
  PyStr.fromhex (if is_on then "5BF001B5" else "5B0F01B5").

Definition build_color_cmd (r g b : Z) (device_type : string) (brightness : Z)
  : result bytes :=
  let cmd_str :=
    if String.eqb device_type "floor" then
      let rgb_hex := PyStr.format_02X r ++ PyStr.format_02X g ++ PyStr.format_02X b in
      let brightness_hex := PyStr.format_02X brightness in
      "5A0001" ++ rgb_hex ++ "00" ++ brightness_hex ++ "00A5"
    else
      let rgb_hex := PyStr.format_02X r ++ PyStr.format_02X g ++ PyStr.format_02X b in
      "7E070503" ++ rgb_hex ++ "00EF"
  in
  PyStr.fromhex cmd_str.

(** The brightness payload built inline by [brightness_menu] for a floor
    lamp. *)
Definition brightness_cmd (brightness : Z) : result bytes :=
  let brightness_hex := PyStr.format_02X brightness in
  PyStr.fromhex ("5A000200000000" ++ brightness_hex ++ "00A5").

(** ** The BLE capability and the console, as an oracle over the history *)

Record device : Type := mk_device {
  dev_address : string;
  dev_name : option string           (* [dev.name] may be [None] *)
}.

Record gatt_char : Type := mk_gatt_char {
  gc_uuid : string;
  gc_properties : list string
}.

Record gatt_service : Type := mk_gatt_service {
  gs_uuid : string;
  gs_characteristics : list gatt_char
}.

(** What the modules print; terminal decoration is left out. *)
Inductive message : Type :=
| MsgConnected (address : string)
| MsgTarget (service_uuid char_uuid : string)
| MsgPayload (payload : bytes)
| MsgFoundService (uuid : string)
| MsgChar (uuid : string) (props : list string)
| MsgWrote (uuid : string) (response alternate : bool)
| MsgWriteFailed (response : bool) (e : exn)
| MsgHeader
| MsgSending (action_name : string)
| MsgSent (action_name : string)
| MsgFailed (e : exn)
| MsgBrightnessMenu
| MsgBrightnessRange       (* "Value must be between 0-255" *)
| MsgInvalidNumber
| MsgBrightnessUnsupported (* "... not yet supported for ceiling lights" *)
| MsgCustomColor
| MsgColorRange            (* "Values must be between 0-255" *)
| MsgPreview (r g b : Z)
| MsgSaved (name : string).

Inductive event : Type :=
| EvConnect (address : string) (r : option exn)
| EvIsConnected (b : bool)
| EvServices
| EvSleep (seconds : Q)
| EvWrite (char_uuid : string) (payload : bytes) (response : bool)
          (r : option exn)
| EvDisconnect (r : option exn)
| EvDiscover (timeout : Q) (r : result (list device))
| EvPrint (m : message)
| EvSavePreset (name : string) (r g b : Z)   (* presets file rewritten *).

Definition trace := list event.
Bind Scope list_scope with trace.

(** The host BLE stack.  Each operation answers from the whole history of
    the run so far; [None] is success, [Some e] the exception raised. *)
Record ble : Type := mk_ble {
  ble_connect : trace -> string -> option exn;
  ble_is_connected : trace -> bool;
  ble_services : trace -> list gatt_service;
  ble_write : trace -> string -> bytes -> bool -> option exn;
  ble_disconnect : trace -> option exn;
  ble_discover : trace -> Q -> result (list device)
}.

(** ** A monad for coroutines that talk to the BLE stack

    A computation reads the oracle and the history and returns its
    outcome with the events it added. *)
Definition M (A : Type) : Type := ble -> trace -> result A * trace.

Definition ret {A} (a : A) : M A := fun _ _ => (Ok a, []).

Definition raise {A} (e : exn) : M A := fun _ _ => (Raise e, []).

Definition bind {A B} (m : M A) (k : A -> M B) : M B :=
  fun env h =>
    match m env h with
    | (Ok a, t1) =>
        match k a env (h ++ t1)%list with
        | (r, t2) => (r, (t1 ++ t2)%list)
        end
    | (Raise e, t1) => (Raise e, t1)
    end.

(** [try: m  except Exception as e: handler e] *)
Definition try_except {A} (m : M A) (handler : exn -> M A) : M A :=
  fun env h =>
    match m env h with
    | (Ok a, t1) => (Ok a, t1)
    | (Raise e, t1) =>
        match handler e env (h ++ t1)%list with
        | (r, t2) => (r, (t1 ++ t2)%list)
        end
    end.

(** [try: m  except ValueError: handler]: any other exception goes
    through. *)
Definition is_value_error (e : exn) : bool :=
  match e with
  | ValueError _ => true
  | _ => false
  end.

Definition try_except_value_error {A} (m : M A) (handler : M A) : M A :=
  fun env h =>
    match m env h with
    | (Ok a, t1) => (Ok a, t1)
    | (Raise e, t1) =>
        if is_value_error e then
          match handler env (h ++ t1)%list with
          | (r, t2) => (r, (t1 ++ t2)%list)
          end
        else (Raise e, t1)
    end.

(** [try: m  finally: cleanup].  An exception leaving [cleanup] would
    replace the outcome of [m]. *)
Definition try_finally {A} (m : M A) (cleanup : M unit) : M A :=
  fun env h =>
    match m env h with
    | (r, t1) =>
        match cleanup env (h ++ t1)%list with
        | (Ok _, t2) => (r, (t1 ++ t2)%list)
        | (Raise e, t2) => (Raise e, (t1 ++ t2)%list)
        end
    end.

Definition lift {A} (r : result A) : M A := fun _ _ => (r, []).

Declare Scope py_scope.
Delimit Scope py_scope with py.
Notation "x <- m ;; k" := (bind m (fun x => k))
  (at level 61, m at next level, right associativity) : py_scope.
Notation "m ;; k" := (bind m (fun _ => k))
  (at level 61, right associativity) : py_scope.
Local Open Scope py_scope.

Definition when (b : bool) (m : M unit) : M unit := if b then m else ret tt.

Definition of_outcome (o : option exn) : result unit :=
  match o with
  | None => Ok tt
  | Some e => Raise e
  end.

Definition connect (address : string) : M unit :=
  fun env h =>
    let o := ble_connect env h address in
    (of_outcome o, [EvConnect address o]).

Definition is_connected : M bool :=
  fun env h => let b := ble_is_connected env h in (Ok b, [EvIsConnected b]).

Definition services : M (list gatt_service) :=
  fun env h => (Ok (ble_services env h), [EvServices]).

Definition sleep (seconds : Q) : M unit :=
  fun _ _ => (Ok tt, [EvSleep seconds]).

Definition write_gatt_char (char_uuid : string) (payload : bytes)
    (response : bool) : M unit :=
  fun env h =>
    let o := ble_write env h char_uuid payload response in
    (of_outcome o, [EvWrite char_uuid payload response o]).

Definition disconnect : M unit :=
  fun env h =>
    let o := ble_disconnect env h in (of_outcome o, [EvDisconnect o]).

Definition discover (timeout : Q) : M (list device) :=
  fun env h =>
    let r := ble_discover env h timeout in (r, [EvDiscover timeout r]).

Definition print (m : message) : M unit := fun _ _ => (Ok tt, [EvPrint m]).

(** [load_presets()], the update of one entry, and [save_presets(...)]. *)
Definition store_preset (name : string) (r g b : Z) : M unit :=
  fun _ _ => (Ok tt, [EvSavePreset name r g b]).

(** [for x in xs: body x] *)
Fixpoint for_each {A} (xs : list A) (body : A -> M unit) : M unit :=
  match xs with
  | [] => ret tt
  | x :: rest => body x ;; for_each rest body
  end.

(** A fresh run: the history starts empty. *)
Definition run {A} (m : M A) (env : ble) : result A * trace := m env [].

(** ** [led_control.py] *)

Module Control.

Record uuids : Type := mk_uuids { service : string; write : string }.

(** The dict keeps insertion order. *)
Definition DEVICE_UUIDS : list (string * uuids) :=
  [ ("KS03-", mk_uuids "FFF0" "FFF3");
    ("KS04-", mk_uuids "FFF0" "FFF3");
    ("KS03~", mk_uuids "AFD0" "AFD1");
    ("KS01-", mk_uuids "AE00" "AE01");
    ("KS02-", mk_uuids "AE00" "AE01");
    ("KS04~", mk_uuids "AE00" "AE10");
    ("KS05-", mk_uuids "AE00" "AE02");
    ("KS07-", mk_uuids "AE00" "AE10");
    ("KS08-", mk_uuids "AE00" "AE10");
    ("KS09-", mk_uuids "AE00" "AE10");
    ("KS10-", mk_uuids "AE00" "AE10");
    ("KS11-", mk_uuids "AE00" "AE10");
    ("KS12-", mk_uuids "AE00" "AE10");
    ("KS13-", mk_uuids "AE00" "AE10");
    ("KS15~", mk_uuids "AFD0" "AFD3") ].

Definition build_on_off_cmd (is_on : bool) : result bytes :=
  let hex_str := "5B" ++ (if is_on then "F0" else "0F") ++ "01B5" in
  PyStr.fromhex hex_str.

(** [d.name and d.name.startswith(prefix)]: a missing or empty name is
    falsy. *)
Definition name_startswith (d : device) (prefix : string) : bool :=
  match dev_name d with
  | None => false
  | Some n => negb (String.eqb n "") && PyStr.startswith n prefix
  end.

Fixpoint first_address (devices : list device) (prefix : string)
  : option string :=
  match devices with
  | [] => None
  | d :: rest =>
      if name_startswith d prefix then Some (dev_address d)
      else first_address rest prefix
  end.

Definition find_device_by_prefix (prefix : string) (timeout : Q)
  : M (option string) :=
  devices <- discover timeout ;;
  ret (first_address devices prefix).

Fixpoint ks03_results (devices : list device) (results : list (string * string))
  : list (string * string) :=
  match devices with
  | [] => results
  | d :: rest =>
      if name_startswith d "KS03-" || name_startswith d "KS03~"
      then ks03_results rest
             (results ++ [(dev_address d,
                           match dev_name d with Some n => n | None => "" end)])%list
      else ks03_results rest results
  end.

Definition find_all_ks03 (timeout : Q) : M (list (string * string)) :=
  devices <- discover timeout ;;
  ret (ks03_results devices []).

(** [needle in hay] on strings. *)
Definition contains (needle hay : string) : bool :=
  match String.index 0 needle hay with
  | Some _ => true
  | None => false
  end.

(** The alternate write characteristic of the last-resort step. *)
Definition alt_char_short_of (char_short : string) : option string :=
  if String.eqb (PyStr.upper char_short) "AFD3" then Some "FFF3"
  else if String.eqb (PyStr.upper char_short) "FFF3" then Some "AFD3"
  else None.

Definition str_last_error (last_error : option exn) : string :=
  match last_error with
  | None => "None"
  | Some e => str_exn e
  end.

(** The verbose listing of the services that match [service_short]. *)
Definition list_services (service_short : string) : M unit :=
  svcs <- services ;;
  for_each svcs (fun s =>
    if contains (PyStr.upper service_short) (PyStr.upper (gs_uuid s))
    then
      print (MsgFoundService (gs_uuid s)) ;;
      for_each (gs_characteristics s)
               (fun c => print (MsgChar (gc_uuid c) (gc_properties c)))
    else ret tt).

(** The cascade of write attempts; it yields [(write_success,
    last_error)] or raises. *)
Definition write_cascade (char_short : string) (payload : bytes)
    (verbose : bool) : M (bool * option exn) :=
  let char_uuid := UUID_TEMPLATE char_short in
  try_except
    (write_gatt_char char_uuid payload false ;;
     when verbose (print (MsgWrote char_uuid false false)) ;;
     ret (true, None))
    (fun e1 =>
       when verbose (print (MsgWriteFailed false e1)) ;;
       try_except
         (write_gatt_char char_uuid payload true ;;
          when verbose (print (MsgWrote char_uuid true false)) ;;
          ret (true, Some e1))
         (fun e2 =>
            when verbose (print (MsgWriteFailed true e2)) ;;
            match alt_char_short_of char_short with
            | Some alt_char_short =>
                let alt_char_uuid := UUID_TEMPLATE alt_char_short in
                try_except
                  (write_gatt_char alt_char_uuid payload false ;;
                   when verbose (print (MsgWrote alt_char_uuid false true)) ;;
                   ret (true, Some e2))
                  (fun _ =>
                     try_except
                       (write_gatt_char alt_char_uuid payload true ;;
                        when verbose (print (MsgWrote alt_char_uuid true true)) ;;
                        ret (true, Some e2))
                       (fun e3 =>
                          raise (RuntimeError
                                   ("All write attempts failed: " ++ str_exn e1
                                    ++ ", " ++ str_exn e2
                                    ++ ", " ++ str_exn e3))))
            | None =>
                raise (RuntimeError
                         ("Write failed: " ++ str_exn e1 ++ ", " ++ str_exn e2))
            end)).

(** The body of the outer [try]. *)
Definition write_body (address service_short char_short : string)
    (payload : bytes) (verbose : bool) : M unit :=
  let service_uuid := UUID_TEMPLATE service_short in
  let char_uuid := UUID_TEMPLATE char_short in
  connect address ;;
  c <- is_connected ;;
  (if negb c then raise (RuntimeError "Failed to connect to device")
   else ret tt) ;;
  sleep (3 # 10) ;;
  when verbose
    (print (MsgConnected address) ;;
     print (MsgTarget service_uuid char_uuid) ;;
     print (MsgPayload payload) ;;
     list_services service_short) ;;
  ws <- write_cascade char_short payload verbose ;;
  (if fst ws then sleep (2 # 10)
   else raise (RuntimeError ("Write failed: " ++ str_last_error (snd ws)))).

(** The [finally] block. *)
Definition cleanup : M unit :=
  try_except
    (c <- is_connected ;;
     if c then disconnect else ret tt)
    (fun _ => ret tt).

Definition write_command (address service_short char_short : string)
    (payload : bytes) (verbose : bool) : M unit :=
  try_finally (write_body address service_short char_short payload verbose)
              cleanup.

End Control.

(** ** [led_menu.py] *)

Module Menu.

Record mapping : Type := mk_mapping {
  service : string;
  write : string;
  type_ : option string
}.

Definition DEVICE_MAPPINGS : list (string * mapping) :=
  [ ("KS03-", mk_mapping "FFF0" "FFF3" (Some "ceiling"));
    ("KS03~", mk_mapping "AFD0" "AFD1" (Some "floor"));
    ("KS04-", mk_mapping "FFF0" "FFF3" (Some "ceiling"));
    ("KS01-", mk_mapping "AE00" "AE01" (Some "ceiling"));
    ("KS02-", mk_mapping "AE00" "AE01" (Some "ceiling")) ].

(** [DEVICE_MAPPINGS.keys()] *)
Definition keys : list string := map fst DEVICE_MAPPINGS.

(** [DEVICE_MAPPINGS[prefix]] *)
Fixpoint getitem (table : list (string * mapping)) (prefix : string)
  : result mapping :=
  match table with
  | [] => Raise (KeyError prefix)
  | (k, m) :: rest => if String.eqb k prefix then Ok m else getitem rest prefix
  end.

(** [mapping.get("type", "ceiling")] *)
Definition get_type (m : mapping) : string :=
  match type_ m with
  | Some t => t
  | None => "ceiling"
  end.

(** The inner loop of [scan_devices]: the first key, in table order,
    that the name starts with. *)
Fixpoint first_prefix (name : string) (prefixes : list string)
  : option string :=
  match prefixes with
  | [] => None
  | prefix :: rest =>
      if PyStr.startswith name prefix then Some prefix
      else first_prefix name rest
  end.

Definition resolve (name : string) : option string := first_prefix name keys.

Definition discovered : Type := (string * string * string)%type.

(** The outer loop of [scan_devices]. *)
Fixpoint scan_loop (found : list device) (devices : list discovered)
  : list discovered :=
  match found with
  | [] => devices
  | dev :: rest =>
      (* [dev.name or ""] *)
      let name := match dev_name dev with
                  | Some n => n
                  | None => ""
                  end in
      match resolve name with
      | Some prefix =>
          scan_loop rest (devices ++ [(dev_address dev, name, prefix)])%list
      | None => scan_loop rest devices
      end
  end.

Definition scan_devices (timeout : Q) : M (list discovered) :=
  found <- discover timeout ;;
  ret (scan_loop found []).

Definition write_body (address service_short char_short : string)
    (payload : bytes) : M unit :=
  let char_uuid := UUID_TEMPLATE char_short in
  connect address ;;
  c <- is_connected ;;
  (if negb c then raise (RuntimeError "Failed to connect") else ret tt) ;;
  sleep (3 # 10) ;;
  try_except
    (write_gatt_char char_uuid payload false)
    (fun _ => write_gatt_char char_uuid payload true) ;;
  sleep (2 # 10).

Definition cleanup : M unit :=
  c <- is_connected ;;
  if c then try_except disconnect (fun _ => ret tt) else ret tt.

Definition write_command (address service_short char_short : string)
    (payload : bytes) : M unit :=
  try_finally (write_body address service_short char_short payload) cleanup.

Definition send_command (dev : discovered) (payload : bytes)
    (action_name : string) (is_color : bool) : M unit :=
  let '(addr, name, prefix) := dev in
  mapping <- lift (getitem DEVICE_MAPPINGS prefix) ;;
  print (MsgSending action_name) ;;
  try_except
    ((if is_color then
        let char_uuid := UUID_TEMPLATE (write mapping) in
        connect addr ;;
        sleep (3 # 10) ;;
        on_cmd <- lift (build_on_off_cmd true) ;;
        write_gatt_char char_uuid on_cmd false ;;
        sleep (5 # 10) ;;
        write_gatt_char char_uuid payload false ;;
        sleep (2 # 10) ;;
        disconnect
      else
        write_command addr (service mapping) (write mapping) payload) ;;
     print (MsgSent action_name))
    (fun e => print (MsgFailed e)) ;;
  sleep 1.

(** The value of [int(input(...).strip())]; [None] is text that is not a
    number. *)
Definition int_input (parsed : option Z) : M Z :=
  match parsed with
  | Some v => ret v
  | None => raise (ValueError "invalid literal for int() with base 10")
  end.

(** [0 <= x <= 255] *)
Definition in_byte_range (x : Z) : bool := (0 <=? x) && (x <=? 255).

(** [answer in ['y', 'yes']] *)
Definition is_yes (answer : string) : bool :=
  String.eqb answer "y" || String.eqb answer "yes".

(** [custom_color_menu].  [r_in], [g_in], [b_in] are the three numbers
    typed, [confirm] and [save] the answers to the two y/n questions, and
    [preset_name] the stripped name typed for the preset. *)
Definition custom_color_menu (dev : discovered) (r_in g_in b_in : option Z)
    (confirm save preset_name : string) : M unit :=
  let '(addr, name, prefix) := dev in
  mapping <- lift (getitem DEVICE_MAPPINGS prefix) ;;
  let device_type := get_type mapping in
  print MsgHeader ;;
  print MsgCustomColor ;;
  try_except_value_error
    (r <- int_input r_in ;;
     g <- int_input g_in ;;
     b <- int_input b_in ;;
     if negb (forallb in_byte_range [r; g; b]) then
       print MsgColorRange ;;
       sleep 2
     else
       print (MsgPreview r g b) ;;
       if is_yes confirm then
         cmd <- lift (build_color_cmd r g b device_type 255) ;;
         send_command dev cmd "custom color" true ;;
         if is_yes save then
           if negb (String.eqb preset_name "") then
             store_preset preset_name r g b ;;
             print (MsgSaved preset_name) ;;
             sleep (15 # 10)
           else ret tt
         else ret tt
       else ret tt)
    (print MsgInvalidNumber ;;
     sleep 2).

(** [str(brightness)] *)
Definition str_int (v : Z) : string :=
  DecimalString.NilZero.string_of_int (Z.to_int v).

(** What [brightness_menu] does once a level has been chosen. *)
Definition apply_brightness (dev : discovered) (device_type : string)
    (brightness : option Z) : M unit :=
  match brightness with
  | None => ret tt
  | Some level =>
      if String.eqb device_type "floor" then
        cmd <- lift (brightness_cmd level) ;;
        send_command dev cmd ("brightness " ++ str_int level) true
      else
        print MsgBrightnessUnsupported ;;
        sleep 2
  end.

(** [brightness_menu].  [choice] is what [get_input(...).strip()]
    returned; [custom] is the value of [int(input(...).strip())] when
    option 5 asks for it, [None] when that raised [ValueError]. *)
Definition brightness_menu (dev : discovered) (choice : string)
    (custom : option Z) : M unit :=
  let '(addr, name, prefix) := dev in
  mapping <- lift (getitem DEVICE_MAPPINGS prefix) ;;
  let device_type := get_type mapping in
  print MsgHeader ;;
  print MsgBrightnessMenu ;;
  if String.eqb choice "0" then ret tt
  else if String.eqb choice "1" then apply_brightness dev device_type (Some 64)
  else if String.eqb choice "2" then apply_brightness dev device_type (Some 128)
  else if String.eqb choice "3" then apply_brightness dev device_type (Some 192)
  else if String.eqb choice "4" then apply_brightness dev device_type (Some 255)
  else if String.eqb choice "5" then
    match custom with
    | Some level =>
        if negb ((0 <=? level) && (level <=? 255)) then
          print MsgBrightnessRange ;;
          sleep 2
        else apply_brightness dev device_type (Some level)
    | None =>
        print MsgInvalidNumber ;;
        sleep 2
    end
  else apply_brightness dev device_type None.

End Menu.

(** ** Observations on traces *)

Definition is_write (e : event) : bool :=
  match e with
  | EvWrite _ _ _ _ => true
  | _ => false
  end.

(** The write attempts of a run, in the order they were made. *)
Definition writes_of (t : trace) : list event := filter is_write t.

Definition is_disconnect (e : event) : bool :=
  match e with
  | EvDisconnect _ => true
  | _ => false
  end.

Definition disconnects_of (t : trace) : list event := filter is_disconnect t.

(** ** Sample BLE stacks *)

Definition count_writes (h : trace) : nat := List.length (writes_of h).

(** The link is up after a successful connect that no successful
    disconnect has followed. *)
Fixpoint link_up_from (up : bool) (h : trace) : bool :=
  match h with
  | [] => up
  | EvConnect _ None :: rest => link_up_from true rest
  | EvDisconnect None :: rest => link_up_from false rest
  | _ :: rest => link_up_from up rest
  end.

Definition link_up (h : trace) : bool := link_up_from false h.

(** A stack whose connect, successive writes and disconnect follow a
    script; writes beyond the script succeed. *)
Definition scripted (conn : option exn) (writes : list (option exn))
    (disc : option exn) (found : result (list device)) : ble :=
  {| ble_connect := fun _ _ => conn;
     ble_is_connected := link_up;
     ble_services := fun _ => [];
     ble_write := fun h _ _ _ => nth (count_writes h) writes None;
     ble_disconnect := fun _ => disc;
     ble_discover := fun _ _ => found |}.

(** The bytes of the on command. *)
Definition on_bytes : bytes := [91; 240; 1; 181].

(** ** The fallback order, as the write engine is meant to follow it *)

(** [alternate_of char_short alt]: the short code is one of the pair
    FFF3/AFD3 (compared in upper case, as the code does) and [alt] is the
    other one. *)
Definition alternate_of (char_short alt : string) : Prop :=
  (PyStr.upper char_short = "AFD3" /\ alt = "FFF3")
  \/ (PyStr.upper char_short = "FFF3" /\ alt = "AFD3").

Definition no_alternate (char_short : string) : Prop :=
  PyStr.upper char_short <> "AFD3" /\ PyStr.upper char_short <> "FFF3".

(** The six ways the cascade can go: which writes were made, with which
    outcome, and what the cascade returned or raised. *)
Inductive cascade_run (char_short : string) (payload : bytes)
  : list event -> result (bool * option exn) -> Prop :=
| run_a :
    cascade_run char_short payload
      [EvWrite (UUID_TEMPLATE char_short) payload false None]
      (Ok (true, None))
| run_b e1 :
    cascade_run char_short payload
      [EvWrite (UUID_TEMPLATE char_short) payload false (Some e1);
       EvWrite (UUID_TEMPLATE char_short) payload true None]
      (Ok (true, Some e1))
| run_c e1 e2 alt :
    alternate_of char_short alt ->
    cascade_run char_short payload
      [EvWrite (UUID_TEMPLATE char_short) payload false (Some e1);
       EvWrite (UUID_TEMPLATE char_short) payload true (Some e2);
       EvWrite (UUID_TEMPLATE alt) payload false None]
      (Ok (true, Some e2))
| run_d e1 e2 e3 alt :
    alternate_of char_short alt ->
    cascade_run char_short payload
      [EvWrite (UUID_TEMPLATE char_short) payload false (Some e1);
       EvWrite (UUID_TEMPLATE char_short) payload true (Some e2);
       EvWrite (UUID_TEMPLATE alt) payload false (Some e3);
       EvWrite (UUID_TEMPLATE alt) payload true None]
      (Ok (true, Some e2))
| run_all_failed e1 e2 e3 e4 alt :
    alternate_of char_short alt ->
    cascade_run char_short payload
      [EvWrite (UUID_TEMPLATE char_short) payload false (Some e1);
       EvWrite (UUID_TEMPLATE char_short) payload true (Some e2);
       EvWrite (UUID_TEMPLATE alt) payload false (Some e3);
       EvWrite (UUID_TEMPLATE alt) payload true (Some e4)]
      (Raise (RuntimeError ("All write attempts failed: " ++ str_exn e1
                            ++ ", " ++ str_exn e2 ++ ", " ++ str_exn e4)))
| run_primary_failed e1 e2 :
    no_alternate char_short ->
    cascade_run char_short payload
      [EvWrite (UUID_TEMPLATE char_short) payload false (Some e1);
       EvWrite (UUID_TEMPLATE char_short) payload true (Some e2)]
      (Raise (RuntimeError ("Write failed: " ++ str_exn e1
                            ++ ", " ++ str_exn e2))).

(** ** Definitions used by the statements *)

(** Events that only log: prints and the read of the service table. *)
Definition is_log (e : event) : bool :=
  match e with
  | EvPrint _ | EvServices => true
  | _ => false
  end.

(** A computation that always returns and only logs. *)
Definition logs_only (m : M unit) : Prop :=
  forall env h, exists t, m env h = (Ok tt, t) /\ forallb is_log t = true.

(** The verbose preamble of the write engine. *)
Definition preamble (address service_short char_short : string)
    (payload : bytes) (verbose : bool) : M unit :=
  when verbose
    (print (MsgConnected address) ;;
     print (MsgTarget (UUID_TEMPLATE service_short) (UUID_TEMPLATE char_short)) ;;
     print (MsgPayload payload) ;;
     Control.list_services service_short).

(** A stack on which the two primary writes fail and the alternate write
    without response goes through. *)
Definition stack_alt_succeeds : ble :=
  scripted None [Some (BleakError "E1"); Some (BleakError "E2"); None]
           None (Ok []).

(** A stack on which every write fails, each with an error of its own. *)
Definition stack_all_fail : ble :=
  scripted None
    [Some (BleakError "E1"); Some (BleakError "E2");
     Some (BleakError "E3"); Some (BleakError "E4")]
    None (Ok []).

(** The same stack with another behaviour of [disconnect]. *)
Definition with_disconnect (d : trace -> option exn) (env : ble) : ble :=
  {| ble_connect := ble_connect env;
     ble_is_connected := ble_is_connected env;
     ble_services := ble_services env;
     ble_write := ble_write env;
     ble_disconnect := d;
     ble_discover := ble_discover env |}.

(** [m] issues no disconnect, and what it does is the same whatever a
    disconnect would answer. *)
Definition no_disconnect {A} (m : M A) : Prop :=
  forall env h,
    disconnects_of (snd (m env h)) = []
    /\ forall d, m (with_disconnect d env) h = m env h.

(** What the [finally] block adds after a body that left the trace [t]. *)
Definition cleanup_events (env : ble) (t : trace) : trace :=
  if ble_is_connected env t
  then [EvIsConnected true;
        EvDisconnect (ble_disconnect env (t ++ [EvIsConnected true]))]
  else [EvIsConnected false].

(** A stack that refuses the connection. *)
Definition stack_no_connection : ble :=
  scripted (Some (BleakError "device not found")) [] None (Ok []).

(** The upper-case hex digit of a value below 16. *)
Definition hex_char (d : Z) : ascii :=
  nth (Z.to_nat d)
      ["0"; "1"; "2"; "3"; "4"; "5"; "6"; "7";
       "8"; "9"; "A"; "B"; "C"; "D"; "E"; "F"]%char "0"%char.

(** [bytes.fromhex] rejects any text with a minus sign in it. *)
Fixpoint mem_char (c : ascii) (s : string) : bool :=
  match s with
  | EmptyString => false
  | String x s' => Ascii.eqb x c || mem_char c s'
  end.

(** 1-based, inclusive: the [first]-th to the [last]-th byte. *)
Definition byte_range (first last : nat) (p : bytes) : bytes :=
  firstn (last - first + 1) (skipn (first - 1) p).

(** The name a scan records for a device: [dev.name or ""]. *)
Definition name_of (dev : device) : string :=
  match dev_name dev with
  | Some n => n
  | None => ""
  end.

(** One ceiling lamp, one floor lamp, a foreign device and a device
    without a name, and a stack whose scanner sees them. *)
Definition four_devices : list device :=
  [mk_device "11:22:33:44:55:66" (Some "KS03-112233");
   mk_device "BE:60:4D:00:58:37" (Some "KS03~370058");
   mk_device "AA:BB:CC:DD:EE:FF" (Some "KS99-anything");
   mk_device "00:00:00:00:00:01" None].

Definition stack_four_devices : ble :=
  scripted None [] None (Ok four_devices).

(** A stack that accepts the connection but never reports the client as
    connected. *)
Definition stack_silent_link : ble :=
  {| ble_connect := fun _ _ => None;
     ble_is_connected := fun _ => false;
     ble_services := fun _ => [];
     ble_write := fun _ _ _ _ => None;
     ble_disconnect := fun _ => None;
     ble_discover := fun _ _ => Ok [] |}.

(** Events a write cascade can add: writes and prints. *)
Definition is_write_or_print (e : event) : bool :=
  match e with
  | EvWrite _ _ _ _ | EvPrint _ => true
  | _ => false
  end.

(** Every character of a text passes a test. *)
Fixpoint forall_char (f : ascii -> bool) (s : string) : bool :=
  match s with
  | EmptyString => true
  | String c s' => f c && forall_char f s'
  end.

Definition not_space (c : ascii) : bool := negb (PyStr.is_space c).

(** Equality of byte sequences. *)
Fixpoint bytes_eqb (p q : bytes) : bool :=
  match p, q with
  | [], [] => true
  | x :: p', y :: q' => (x =? y) && bytes_eqb p' q'
  | _, _ => false
  end.

(** What a menu may do on the radio when it sends [payload] to the
    characteristic [uuid] on the colour path: connect, write the ON
    command or the payload there without response, disconnect.  It neither
    scans nor touches the presets file. *)
Definition color_path_event (uuid : string) (payload : bytes) (e : event)
  : bool :=
  match e with
  | EvWrite u p response _ =>
      String.eqb u uuid && negb response
      && (bytes_eqb p on_bytes || bytes_eqb p payload)
  | EvDiscover _ _ | EvSavePreset _ _ _ _ | EvIsConnected _ | EvServices =>
      false
  | _ => true
  end.

(** Events of a menu that stays off the radio and off the presets file. *)
Definition is_console (e : event) : bool :=
  match e with
  | EvPrint _ | EvSleep _ => true
  | _ => false
  end.

(** A stack on which everything succeeds. *)
Definition stack_all_good : ble := scripted None [] None (Ok []).

(** ** [led_menu.py]: presets and nicknames on disk *)

Module Store.

(** A Python [dict] with text keys, in insertion order. *)
Section Dict.

Context {V : Type}.

Definition pydict : Type := list (string * V).

(** [d.get(k)] *)
Fixpoint dict_get (d : pydict) (k : string) : option V :=
  match d with
  | [] => None
  | (k', v) :: rest => if String.eqb k' k then Some v else dict_get rest k
  end.

(** [d[k] = v]: an existing key keeps its place, a new one goes last. *)
Fixpoint dict_set (d : pydict) (k : string) (v : V) : pydict :=
  match d with
  | [] => [(k, v)]
  | (k', v') :: rest =>
      if String.eqb k' k then (k, v) :: rest
      else (k', v') :: dict_set rest k v
  end.

(** [del d[k]] for a key that is present. *)
Fixpoint dict_del (d : pydict) (k : string) : pydict :=
  match d with
  | [] => []
  | (k', v') :: rest =>
      if String.eqb k' k then rest else (k', v') :: dict_del rest k
  end.

(** [list(d.keys())] *)
Definition dict_keys (d : pydict) : list string := map fst d.

End Dict.

Arguments pydict V : clear implicits.

(** One preset: [{"r": ..., "g": ..., "b": ...}]. *)
Record rgb : Type := mk_rgb { rgb_r : Z; rgb_g : Z; rgb_b : Z }.

Definition presets : Type := pydict rgb.

Definition nicknames : Type := pydict string.

Definition DEFAULT_PRESETS : presets :=
  [ ("Warm White", mk_rgb 255 147 41);
    ("Cool White", mk_rgb 201 226 255);
    ("Daylight", mk_rgb 255 250 244);
    ("Red", mk_rgb 255 0 0);
    ("Green", mk_rgb 0 255 0);
    ("Blue", mk_rgb 0 0 255);
    ("Purple", mk_rgb 128 0 128);
    ("Cyan", mk_rgb 0 255 255);
    ("Yellow", mk_rgb 255 255 0);
    ("Orange", mk_rgb 255 165 0) ].

(** A JSON file: not there, there but not loadable, or holding a value. *)
Inductive file (A : Type) : Type :=
| Missing
| Unreadable
| Holds (content : A).
Arguments Missing {A}.
Arguments Unreadable {A}.
Arguments Holds {A} content.

(** The two files in the home directory, and whether opening a file for
    writing fails (with which exception). *)
Record disk : Type := mk_disk {
  presets_file : file presets;
  devices_file : file nicknames;
  write_error : option exn
}.

(** What these menus print. *)
Inductive note : Type :=
| NoteHeader
| NoteCouldNotSavePresets (e : exn)
| NoteCouldNotSaveDevices (e : exn)
| NoteManageMenu
| NoteAddNewPreset
| NotePresetAdded (name : string)
| NoteInvalidValues
| NoteInvalidNumber
| NotePresetList (p : presets)
| NoteDeleted
| NoteResetToDefaults
| NoteSetNickname (name addr : string)
| NoteCurrentNickname (current : string)
| NoteEnterNickname
| NoteNicknameSet (nickname : string)
| NoteNicknameRemoved
| NoteNoChanges.

Inductive out : Type :=
| Say (n : note)
| Pause (seconds : Q).

(** Code that reads and writes the disk and prints. *)
Definition D (A : Type) : Type := disk -> A * disk * list out.

Definition ret {A} (a : A) : D A := fun d => (a, d, []).

Definition bind {A B} (m : D A) (k : A -> D B) : D B :=
  fun d =>
    match m d with
    | (a, d1, o1) =>
        match k a d1 with
        | (b, d2, o2) => (b, d2, (o1 ++ o2)%list)
        end
    end.

Declare Scope disk_scope.
Notation "x <- m ;; k" := (bind m (fun x => k))
  (at level 61, m at next level, right associativity) : disk_scope.
Notation "m ;; k" := (bind m (fun _ => k))
  (at level 61, right associativity) : disk_scope.
Local Open Scope disk_scope.

Definition say (n : note) : D unit := fun d => (tt, d, [Say n]).

Definition pause (seconds : Q) : D unit := fun d => (tt, d, [Pause seconds]).

Definition load_presets : D presets :=
  fun d =>
    (match presets_file d with
     | Holds p => p
     | Missing | Unreadable => DEFAULT_PRESETS
     end, d, []).

Definition save_presets (p : presets) : D unit :=
  fun d =>
    match write_error d with
    | None => (tt, mk_disk (Holds p) (devices_file d) (write_error d), [])
    | Some e => (tt, d, [Say (NoteCouldNotSavePresets e)])
    end.

Definition load_devices : D nicknames :=
  fun d =>
    (match devices_file d with
     | Holds n => n
     | Missing | Unreadable => []
     end, d, []).

Definition save_devices (devices_dict : nicknames) : D unit :=
  fun d =>
    match write_error d with
    | None =>
        (tt, mk_disk (presets_file d) (Holds devices_dict) (write_error d), [])
    | Some e => (tt, d, [Say (NoteCouldNotSaveDevices e)])
    end.

Definition get_device_display_name (addr name : string) (nicks : nicknames)
  : string :=
  match dict_get nicks addr with
  | Some nickname =>
      if String.eqb nickname "" then name
      else nickname ++ " (" ++ name ++ ")"
  | None => name
  end.

(** [set_device_nickname]; [nickname] is the stripped text typed. *)
Definition set_device_nickname (dev : Menu.discovered) (nickname : string)
  : D unit :=
  let '(addr, name, prefix) := dev in
  nicks <- load_devices ;;
  say NoteHeader ;;
  say (NoteSetNickname name addr) ;;
  let current := match dict_get nicks addr with
                 | Some c => c
                 | None => ""
                 end in
  (if negb (String.eqb current "") then say (NoteCurrentNickname current)
   else ret tt) ;;
  say NoteEnterNickname ;;
  (if negb (String.eqb nickname "") then
     save_devices (dict_set nicks addr nickname) ;;
     say (NoteNicknameSet nickname)
   else if negb (String.eqb current "") then
     save_devices (dict_del nicks addr) ;;
     say NoteNicknameRemoved
   else say NoteNoChanges) ;;
  pause (15 # 10).

(** What is typed during one pass of the loop of [manage_presets_menu]:
    the menu choice, and what the chosen branch then asks for. *)
Record manage_inputs : Type := mk_manage_inputs {
  mi_choice : string;
  mi_name : string;            (* stripped preset name *)
  mi_r : option Z;             (* [None]: not a number *)
  mi_g : option Z;
  mi_b : option Z;
  mi_idx : option Z;
  mi_confirm : string          (* "y" or "n" *)
}.

Definition in_byte_range (x : Z) : bool := (0 <=? x) && (x <=? 255).

(** One pass of the loop; the flag says whether the loop goes on. *)
Definition manage_presets_pass (p : presets) (i : manage_inputs)
  : D (presets * bool) :=
  say NoteHeader ;;
  say NoteManageMenu ;;
  if String.eqb (mi_choice i) "0" then ret (p, false)
  else if String.eqb (mi_choice i) "1" then
    say NoteAddNewPreset ;;
    if String.eqb (mi_name i) "" then ret (p, true)
    else
      p' <- match mi_r i, mi_g i, mi_b i with
            | Some r, Some g, Some b =>
                if forallb in_byte_range [r; g; b] then
                  let p' := dict_set p (mi_name i) (mk_rgb r g b) in
                  save_presets p' ;;
                  say (NotePresetAdded (mi_name i)) ;;
                  ret p'
                else
                  say NoteInvalidValues ;;
                  ret p
            | _, _, _ =>
                say NoteInvalidNumber ;;
                ret p
            end ;;
      pause (15 # 10) ;;
      ret (p', true)
  else if String.eqb (mi_choice i) "2" then
    say (NotePresetList p) ;;
    match mi_idx i with
    | Some idx =>
        if idx >? 0 then
          let items := dict_keys p in
          if (0 <? idx) && (idx <=? Z.of_nat (List.length items)) then
            match nth_error items (Z.to_nat (idx - 1)) with
            | Some name =>
                if String.eqb (mi_confirm i) "y" then
                  let p' := dict_del p name in
                  save_presets p' ;;
                  say NoteDeleted ;;
                  pause 1 ;;
                  ret (p', true)
                else ret (p, true)
            | None => ret (p, true)
            end
          else ret (p, true)
        else ret (p, true)
    | None => ret (p, true)
    end
  else if String.eqb (mi_choice i) "3" then
    if String.eqb (mi_confirm i) "y" then
      save_presets DEFAULT_PRESETS ;;
      say NoteResetToDefaults ;;
      pause (15 # 10) ;;
      ret (p, false)
    else ret (p, true)
  else ret (p, true).



End Store.

(** Every preset of a table has its three values in 0..255. *)
Definition presets_in_range (p : Store.presets) : Prop :=
  Forall (fun kv => 0 <= Store.rgb_r (snd kv) <= 255
                    /\ 0 <= Store.rgb_g (snd kv) <= 255
                    /\ 0 <= Store.rgb_b (snd kv) <= 255) p.

(** The presets a session would load from a disk. *)
Definition presets_on (d : Store.disk) : Store.presets :=
  fst (fst (Store.load_presets d)).

Definition nicknames_on (d : Store.disk) : Store.nicknames :=
  fst (fst (Store.load_devices d)).

(** The disk a computation leaves. *)
Definition disk_after {A} (m : Store.D A) (d : Store.disk) : Store.disk :=
  snd (fst (m d)).

Definition value_of {A} (m : Store.D A) (d : Store.disk) : A :=
  fst (fst (m d)).

(** A disk with no file on it that can be written, and one that cannot. *)
Definition disk_empty : Store.disk :=
  Store.mk_disk Store.Missing Store.Missing None.


(** Typing: add "Mine" as (1, 2, 3); then delete preset number 1. *)
Definition add_mine : Store.manage_inputs :=
  Store.mk_manage_inputs "1" "Mine" (Some 1) (Some 2) (Some 3) None "n".

Definition delete_first : Store.manage_inputs :=
  Store.mk_manage_inputs "2" "" None None None (Some 1) "y".

(** ** The command line of [led_control.py] and the preset menu

    These print lines of their own around the calls into the BLE code. *)

Module Session.

Inductive snote : Type :=
| SentTo (action_upper addr label : string)  (* "Sent ON to addr (label)" *)
| FailedToSendTo (addr name : string) (e : exn)
| PresetsShown (p : Store.presets)           (* header and preset list *)
| InvalidPresetNumber
| PleaseEnterNumber
| ScanningForDevices                         (* header and the two lines *)
| NoKSDevicesFound
| DeviceList (devices : list Menu.discovered) (selected_idx : Z)
             (nicks : Store.nicknames)       (* header, list and hint *)
| Rescanning
| NoDevicesFound.

(** An event of the BLE code, or a line printed here. *)
Inductive sevent : Type :=
| Ble (e : event)
| Note (n : snote).

(** The history as the BLE stack sees it. *)
Fixpoint ble_view (h : list sevent) : trace :=
  match h with
  | [] => []
  | Ble e :: rest => e :: ble_view rest
  | Note _ :: rest => ble_view rest
  end.

Definition S (A : Type) : Type :=
  ble -> list sevent -> result A * list sevent.

Definition ret {A} (a : A) : S A := fun _ _ => (Ok a, []).

Definition raise {A} (e : exn) : S A := fun _ _ => (Raise e, []).

Definition bind {A B} (m : S A) (k : A -> S B) : S B :=
  fun env h =>
    match m env h with
    | (Ok a, t1) =>
        match k a env (h ++ t1)%list with
        | (r, t2) => (r, (t1 ++ t2)%list)
        end
    | (Raise e, t1) => (Raise e, t1)
    end.

(** [try: m  except Exception as e: handler e] *)
Definition try_except {A} (m : S A) (handler : exn -> S A) : S A :=
  fun env h =>
    match m env h with
    | (Ok a, t1) => (Ok a, t1)
    | (Raise e, t1) =>
        match handler e env (h ++ t1)%list with
        | (r, t2) => (r, (t1 ++ t2)%list)
        end
    end.

(** [try: m  except ValueError: handler] *)
Definition try_except_value_error {A} (m : S A) (handler : S A) : S A :=
  fun env h =>
    match m env h with
    | (Ok a, t1) => (Ok a, t1)
    | (Raise e, t1) =>
        if is_value_error e then
          match handler env (h ++ t1)%list with
          | (r, t2) => (r, (t1 ++ t2)%list)
          end
        else (Raise e, t1)
    end.

(** A call into the BLE code. *)
Definition call {A} (m : M A) : S A :=
  fun env h =>
    match m env (ble_view h) with
    | (r, t) => (r, map Ble t)
    end.

Definition say (n : snote) : S unit := fun _ _ => (Ok tt, [Note n]).

Declare Scope session_scope.
Notation "x <- m ;; k" := (bind m (fun x => k))
  (at level 61, m at next level, right associativity) : session_scope.
Notation "m ;; k" := (bind m (fun _ => k))
  (at level 61, right associativity) : session_scope.
Local Open Scope session_scope.

(** *** [led_control.main] *)

(** The parsed command line. *)
Record args : Type := mk_args {
  action : string;             (* "on" or "off" *)
  model_prefix : string;
  address : string;
  all_ks03 : bool;
  timeout : Q;
  verbose : bool
}.

Definition DEFAULT_PREFIX : string := "KS03~".

Definition DEFAULT_ADDRESS : string := "BE:60:4D:00:58:37".

(** The command line with nothing but the action given. *)
Definition default_args (action : string) : args :=
  mk_args action DEFAULT_PREFIX DEFAULT_ADDRESS false 8 false.

(** Why [main] raised [SystemExit]. *)
Inductive exit_reason : Type :=
| UnknownModelPrefix
| NoKS03DevicesFound
| NoDeviceFound (prefix : string).

Inductive outcome : Type :=
| Returned
| SystemExit (why : exit_reason).

(** [DEVICE_UUIDS.get(prefix)] *)
Fixpoint uuids_get (table : list (string * Control.uuids)) (prefix : string)
  : option Control.uuids :=
  match table with
  | [] => None
  | (k, m) :: rest =>
      if String.eqb k prefix then Some m else uuids_get rest prefix
  end.

(** The loop over the targets of [--all-ks03]. *)
Fixpoint send_to_all (targets : list (string * string)) (payload : bytes)
    (action : string) (verbose : bool) : S unit :=
  match targets with
  | [] => ret tt
  | (addr, name) :: rest =>
      let prefix :=
        if PyStr.startswith name "KS03~" then "KS03~" else "KS03-" in
      match uuids_get Control.DEVICE_UUIDS prefix with
      | Some mapping =>
          try_except
            (call (Control.write_command addr (Control.service mapping)
                     (Control.write mapping) payload verbose) ;;
             say (SentTo (PyStr.upper action) addr name))
            (fun e => say (FailedToSendTo addr name e)) ;;
          send_to_all rest payload action verbose
      | None => raise (KeyError prefix)
      end
  end.

Definition main (a : args) : S outcome :=
  match uuids_get Control.DEVICE_UUIDS (model_prefix a) with
  | None => ret (SystemExit UnknownModelPrefix)
  | Some mapping =>
      payload <- call (lift (Control.build_on_off_cmd
                               (String.eqb (action a) "on"))) ;;
      if all_ks03 a then
        targets <- call (Control.find_all_ks03 (timeout a)) ;;
        match targets with
        | [] => ret (SystemExit NoKS03DevicesFound)
        | _ :: _ =>
            send_to_all targets payload (action a) (verbose a) ;;
            ret Returned
        end
      else
        found <- (if String.eqb (address a) "" then
                    call (Control.find_device_by_prefix (model_prefix a)
                            (timeout a))
                  else ret (Some (address a))) ;;
        match found with
        | Some addr =>
            if String.eqb addr "" then
              ret (SystemExit (NoDeviceFound (model_prefix a)))
            else
              call (Control.write_command addr (Control.service mapping)
                      (Control.write mapping) payload (verbose a)) ;;
              say (SentTo (PyStr.upper (action a)) addr (model_prefix a)) ;;
              ret Returned
        | None => ret (SystemExit (NoDeviceFound (model_prefix a)))
        end
  end.

(** *** [led_menu.color_preset_menu] *)

(** What is typed in one pass of the loop: the text, and its value as a
    number ([None] when [int(choice)] raises). *)
Record preset_choice : Type := mk_preset_choice {
  pc_choice : string;
  pc_number : option Z
}.

(** One pass of the loop; the flag says whether the loop goes on. *)
Definition color_preset_pass (dev : Menu.discovered) (device_type : string)
    (p : Store.presets) (c : preset_choice) : S bool :=
  say (PresetsShown p) ;;
  if String.eqb (pc_choice c) "0" then ret false
  else
    try_except_value_error
      (idx <- match pc_number c with
              | Some v => ret (v - 1)
              | None =>
                  raise (ValueError "invalid literal for int() with base 10")
              end ;;
       if (0 <=? idx) && (idx <? Z.of_nat (List.length p)) then
         match nth_error p (Z.to_nat idx) with
         | Some (name, rgb) =>
             cmd <- call (lift (build_color_cmd (Store.rgb_r rgb)
                                  (Store.rgb_g rgb) (Store.rgb_b rgb)
                                  device_type 255)) ;;
             call (Menu.send_command dev cmd (name ++ " color") true)
         | None => ret tt
         end
       else
         say InvalidPresetNumber ;;
         call (sleep 1))
      (say PleaseEnterNumber ;;
       call (sleep 1)) ;;
    ret true.



(** *** The device selection of [led_menu.main] *)

(** What is typed at the selection prompt: the text, stripped and in
    lower case; whether [choice.isdigit()] holds; and the value of
    [int(choice)], [None] when that raises. *)
Record device_choice : Type := mk_device_choice {
  dc_text : string;
  dc_isdigit : bool;
  dc_number : option Z
}.

(** How the first part of [main] ends. *)
Inductive selection : Type :=
| MainReturned
| Selected (devices : list Menu.discovered) (selected_idx : Z)
| StillAsking.                               (* nothing more is typed *)

(** The selection loop, for as long as something is typed. *)
Fixpoint select_loop (devices : list Menu.discovered) (selected_idx : Z)
    (nicks : Store.nicknames) (inputs : list device_choice) : S selection :=
  match inputs with
  | [] => ret StillAsking
  | c :: rest =>
      say (DeviceList devices selected_idx nicks) ;;
      if String.eqb (dc_text c) "q" then ret MainReturned
      else if String.eqb (dc_text c) "r" then
        say Rescanning ;;
        rescanned <- call (Menu.scan_devices 8) ;;
        match rescanned with
        | [] =>
            say NoDevicesFound ;;
            call (sleep 2) ;;
            ret MainReturned
        | _ :: _ => select_loop rescanned 0 nicks rest
        end
      else if String.eqb (dc_text c) "" then
        ret (Selected devices selected_idx)
      else if dc_isdigit c then
        idx <- match dc_number c with
               | Some v => ret (v - 1)
               | None =>
                   raise (ValueError "invalid literal for int() with base 10")
               end ;;
        if (0 <=? idx) && (idx <? Z.of_nat (List.length devices)) then
          ret (Selected devices idx)
        else select_loop devices selected_idx nicks rest
      else select_loop devices selected_idx nicks rest
  end.

(** [main] up to the end of the selection loop; [nicks] is what
    [load_devices()] returned. *)
Definition select_device (nicks : Store.nicknames)
    (inputs : list device_choice) : S selection :=
  say ScanningForDevices ;;
  devices <- call (Menu.scan_devices 8) ;;
  match devices with
  | [] =>
      say NoKSDevicesFound ;;
      ret MainReturned
  | _ :: _ => select_loop devices 0 nicks inputs
  end.

(** [l[i]]: a negative index counts from the end; [None] stands for
    [IndexError]. *)
Definition list_getitem {A} (l : list A) (i : Z) : option A :=
  let n := Z.of_nat (List.length l) in
  if (0 <=? i) && (i <? n) then nth_error l (Z.to_nat i)
  else if (- n <=? i) && (i <? 0) then nth_error l (Z.to_nat (n + i))
  else None.

(** A fresh run. *)
Definition run {A} (m : S A) (env : ble) : result A * list sevent := m env [].

End Session.

(** The connections attempted in a session, in order. *)
Fixpoint connects_of (t : list Session.sevent) : list string :=
  match t with
  | [] => []
  | Session.Ble (EvConnect addr _) :: rest => addr :: connects_of rest
  | _ :: rest => connects_of rest
  end.

(** The writes made in a session. *)
Fixpoint session_writes (t : list Session.sevent) : list event :=
  match t with
  | [] => []
  | Session.Ble (EvWrite u p r o) :: rest =>
      EvWrite u p r o :: session_writes rest
  | _ :: rest => session_writes rest
  end.

(** The scans started in a session. *)
Fixpoint scans_of (t : list Session.sevent) : list Q :=
  match t with
  | [] => []
  | Session.Ble (EvDiscover timeout _) :: rest => timeout :: scans_of rest
  | _ :: rest => scans_of rest
  end.

(** A stack that sees the four sample devices and on which every write
    fails. *)
Definition stack_four_devices_failing : ble :=
  scripted None
    [Some (BleakError "E1"); Some (BleakError "E2"); Some (BleakError "E3");
     Some (BleakError "E4"); Some (BleakError "E5"); Some (BleakError "E6");
     Some (BleakError "E7"); Some (BleakError "E8")]
    None (Ok four_devices).

(** What a write engine may do once it has asked for the connection:
    no second connect, no scan, no change of the presets file, and no
    write of anything but the payload it was given. *)
Definition after_connect (payload : bytes) (e : event) : bool :=
  match e with
  | EvConnect _ _ | EvDiscover _ _ | EvSavePreset _ _ _ _ => false
  | EvWrite _ p _ _ => bytes_eqb p payload
  | _ => true
  end.

(** The lines a session printed itself, in order. *)
Fixpoint notes_of (t : list Session.sevent) : list Session.snote :=
  match t with
  | [] => []
  | Session.Note n :: rest => n :: notes_of rest
  | _ :: rest => notes_of rest
  end.

(** The one line [main] prints about a target of [--all-ks03]. *)
Definition told_about (action : string) (n : Session.snote)
    (target : string * string) : Prop :=
  n = Session.SentTo (PyStr.upper action) (fst target) (snd target)
  \/ exists e, n = Session.FailedToSendTo (fst target) (snd target) e.

(** Every write of a session carries the given payload. *)
Definition carries (payload : bytes) (se : Session.sevent) : bool :=
  match se with
  | Session.Ble (EvWrite _ p _ _) => bytes_eqb p payload
  | _ => true
  end.

(** The payload [main] sends for an action. *)
Definition payload_of (action : string) : bytes :=
  if String.eqb action "on" then on_bytes else [91; 15; 1; 181].

(** The colour command of a preset whose values fit a byte, at full
    brightness. *)
Definition preset_bytes (device_type : string) (rgb : Store.rgb) : bytes :=
  if String.eqb device_type "floor" then
    [90; 0; 1; Store.rgb_r rgb; Store.rgb_g rgb; Store.rgb_b rgb;
     0; 255; 0; 165]
  else
    [126; 7; 5; 3; Store.rgb_r rgb; Store.rgb_g rgb; Store.rgb_b rgb;
     0; 239].

(** What the preset menu prints, and waits, when it turns a choice
    down. *)
Definition turned_down (p : Store.presets) (n : Session.snote)
  : list Session.sevent :=
  [Session.Note (Session.PresetsShown p); Session.Note n;
   Session.Ble (EvSleep 1)].

(** The answer of the latest scan of a session. *)
Fixpoint last_scan_from (latest : option (result (list device)))
    (t : list Session.sevent) : option (result (list device)) :=
  match t with
  | [] => latest
  | Session.Ble (EvDiscover _ r) :: rest => last_scan_from (Some r) rest
  | _ :: rest => last_scan_from latest rest
  end.

Definition last_scan (t : list Session.sevent)
  : option (result (list device)) :=
  last_scan_from None t.

(** ** Basic facts *)

Lemma writes_of_app (t1 t2 : trace) :
  writes_of (t1 ++ t2)%list = (writes_of t1 ++ writes_of t2)%list.
Proof. apply filter_app. Qed.

Lemma disconnects_of_app (t1 t2 : trace) :
  disconnects_of (t1 ++ t2)%list = (disconnects_of t1 ++ disconnects_of t2)%list.
Proof. apply filter_app. Qed.

Lemma alt_char_short_of_spec (char_short : string) :
  match Control.alt_char_short_of char_short with
  | Some alt => alternate_of char_short alt
  | None => no_alternate char_short
  end.
Proof.
  unfold Control.alt_char_short_of, alternate_of, no_alternate.
  destruct (String.eqb_spec (PyStr.upper char_short) "AFD3") as [E1 | N1].
  - left; split; [exact E1 | reflexivity].
  - destruct (String.eqb_spec (PyStr.upper char_short) "FFF3") as [E2 | N2].
    + right; split; [exact E2 | reflexivity].
    + split; assumption.
Qed.

(** Case analysis on the next answer of the BLE stack. *)
Ltac ask_stack :=
  match goal with
  | |- context [ble_write ?env ?h ?u ?p ?r] =>
      let o := fresh "o" in
      destruct (ble_write env h u p r) as [o |] eqn:?
  end.

Ltac run_py :=
  cbv [bind try_except try_finally ret raise lift when print sleep connect
       is_connected disconnect write_gatt_char of_outcome fst snd app] in *.

(** The cascade, from any history: its writes and its outcome are one of
    the six runs. *)
Lemma write_cascade_runs env h char_short payload verbose :
  cascade_run char_short payload
    (writes_of (snd (Control.write_cascade char_short payload verbose env h)))
    (fst (Control.write_cascade char_short payload verbose env h)).
Proof.
  pose proof (alt_char_short_of_spec char_short) as Halt.
  unfold Control.write_cascade.
  destruct (Control.alt_char_short_of char_short) as [alt |];
    destruct verbose; run_py;
    repeat (ask_stack; cbn [fst snd app writes_of filter is_write]);
    cbn [fst snd app writes_of filter is_write];
    solve [constructor; assumption | econstructor; eassumption].
Qed.

Lemma log_no_writes (t : trace) :
  forallb is_log t = true -> writes_of t = [].
Proof.
  induction t as [| e t IH]; [reflexivity |].
  cbn [forallb]. intros H. apply andb_prop in H. destruct H as [He Ht].
  destruct e; try discriminate He; cbn; auto.
Qed.

Lemma for_each_logs {A} (xs : list A) (body : A -> M unit) :
  (forall x, logs_only (body x)) -> logs_only (for_each xs body).
Proof.
  intros Hbody. induction xs as [| x xs IH]; intros env h.
  - exists []. split; reflexivity.
  - cbn [for_each]. unfold bind.
    destruct (Hbody x env h) as (t & E & Ht). rewrite E.
    destruct (IH env (h ++ t)%list) as (t' & E' & Ht'). rewrite E'.
    exists (t ++ t')%list. split; [reflexivity |].
    rewrite forallb_app, Ht, Ht'. reflexivity.
Qed.

Lemma print_logs (m : message) : logs_only (print m).
Proof. intros env h. exists [EvPrint m]. split; reflexivity. Qed.

Lemma ret_logs : logs_only (ret tt).
Proof. intros env h. exists []. split; reflexivity. Qed.

Lemma bind_logs (m k : M unit) :
  logs_only m -> logs_only k -> logs_only (m ;; k).
Proof.
  intros Hm Hk env h. unfold bind.
  destruct (Hm env h) as (t & E & Ht). rewrite E.
  destruct (Hk env (h ++ t)%list) as (t' & E' & Ht'). rewrite E'.
  exists (t ++ t')%list. split; [reflexivity |].
  rewrite forallb_app, Ht, Ht'. reflexivity.
Qed.

Lemma list_services_logs (service_short : string) :
  logs_only (Control.list_services service_short).
Proof.
  intros env h. unfold Control.list_services.
  unfold bind at 1. unfold services at 1.
  match goal with
  | |- context [for_each ?xs ?body ?e ?hh] =>
      assert (Hfe : logs_only (for_each xs body));
      [| destruct (Hfe e hh) as (t & E & Ht); rewrite E;
         exists (EvServices :: t); split; [reflexivity | exact Ht] ]
  end.
  apply for_each_logs. intros s.
  destruct (Control.contains _ _); [| apply ret_logs].
  apply bind_logs; [apply print_logs |].
  apply for_each_logs. intros c. apply print_logs.
Qed.

(** The [finally] block of the write engine never raises; it asks whether
    the link is up and disconnects only then. *)
Lemma control_cleanup_spec env h :
  Control.cleanup env h =
    (Ok tt,
     if ble_is_connected env h
     then [EvIsConnected true;
           EvDisconnect (ble_disconnect env (h ++ [EvIsConnected true]))]
     else [EvIsConnected false]).
Proof.
  unfold Control.cleanup. run_py.
  destruct (ble_is_connected env h); [| reflexivity].
  destruct (ble_disconnect env _); reflexivity.
Qed.

Lemma menu_cleanup_spec env h :
  Menu.cleanup env h =
    (Ok tt,
     if ble_is_connected env h
     then [EvIsConnected true;
           EvDisconnect (ble_disconnect env (h ++ [EvIsConnected true]))]
     else [EvIsConnected false]).
Proof.
  unfold Menu.cleanup. run_py.
  destruct (ble_is_connected env h); [| reflexivity].
  destruct (ble_disconnect env _); reflexivity.
Qed.

Lemma preamble_logs address service_short char_short payload verbose :
  logs_only (preamble address service_short char_short payload verbose).
Proof.
  unfold preamble, when. destruct verbose; [| apply ret_logs].
  repeat (apply bind_logs; [apply print_logs |]).
  apply list_services_logs.
Qed.

(** After a successful connect the body of the write engine is: settle,
    preamble, cascade, and a second settle when a write went through. *)
Lemma control_write_body_connected env h address service_short char_short
    payload verbose :
  ble_connect env h address = None ->
  ble_is_connected env (h ++ [EvConnect address None]) = true ->
  exists tpre h',
    forallb is_log tpre = true /\
    let c := Control.write_cascade char_short payload verbose env h' in
    Control.write_body address service_short char_short payload verbose env h =
      (match fst c with
       | Ok (true, _) => Ok tt
       | Ok (false, last_error) =>
           Raise (RuntimeError
                    ("Write failed: " ++ Control.str_last_error last_error))
       | Raise e => Raise e
       end,
       [EvConnect address None; EvIsConnected true; EvSleep (3 # 10)]
         ++ tpre ++ snd c
         ++ match fst c with
            | Ok (true, _) => [EvSleep (2 # 10)]
            | _ => []
            end)%list.
Proof.
  intros Hc Hi.
  unfold Control.write_body.
  change (when verbose _) with
    (preamble address service_short char_short payload verbose).
  unfold bind at 1. unfold connect at 1. rewrite Hc. cbn [of_outcome].
  unfold bind at 1. unfold is_connected at 1. rewrite Hi. cbn [negb].
  unfold bind at 1. unfold ret at 1.
  unfold bind at 1. unfold sleep at 1.
  unfold bind at 1.
  match goal with
  | |- context [preamble ?a ?s ?c ?p ?v ?e ?hh] =>
      destruct (preamble_logs a s c p v e hh) as (tpre & E & Ht); rewrite E
  end.
  unfold bind at 1.
  match goal with
  | |- context [Control.write_cascade ?c ?p ?v ?e ?hh] =>
      exists tpre, hh; split; [exact Ht |];
      destruct (Control.write_cascade c p v e hh) as [[[[|] le] | e'] tc]
  end; cbn [fst snd sleep raise app]; rewrite ?app_nil_r; reflexivity.
Qed.

(** After a successful connect, the writes of the whole call are those of
    the cascade, run from some history, and the outcome of the call is
    the outcome of the cascade. *)
Lemma control_write_command_connected env address service_short char_short
    payload verbose :
  ble_connect env [] address = None ->
  ble_is_connected env [EvConnect address None] = true ->
  exists h',
    writes_of (snd (run (Control.write_command address service_short
                           char_short payload verbose) env))
    = writes_of (snd (Control.write_cascade char_short payload verbose env h'))
    /\ fst (run (Control.write_command address service_short char_short
                   payload verbose) env)
       = match fst (Control.write_cascade char_short payload verbose env h')
         with
         | Ok (true, _) => Ok tt
         | Ok (false, last_error) =>
             Raise (RuntimeError
                      ("Write failed: " ++ Control.str_last_error last_error))
         | Raise e => Raise e
         end.
Proof.
  intros Hc Hi.
  destruct (control_write_body_connected env [] address service_short
              char_short payload verbose Hc Hi) as (tpre & h' & Hlog & Hbody).
  cbv zeta in Hbody. exists h'.
  unfold run, Control.write_command, try_finally.
  rewrite Hbody, control_cleanup_spec.
  cbn [fst snd]. split; [| reflexivity].
  rewrite !writes_of_app, (log_no_writes tpre Hlog).
  destruct (Control.write_cascade char_short payload verbose env h')
    as [rc tc].
  cbn [fst snd]. unfold writes_of.
  match goal with
  | |- context [if ?b then _ else _] => destruct b
  end; destruct rc as [[[|] ?] | ?];
    cbn [filter is_write app]; rewrite ?app_nil_r; reflexivity.
Qed.

(** The same engine when the connection does not come up: no write at
    all. *)
Lemma control_write_command_not_connected env address service_short
    char_short payload verbose :
  ble_connect env [] address <> None
  \/ ble_is_connected env [EvConnect address None] = false ->
  writes_of (snd (run (Control.write_command address service_short char_short
                         payload verbose) env)) = []
  /\ exists e, fst (run (Control.write_command address service_short
                           char_short payload verbose) env) = Raise e.
Proof.
  intros H.
  assert (Hbody : exists e t,
             Control.write_body address service_short char_short payload
               verbose env [] = (Raise e, t)
             /\ writes_of t = []).
  { unfold Control.write_body.
    unfold bind at 1. unfold connect at 1.
    destruct (ble_connect env [] address) as [e |] eqn:Hc; cbn [of_outcome].
    - eexists; eexists; split; reflexivity.
    - destruct H as [H | H]; [congruence |].
      unfold bind at 1. unfold is_connected at 1. cbn [app].
      rewrite H. cbn [negb]. unfold bind at 1. unfold raise at 1.
      eexists; eexists; split; reflexivity. }
  destruct Hbody as (e & t & Hbody & Hw).
  unfold run, Control.write_command, try_finally.
  rewrite Hbody, control_cleanup_spec. cbn [fst snd].
  split; [| exists e; reflexivity].
  rewrite writes_of_app, Hw.
  match goal with
  | |- context [if ?b then _ else _] => destruct b
  end; reflexivity.
Qed.

(** ** The write engine of [led_control.py]: claims *)

(** C1.  After a successful connect, the writes of [write_command] are one
    of the runs of the fallback order: primary without response, primary
    with response, and, only for a short code of the pair FFF3/AFD3, the
    alternate without and then with response; the first success ends the
    run, and the call succeeds exactly when that run does. *)
Theorem write_command_fallback_order env address service_short char_short
    payload verbose :
  ble_connect env [] address = None ->
  ble_is_connected env [EvConnect address None] = true ->
  exists r,
    cascade_run char_short payload
      (writes_of (snd (run (Control.write_command address service_short
                              char_short payload verbose) env)))
      r
    /\ fst (run (Control.write_command address service_short char_short
                   payload verbose) env)
       = match r with
         | Ok _ => Ok tt
         | Raise e => Raise e
         end.
Proof.
  intros Hc Hi.
  destruct (control_write_command_connected env address service_short
              char_short payload verbose Hc Hi) as (h' & Hws & Hres).
  pose proof (write_cascade_runs env h' char_short payload verbose) as Hrun.
  rewrite <- Hws in Hrun.
  exists (fst (Control.write_cascade char_short payload verbose env h')).
  split; [exact Hrun |].
  rewrite Hres.
  (* a run never ends with [write_success] unset *)
  inversion Hrun; reflexivity.
Qed.

Lemma write_command_fallback_order_witness :
  exists r,
    cascade_run "FFF3" on_bytes
      (writes_of (snd (run (Control.write_command "BE:60:4D:00:58:37" "FFF0"
                              "FFF3" on_bytes false) stack_alt_succeeds)))
      r
    /\ fst (run (Control.write_command "BE:60:4D:00:58:37" "FFF0" "FFF3"
                   on_bytes false) stack_alt_succeeds)
       = match r with
         | Ok _ => Ok tt
         | Raise e => Raise e
         end.
Proof.
  apply (write_command_fallback_order stack_alt_succeeds "BE:60:4D:00:58:37"
           "FFF0" "FFF3" on_bytes false); reflexivity.
Defined.

(** Whenever all four steps fail, the error raised names the errors of
    steps (a), (b) and (d); the error of step (c) is caught without being
    bound and appears nowhere.  With two applicable steps both errors are
    named. *)
Lemma control_all_failed_message env address service_short char_short
    payload verbose :
  ble_connect env [] address = None ->
  ble_is_connected env [EvConnect address None] = true ->
  forall ws,
    ws = writes_of (snd (run (Control.write_command address service_short
                                char_short payload verbose) env)) ->
    (forall u1 u2 u3 u4 e1 e2 e3 e4,
        ws = [EvWrite u1 payload false (Some e1);
              EvWrite u2 payload true (Some e2);
              EvWrite u3 payload false (Some e3);
              EvWrite u4 payload true (Some e4)] ->
        fst (run (Control.write_command address service_short char_short
                    payload verbose) env)
        = Raise (RuntimeError ("All write attempts failed: " ++ str_exn e1
                               ++ ", " ++ str_exn e2 ++ ", " ++ str_exn e4)))
    /\ (forall u1 u2 e1 e2,
        ws = [EvWrite u1 payload false (Some e1);
              EvWrite u2 payload true (Some e2)] ->
        fst (run (Control.write_command address service_short char_short
                    payload verbose) env)
        = Raise (RuntimeError ("Write failed: " ++ str_exn e1
                               ++ ", " ++ str_exn e2))).
Proof.
  intros Hc Hi ws Hws.
  destruct (control_write_command_connected env address service_short
              char_short payload verbose Hc Hi) as (h' & Hw & Hres).
  pose proof (write_cascade_runs env h' char_short payload verbose) as Hrun.
  rewrite <- Hw, <- Hws in Hrun. rewrite Hres.
  split; intros * Heq; rewrite Heq in Hrun; inversion Hrun; subst;
    reflexivity.
Qed.

(** C2.  With the short code FFF3 and four failing writes with the errors
    E1, E2, E3, E4, all four steps are attempted and the call raises
    "All write attempts failed: E1, E2, E4": the error of the third step
    is not carried. *)
Theorem write_command_all_failed_drops_third_error :
  run (Control.write_command "BE:60:4D:00:58:37" "FFF0" "FFF3" on_bytes false)
      stack_all_fail
  = (Raise (RuntimeError "All write attempts failed: E1, E2, E4"),
     [EvConnect "BE:60:4D:00:58:37" None; EvIsConnected true;
      EvSleep (3 # 10);
      EvWrite (UUID_TEMPLATE "FFF3") on_bytes false (Some (BleakError "E1"));
      EvWrite (UUID_TEMPLATE "FFF3") on_bytes true (Some (BleakError "E2"));
      EvWrite (UUID_TEMPLATE "AFD3") on_bytes false (Some (BleakError "E3"));
      EvWrite (UUID_TEMPLATE "AFD3") on_bytes true (Some (BleakError "E4"));
      EvIsConnected true; EvDisconnect None]).
Proof. vm_compute. reflexivity. Qed.

(** ** Computations that never disconnect *)

Section NoDisconnect.

Context {A B : Type}.

Lemma nd_ret (a : A) : no_disconnect (ret a).
Proof. intros env h. split; reflexivity. Qed.

Lemma nd_raise (e : exn) : no_disconnect (@raise A e).
Proof. intros env h. split; reflexivity. Qed.

Lemma nd_lift (r : result A) : no_disconnect (lift r).
Proof. intros env h. split; reflexivity. Qed.

Lemma nd_bind (m : M A) (k : A -> M B) :
  no_disconnect m -> (forall a, no_disconnect (k a)) ->
  no_disconnect (bind m k).
Proof.
  intros Hm Hk env h. destruct (Hm env h) as [Hd He]. unfold bind. split.
  - destruct (m env h) as [[a | e] t]; cbn [snd] in *; [| exact Hd].
    destruct (Hk a env (h ++ t)%list) as [Hd' _].
    destruct (k a env (h ++ t)%list) as [r t']. cbn [snd] in *.
    rewrite disconnects_of_app, Hd, Hd'. reflexivity.
  - intros d. rewrite He.
    destruct (m env h) as [[a | e] t]; [| reflexivity].
    destruct (Hk a env (h ++ t)%list) as [_ He']. rewrite He'. reflexivity.
Qed.

Lemma nd_try_except (m : M A) (handler : exn -> M A) :
  no_disconnect m -> (forall e, no_disconnect (handler e)) ->
  no_disconnect (try_except m handler).
Proof.
  intros Hm Hk env h. destruct (Hm env h) as [Hd He]. unfold try_except.
  split.
  - destruct (m env h) as [[a | e] t]; cbn [snd] in *; [exact Hd |].
    destruct (Hk e env (h ++ t)%list) as [Hd' _].
    destruct (handler e env (h ++ t)%list) as [r t']. cbn [snd] in *.
    rewrite disconnects_of_app, Hd, Hd'. reflexivity.
  - intros d. rewrite He.
    destruct (m env h) as [[a | e] t]; [reflexivity |].
    destruct (Hk e env (h ++ t)%list) as [_ He']. rewrite He'. reflexivity.
Qed.

End NoDisconnect.

Lemma nd_connect address : no_disconnect (connect address).
Proof. intros env h. split; reflexivity. Qed.

Lemma nd_is_connected : no_disconnect is_connected.
Proof. intros env h. split; reflexivity. Qed.

Lemma nd_services : no_disconnect services.
Proof. intros env h. split; reflexivity. Qed.

Lemma nd_sleep s : no_disconnect (sleep s).
Proof. intros env h. split; reflexivity. Qed.

Lemma nd_print m : no_disconnect (print m).
Proof. intros env h. split; reflexivity. Qed.

Lemma nd_write u p r : no_disconnect (write_gatt_char u p r).
Proof. intros env h. split; reflexivity. Qed.

Lemma nd_for_each {A} (xs : list A) (body : A -> M unit) :
  (forall x, no_disconnect (body x)) -> no_disconnect (for_each xs body).
Proof.
  intros Hb. induction xs as [| x xs IH]; cbn [for_each].
  - apply nd_ret.
  - apply nd_bind; [apply Hb | intros _; exact IH].
Qed.

Create HintDb nodisc.
#[export] Hint Resolve nd_connect nd_is_connected nd_services nd_sleep
  nd_print nd_write : nodisc.

Ltac nd_step :=
  match goal with
  | |- no_disconnect (bind _ _) => apply nd_bind; [| intros ?]
  | |- no_disconnect (try_except _ _) => apply nd_try_except; [| intros ?]
  | |- no_disconnect (for_each _ _) => apply nd_for_each; intros ?
  | |- no_disconnect (ret _) => apply nd_ret
  | |- no_disconnect (raise _) => apply nd_raise
  | |- no_disconnect (lift _) => apply nd_lift
  | |- no_disconnect (when ?b _) => unfold when; destruct b
  | |- no_disconnect (if ?b then _ else _) => destruct b
  | |- no_disconnect (match ?x with _ => _ end) => destruct x
  | |- no_disconnect _ => solve [auto with nodisc]
  end.

Lemma nd_control_write_body address service_short char_short payload verbose :
  no_disconnect
    (Control.write_body address service_short char_short payload verbose).
Proof.
  unfold Control.write_body, Control.write_cascade, Control.list_services.
  repeat nd_step.
Qed.

Lemma nd_menu_write_body address service_short char_short payload :
  no_disconnect (Menu.write_body address service_short char_short payload).
Proof. unfold Menu.write_body. repeat nd_step. Qed.

Lemma try_finally_cleanup {A} (body : M A) (cleanup : M unit) env :
  (forall h, cleanup env h = (Ok tt, cleanup_events env h)) ->
  run (try_finally body cleanup) env
  = (fst (body env []), (snd (body env []) ++ cleanup_events env (snd (body env [])))%list).
Proof.
  intros Hc. unfold run, try_finally.
  destruct (body env []) as [r t]. cbn [app fst snd]. rewrite Hc. reflexivity.
Qed.

Lemma disconnects_of_cleanup_events env t :
  disconnects_of (cleanup_events env t)
  = if ble_is_connected env t
    then [EvDisconnect (ble_disconnect env (t ++ [EvIsConnected true]))]
    else [].
Proof.
  unfold cleanup_events. destruct (ble_is_connected env t); reflexivity.
Qed.

(** Cleanup of a [try ... finally] whose body never disconnects. *)
Lemma guarded_cleanup {A} (body : M A) (cleanup : M unit) :
  no_disconnect body ->
  (forall env h, cleanup env h = (Ok tt, cleanup_events env h)) ->
  forall env,
    let inner := body env [] in
    let out := run (try_finally body cleanup) env in
    fst out = fst inner
    /\ snd out = (snd inner ++ cleanup_events env (snd inner))%list
    /\ disconnects_of (snd out)
       = (if ble_is_connected env (snd inner)
          then [EvDisconnect
                  (ble_disconnect env (snd inner ++ [EvIsConnected true]))]
          else [])
    /\ forall d,
        fst (run (try_finally body cleanup) (with_disconnect d env)) = fst out.
Proof.
  intros Hnd Hc env. cbv zeta.
  rewrite (try_finally_cleanup body cleanup env (Hc env)). cbn [fst snd].
  destruct (Hnd env []) as [Hd He].
  repeat split.
  - rewrite disconnects_of_app, Hd, disconnects_of_cleanup_events.
    reflexivity.
  - intros d.
    rewrite (try_finally_cleanup body cleanup (with_disconnect d env)
               (Hc (with_disconnect d env))).
    cbn [fst]. rewrite He. reflexivity.
Qed.

(** ** Cleanup: claims *)

(** C8, as stated, fails: when the connection is refused the client is not
    connected, the guard of the [finally] block is false, and no
    disconnect is attempted on that exit path. *)
Lemma write_command_connection_failure_no_disconnect :
  run (Control.write_command "BE:60:4D:00:58:37" "FFF0" "FFF3" on_bytes false)
      stack_no_connection
  = (Raise (BleakError "device not found"),
     [EvConnect "BE:60:4D:00:58:37" (Some (BleakError "device not found"));
      EvIsConnected false])
  /\ disconnects_of
       (snd (run (Control.write_command "BE:60:4D:00:58:37" "FFF0" "FFF3"
                    on_bytes false) stack_no_connection)) = [].
Proof. split; vm_compute; reflexivity. Qed.

(** C8, amended.  On every exit path of [write_command], in both modules,
    the [finally] block runs after the body: it asks whether the client is
    connected and attempts a disconnect exactly when it is.  The outcome of
    the call is the outcome of the body, whatever the disconnect answers. *)
Theorem write_command_guarded_cleanup env address service_short char_short
    payload verbose :
  (let inner := Control.write_body address service_short char_short payload
                  verbose env [] in
   let out := run (Control.write_command address service_short char_short
                     payload verbose) env in
   fst out = fst inner
   /\ snd out = (snd inner ++ cleanup_events env (snd inner))%list
   /\ disconnects_of (snd out)
      = (if ble_is_connected env (snd inner)
         then [EvDisconnect
                 (ble_disconnect env (snd inner ++ [EvIsConnected true]))]
         else [])
   /\ forall d,
       fst (run (Control.write_command address service_short char_short
                   payload verbose) (with_disconnect d env)) = fst out)
  /\
  (let inner := Menu.write_body address service_short char_short payload
                  env [] in
   let out := run (Menu.write_command address service_short char_short
                     payload) env in
   fst out = fst inner
   /\ snd out = (snd inner ++ cleanup_events env (snd inner))%list
   /\ disconnects_of (snd out)
      = (if ble_is_connected env (snd inner)
         then [EvDisconnect
                 (ble_disconnect env (snd inner ++ [EvIsConnected true]))]
         else [])
   /\ forall d,
       fst (run (Menu.write_command address service_short char_short payload)
              (with_disconnect d env)) = fst out).
Proof.
  split.
  - apply (guarded_cleanup
             (Control.write_body address service_short char_short payload
                verbose) Control.cleanup).
    + apply nd_control_write_body.
    + intros; apply control_cleanup_spec.
  - apply (guarded_cleanup
             (Menu.write_body address service_short char_short payload)
             Menu.cleanup).
    + apply nd_menu_write_body.
    + intros; apply menu_cleanup_spec.
Qed.

(** The colour path of [send_command] has no [finally]: a failed write
    leaves the link up, and a failed disconnect after two good writes is
    reported as the failure of the command. *)
Example send_command_color_write_failure :
  run (Menu.send_command ("BE:60:4D:00:58:37", "KS03~370058", "KS03~")
         [90; 0; 1; 255; 0; 0; 0; 255; 0; 165] "Red color" true)
      (scripted None [None; Some (BleakError "E2")] None (Ok []))
  = (Ok tt,
     [EvPrint (MsgSending "Red color");
      EvConnect "BE:60:4D:00:58:37" None; EvSleep (3 # 10);
      EvWrite (UUID_TEMPLATE "AFD1") on_bytes false None; EvSleep (5 # 10);
      EvWrite (UUID_TEMPLATE "AFD1") [90; 0; 1; 255; 0; 0; 0; 255; 0; 165]
              false (Some (BleakError "E2"));
      EvPrint (MsgFailed (BleakError "E2")); EvSleep 1]).
Proof. vm_compute. reflexivity. Qed.

Example send_command_color_disconnect_failure :
  run (Menu.send_command ("BE:60:4D:00:58:37", "KS03~370058", "KS03~")
         [90; 0; 1; 255; 0; 0; 0; 255; 0; 165] "Red color" true)
      (scripted None [] (Some (BleakError "D")) (Ok []))
  = (Ok tt,
     [EvPrint (MsgSending "Red color");
      EvConnect "BE:60:4D:00:58:37" None; EvSleep (3 # 10);
      EvWrite (UUID_TEMPLATE "AFD1") on_bytes false None; EvSleep (5 # 10);
      EvWrite (UUID_TEMPLATE "AFD1") [90; 0; 1; 255; 0; 0; 0; 255; 0; 165]
              false None;
      EvSleep (2 # 10); EvDisconnect (Some (BleakError "D"));
      EvPrint (MsgFailed (BleakError "D")); EvSleep 1]).
Proof. vm_compute. reflexivity. Qed.

(** ** The write engine of the menu: claim *)

(** C10.  [led_menu.write_command] writes to the primary characteristic
    only, at most twice: without response, and with response when that
    failed.  There is no write to any other characteristic. *)
Theorem menu_write_command_primary_only env address service_short char_short
    payload :
  let ws := writes_of (snd (run (Menu.write_command address service_short
                                   char_short payload) env)) in
  ws = []
  \/ ws = [EvWrite (UUID_TEMPLATE char_short) payload false None]
  \/ exists e1 o2,
      ws = [EvWrite (UUID_TEMPLATE char_short) payload false (Some e1);
            EvWrite (UUID_TEMPLATE char_short) payload true o2].
Proof.
  cbv zeta.
  unfold run, Menu.write_command, try_finally.
  assert (Hbody :
    let ws := writes_of (snd (Menu.write_body address service_short
                                char_short payload env [])) in
    ws = []
    \/ ws = [EvWrite (UUID_TEMPLATE char_short) payload false None]
    \/ exists e1 o2,
        ws = [EvWrite (UUID_TEMPLATE char_short) payload false (Some e1);
              EvWrite (UUID_TEMPLATE char_short) payload true o2]).
  { unfold Menu.write_body. run_py.
    destruct (ble_connect env [] address); [left; reflexivity |].
    destruct (ble_is_connected env _); [| left; reflexivity].
    cbn [negb].
    ask_stack; cbn [fst snd app writes_of filter is_write].
    - ask_stack; cbn [fst snd app writes_of filter is_write];
        right; right; eexists; eexists; reflexivity.
    - right; left; reflexivity. }
  cbv zeta in Hbody.
  destruct (Menu.write_body address service_short char_short payload env [])
    as [r t].
  rewrite menu_cleanup_spec. cbn [fst snd app] in *.
  assert (Hw : writes_of
                 (t ++ (if ble_is_connected env t
                        then [EvIsConnected true;
                              EvDisconnect
                                (ble_disconnect env (t ++ [EvIsConnected true]))]
                        else [EvIsConnected false]))%list
               = writes_of t).
  { rewrite writes_of_app.
    destruct (ble_is_connected env t); cbn; apply app_nil_r. }
  destruct r; rewrite Hw; exact Hbody.
Qed.

(** ** Hex text *)

Lemma hex_char_digit (d : Z) :
  0 <= d < 16 ->
  PyStr.is_space (hex_char d) = false /\ PyStr.hexval (hex_char d) = Some d.
Proof.
  intros H.
  assert (Hall : forallb
            (fun n => negb (PyStr.is_space (hex_char (Z.of_nat n)))
                      && match PyStr.hexval (hex_char (Z.of_nat n)) with
                         | Some v => v =? Z.of_nat n
                         | None => false
                         end)
            (seq 0 16) = true) by (vm_compute; reflexivity).
  rewrite forallb_forall in Hall.
  specialize (Hall (Z.to_nat d)).
  rewrite Z2Nat.id in Hall by lia.
  assert (Hin : In (Z.to_nat d) (seq 0 16)) by (apply in_seq; lia).
  apply Hall in Hin. apply andb_prop in Hin. destruct Hin as [Hs Hv].
  split.
  - destruct (PyStr.is_space (hex_char d)); [discriminate | reflexivity].
  - destruct (PyStr.hexval (hex_char d)) as [v |]; [| discriminate].
    apply Z.eqb_eq in Hv. congruence.
Qed.

(** A value that fits a byte is formatted as its two hex digits. *)
Lemma format_02X_byte (v : Z) :
  0 <= v <= 255 ->
  PyStr.format_02X v
  = String (hex_char (v / 16)) (String (hex_char (v mod 16)) "").
Proof.
  intros H.
  assert (Hall : forallb
            (fun n => String.eqb
                        (PyStr.format_02X (Z.of_nat n))
                        (String (hex_char (Z.of_nat n / 16))
                                (String (hex_char (Z.of_nat n mod 16)) "")))
            (seq 0 256) = true) by (vm_compute; reflexivity).
  rewrite forallb_forall in Hall.
  specialize (Hall (Z.to_nat v)).
  rewrite Z2Nat.id in Hall by lia.
  apply String.eqb_eq, Hall, in_seq. lia.
Qed.

(** One step of [bytes.fromhex] on a pair of hex digits. *)
Lemma fromhex_opt_pair (c1 c2 : ascii) (hi lo : Z) (s : string) :
  PyStr.is_space c1 = false ->
  PyStr.hexval c1 = Some hi ->
  PyStr.hexval c2 = Some lo ->
  PyStr.fromhex_opt (String c1 (String c2 s))
  = option_map (cons (16 * hi + lo)) (PyStr.fromhex_opt s).
Proof.
  intros Hs H1 H2. cbn [PyStr.fromhex_opt]. rewrite Hs, H1, H2. reflexivity.
Qed.

(** Parsing the two digits of a byte gives the byte back. *)
Lemma fromhex_opt_byte (v : Z) (s : string) :
  0 <= v <= 255 ->
  PyStr.fromhex_opt (PyStr.format_02X v ++ s)
  = option_map (cons v) (PyStr.fromhex_opt s).
Proof.
  intros H. rewrite (format_02X_byte v H). cbn [append].
  assert (Hhi : 0 <= v / 16 < 16)
    by (split; [apply Z.div_pos; lia | apply Z.div_lt_upper_bound; lia]).
  assert (Hlo : 0 <= v mod 16 < 16) by (apply Z.mod_pos_bound; lia).
  destruct (hex_char_digit _ Hhi) as [Hs1 Hv1].
  destruct (hex_char_digit _ Hlo) as [_ Hv2].
  rewrite (fromhex_opt_pair _ _ _ _ s Hs1 Hv1 Hv2).
  replace (16 * (v / 16) + v mod 16) with v
    by (rewrite <- Z.div_mod; lia).
  reflexivity.
Qed.

Lemma append_assoc (a b c : string) : (a ++ b) ++ c = a ++ (b ++ c).
Proof.
  induction a as [| x a IH]; cbn [append]; [reflexivity |].
  rewrite IH. reflexivity.
Qed.

(** The on and off commands are two constants, the same in both
    modules. *)
Lemma build_on_off_cmd_bytes (is_on : bool) :
  build_on_off_cmd is_on = Ok [91; if is_on then 240 else 15; 1; 181]
  /\ Control.build_on_off_cmd is_on = build_on_off_cmd is_on.
Proof. destruct is_on; split; vm_compute; reflexivity. Qed.

(** The two layouts, for components that fit a byte. *)
Lemma build_color_cmd_ceiling_bytes (r g b brightness : Z) (device_type : string) :
  device_type <> "floor" ->
  0 <= r <= 255 -> 0 <= g <= 255 -> 0 <= b <= 255 ->
  build_color_cmd r g b device_type brightness
  = Ok [126; 7; 5; 3; r; g; b; 0; 239].
Proof.
  intros Hdt Hr Hg Hb. unfold build_color_cmd.
  apply String.eqb_neq in Hdt. rewrite Hdt.
  unfold PyStr.fromhex.
  change ("7E070503" ++ ?x) with
    (String "7" (String "E" (String "0" (String "7" (String "0" (String "5"
       (String "0" (String "3" x)))))))).
  rewrite !append_assoc.
  do 4 (erewrite fromhex_opt_pair; [| reflexivity | reflexivity | reflexivity]).
  rewrite !fromhex_opt_byte by assumption.
  reflexivity.
Qed.

Lemma build_color_cmd_floor_bytes (r g b brightness : Z) :
  0 <= r <= 255 -> 0 <= g <= 255 -> 0 <= b <= 255 ->
  0 <= brightness <= 255 ->
  build_color_cmd r g b "floor" brightness
  = Ok [90; 0; 1; r; g; b; 0; brightness; 0; 165].
Proof.
  intros Hr Hg Hb Hbr. unfold build_color_cmd.
  change (String.eqb "floor" "floor") with true. cbv iota.
  unfold PyStr.fromhex.
  change ("5A0001" ++ ?x) with
    (String "5" (String "A" (String "0" (String "0" (String "0"
       (String "1" x)))))).
  rewrite !append_assoc.
  do 3 (erewrite fromhex_opt_pair; [| reflexivity | reflexivity | reflexivity]).
  rewrite !fromhex_opt_byte by assumption.
  change ("00" ++ ?x) with (String "0" (String "0" x)).
  erewrite fromhex_opt_pair; [| reflexivity | reflexivity | reflexivity].
  rewrite !fromhex_opt_byte by assumption.
  reflexivity.
Qed.

Lemma brightness_cmd_bytes (level : Z) :
  0 <= level <= 255 ->
  brightness_cmd level = Ok [90; 0; 2; 0; 0; 0; 0; level; 0; 165].
Proof.
  intros H. unfold brightness_cmd, PyStr.fromhex.
  change ("5A000200000000" ++ ?x) with
    (String "5" (String "A" (String "0" (String "0" (String "0" (String "2"
       (String "0" (String "0" (String "0" (String "0" (String "0"
       (String "0" (String "0" (String "0" x)))))))))))))).
  do 7 (erewrite fromhex_opt_pair; [| reflexivity | reflexivity | reflexivity]).
  rewrite fromhex_opt_byte by assumption.
  reflexivity.
Qed.

Lemma mem_char_app (c : ascii) (s1 s2 : string) :
  mem_char c (s1 ++ s2) = mem_char c s1 || mem_char c s2.
Proof.
  induction s1 as [| x s1 IH]; cbn [append mem_char]; [reflexivity |].
  rewrite IH. apply orb_assoc.
Qed.

Lemma fromhex_opt_minus_bounded (n : nat) :
  forall s, (String.length s <= n)%nat ->
            mem_char "-" s = true -> PyStr.fromhex_opt s = None.
Proof.
  induction n as [| n IH]; intros s Hlen Hmem.
  - destruct s; [discriminate Hmem | cbn in Hlen; lia].
  - destruct s as [| c s']; [discriminate Hmem |].
    cbn [PyStr.fromhex_opt mem_char String.length] in *.
    destruct (Ascii.eqb_spec c "-") as [-> | Hc].
    + reflexivity.
    + cbn [orb] in Hmem.
      destruct (PyStr.is_space c).
      * apply IH; [lia | exact Hmem].
      * destruct (PyStr.hexval c) as [hi |]; [| reflexivity].
        destruct s' as [| c2 s'']; [reflexivity |].
        cbn [mem_char String.length] in *.
        destruct (Ascii.eqb_spec c2 "-") as [-> | Hc2]; [reflexivity |].
        cbn [orb] in Hmem.
        destruct (PyStr.hexval c2) as [lo |]; [| reflexivity].
        rewrite (IH s''); [reflexivity | lia | exact Hmem].
Qed.

Lemma fromhex_minus (s : string) :
  mem_char "-" s = true -> PyStr.fromhex s = Raise PyStr.fromhex_error.
Proof.
  intros H. unfold PyStr.fromhex.
  rewrite (fromhex_opt_minus_bounded (String.length s) s (le_n _) H).
  reflexivity.
Qed.

Lemma format_02X_negative (v : Z) :
  v < 0 -> mem_char "-" (PyStr.format_02X v) = true.
Proof.
  intros H. unfold PyStr.format_02X.
  apply Z.ltb_lt in H. rewrite H. reflexivity.
Qed.

(** ** Command encoder: claims *)

(** C3, as stated, fails for the ceiling layout: the 4th byte is the last
    byte of the header, so the 4th to 6th bytes of the command for
    (1, 2, 3) are 3, 1, 2.  Counting from zero instead would put r, g, b at
    4..6 for the ceiling but not for the floor layout, whose bytes 4..6 are
    then 2, 3, 0. *)
Lemma build_color_cmd_ceiling_4th_to_6th :
  exists p q,
    build_color_cmd 1 2 3 "ceiling" 255 = Ok p
    /\ build_color_cmd 1 2 3 "floor" 255 = Ok q
    /\ List.length p = 9%nat
    /\ byte_range 4 6 p = [3; 1; 2]
    /\ byte_range 4 6 p <> [1; 2; 3]
    /\ firstn 3 (skipn 4 q) = [2; 3; 0].
Proof.
  exists [126; 7; 5; 3; 1; 2; 3; 0; 239], [90; 0; 1; 1; 2; 3; 0; 255; 0; 165].
  repeat split; try (vm_compute; reflexivity).
  vm_compute. discriminate.
Qed.

(** C3, amended.  For r, g, b in 0..255 the ceiling command has exactly 9
    bytes and its 5th to 7th bytes are r, g, b; the floor command (with a
    brightness in 0..255, 255 by default) has exactly 10 bytes and its 4th
    to 6th bytes are r, g, b. *)
Theorem build_color_cmd_layout (r g b brightness : Z) :
  0 <= r <= 255 -> 0 <= g <= 255 -> 0 <= b <= 255 ->
  (exists p,
      build_color_cmd r g b "ceiling" brightness = Ok p
      /\ List.length p = 9%nat
      /\ byte_range 5 7 p = [r; g; b])
  /\ (0 <= brightness <= 255 ->
      exists p,
        build_color_cmd r g b "floor" brightness = Ok p
        /\ List.length p = 10%nat
        /\ byte_range 4 6 p = [r; g; b]).
Proof.
  intros Hr Hg Hb. split.
  - eexists. split.
    + apply build_color_cmd_ceiling_bytes; [discriminate | assumption ..].
    + split; reflexivity.
  - intros Hbr. eexists. split.
    + apply build_color_cmd_floor_bytes; assumption.
    + split; reflexivity.
Qed.

Lemma build_color_cmd_layout_witness :
  (exists p,
      build_color_cmd 255 147 41 "ceiling" 255 = Ok p
      /\ List.length p = 9%nat
      /\ byte_range 5 7 p = [255; 147; 41])
  /\ (0 <= 255 <= 255 ->
      exists p,
        build_color_cmd 255 147 41 "floor" 255 = Ok p
        /\ List.length p = 10%nat
        /\ byte_range 4 6 p = [255; 147; 41]).
Proof. apply (build_color_cmd_layout 255 147 41 255); lia. Defined.

(** C9.  Any [device_type] other than the exact text "floor" takes the
    ceiling branch: the command is the one built for "ceiling", the 9-byte
    layout when r, g, b fit a byte, and never the 10-byte floor layout. *)
Theorem build_color_cmd_non_floor_is_ceiling (r g b brightness : Z)
    (device_type : string) :
  device_type <> "floor" ->
  build_color_cmd r g b device_type brightness
  = build_color_cmd r g b "ceiling" 255
  /\ (0 <= r <= 255 -> 0 <= g <= 255 -> 0 <= b <= 255 ->
      build_color_cmd r g b device_type brightness
      = Ok [126; 7; 5; 3; r; g; b; 0; 239]
      /\ build_color_cmd r g b device_type brightness
         <> Ok [90; 0; 1; r; g; b; 0; brightness; 0; 165]).
Proof.
  intros Hdt. split.
  - unfold build_color_cmd.
    apply String.eqb_neq in Hdt. rewrite Hdt. reflexivity.
  - intros Hr Hg Hb.
    rewrite (build_color_cmd_ceiling_bytes r g b brightness device_type)
      by assumption.
    split; [reflexivity | discriminate].
Qed.

Lemma build_color_cmd_non_floor_is_ceiling_witness :
  build_color_cmd 255 147 41 "Floor" 255
  = build_color_cmd 255 147 41 "ceiling" 255
  /\ (0 <= 255 <= 255 -> 0 <= 147 <= 255 -> 0 <= 41 <= 255 ->
      build_color_cmd 255 147 41 "Floor" 255
      = Ok [126; 7; 5; 3; 255; 147; 41; 0; 239]
      /\ build_color_cmd 255 147 41 "Floor" 255
         <> Ok [90; 0; 1; 255; 147; 41; 0; 255; 0; 165]).
Proof.
  apply (build_color_cmd_non_floor_is_ceiling 255 147 41 255 "Floor").
  discriminate.
Defined.

(** C4, as stated, fails: with r = g = 256 the three components format to
    eight hex digits, the text parses, and the encoder returns a 10-byte
    ceiling command in which the values have run into each other. *)
Lemma build_color_cmd_accepts_256 :
  build_color_cmd 256 256 0 "ceiling" 255
  = Ok [126; 7; 5; 3; 16; 1; 0; 0; 0; 239].
Proof. vm_compute. reflexivity. Qed.

(** C4, amended.  [build_color_cmd] has no range check of its own; it
    raises [ValueError] whenever a colour component is negative, because
    the minus sign is not hex text.  The range is checked by the menus
    before anything is encoded: [custom_color_menu] rejects any colour
    with a component outside 0..255 and [brightness_menu] any custom level
    outside 0..255; each prints its range message and touches no
    device. *)
Theorem out_of_range_rejections :
  (forall r g b device_type brightness,
      r < 0 \/ g < 0 \/ b < 0 ->
      build_color_cmd r g b device_type brightness
      = Raise (ValueError "non-hexadecimal number found in fromhex() arg"))
  /\ (forall addr name prefix m r g b confirm save preset_name env h,
         Menu.getitem Menu.DEVICE_MAPPINGS prefix = Ok m ->
         ~ (0 <= r <= 255 /\ 0 <= g <= 255 /\ 0 <= b <= 255) ->
         Menu.custom_color_menu (addr, name, prefix) (Some r) (Some g)
           (Some b) confirm save preset_name env h
         = (Ok tt,
            [EvPrint MsgHeader; EvPrint MsgCustomColor;
             EvPrint MsgColorRange; EvSleep 2]))
  /\ (forall addr name prefix m level env h,
         Menu.getitem Menu.DEVICE_MAPPINGS prefix = Ok m ->
         level < 0 \/ 255 < level ->
         Menu.brightness_menu (addr, name, prefix) "5" (Some level) env h
         = (Ok tt,
            [EvPrint MsgHeader; EvPrint MsgBrightnessMenu;
             EvPrint MsgBrightnessRange; EvSleep 2])).
Proof.
  split; [| split].
  - intros r g b device_type brightness H.
    unfold build_color_cmd.
    apply fromhex_minus.
    destruct (String.eqb device_type "floor");
      rewrite !mem_char_app;
      destruct H as [H | [H | H]]; rewrite (format_02X_negative _ H);
      repeat first [rewrite orb_true_r | rewrite orb_true_l]; reflexivity.
  - intros addr name prefix m r g b confirm save preset_name env h Hm Hout.
    unfold Menu.custom_color_menu. rewrite Hm.
    assert (Hrange : negb (forallb Menu.in_byte_range [r; g; b]) = true).
    { apply negb_true_iff.
      destruct (forallb Menu.in_byte_range [r; g; b]) eqn:Hall;
        [| reflexivity].
      exfalso. apply Hout.
      cbn [forallb] in Hall. unfold Menu.in_byte_range in Hall.
      repeat (apply andb_prop in Hall; destruct Hall as [? Hall]).
      repeat match goal with
             | H : (_ && _) = true |- _ => apply andb_prop in H; destruct H
             | H : (_ <=? _) = true |- _ => apply Z.leb_le in H
             end.
      lia. }
    unfold bind at 1. unfold lift at 1.
    unfold bind at 1. unfold print at 1.
    unfold bind at 1. unfold print at 1.
    unfold try_except_value_error, Menu.int_input.
    unfold bind at 1. unfold ret at 1.
    unfold bind at 1. unfold ret at 1.
    unfold bind at 1. unfold ret at 1.
    rewrite Hrange. reflexivity.
  - intros addr name prefix m level env h Hm Hlevel.
    unfold Menu.brightness_menu. rewrite Hm.
    assert (Hrange : negb ((0 <=? level) && (level <=? 255)) = true).
    { destruct Hlevel as [Hl | Hl].
      - apply Z.leb_gt in Hl. rewrite Hl. reflexivity.
      - apply Z.leb_gt in Hl. rewrite Hl. rewrite andb_false_r. reflexivity. }
    cbn [String.eqb Ascii.eqb Bool.eqb]. rewrite Hrange. reflexivity.
Qed.

Lemma out_of_range_rejections_witness :
  build_color_cmd (-1) 0 0 "ceiling" 255
  = Raise (ValueError "non-hexadecimal number found in fromhex() arg")
  /\ Menu.custom_color_menu ("BE:60:4D:00:58:37", "KS03~370058", "KS03~")
       (Some 256) (Some 256) (Some 0) "y" "n" "" stack_all_fail []
     = (Ok tt,
        [EvPrint MsgHeader; EvPrint MsgCustomColor;
         EvPrint MsgColorRange; EvSleep 2])
  /\ Menu.brightness_menu ("BE:60:4D:00:58:37", "KS03~370058", "KS03~") "5"
       (Some 256) stack_all_fail []
     = (Ok tt,
        [EvPrint MsgHeader; EvPrint MsgBrightnessMenu;
         EvPrint MsgBrightnessRange; EvSleep 2]).
Proof.
  split; [| split].
  - apply (proj1 out_of_range_rejections (-1) 0 0 "ceiling" 255).
    left. lia.
  - apply (proj1 (proj2 out_of_range_rejections) "BE:60:4D:00:58:37"
             "KS03~370058" "KS03~"
             (Menu.mk_mapping "AFD0" "AFD1" (Some "floor"))
             256 256 0 "y" "n" "" stack_all_fail []).
    + reflexivity.
    + lia.
  - apply (proj2 (proj2 out_of_range_rejections) "BE:60:4D:00:58:37"
             "KS03~370058" "KS03~"
             (Menu.mk_mapping "AFD0" "AFD1" (Some "floor")) 256
             stack_all_fail []).
    + reflexivity.
    + right. lia.
Defined.

(** ** Two laws of the monad *)

Lemma bind_lift_ok {A B} (a : A) (k : A -> M B) env h :
  bind (lift (Ok a)) k env h = k a env h.
Proof.
  unfold bind, lift. rewrite app_nil_r.
  destruct (k a env h) as [r t]. reflexivity.
Qed.

Lemma bind_ext {A B} (m : M A) (k1 k2 : A -> M B) env h :
  (forall a env' h', k1 a env' h' = k2 a env' h') ->
  bind m k1 env h = bind m k2 env h.
Proof.
  intros H. unfold bind.
  destruct (m env h) as [[a | e] t]; [rewrite H |]; reflexivity.
Qed.

(** The presets of the brightness menu are the custom entry at a fixed
    level. *)
Lemma brightness_menu_presets dev custom env h :
  Menu.brightness_menu dev "1" custom env h
  = Menu.brightness_menu dev "5" (Some 64) env h
  /\ Menu.brightness_menu dev "2" custom env h
     = Menu.brightness_menu dev "5" (Some 128) env h
  /\ Menu.brightness_menu dev "3" custom env h
     = Menu.brightness_menu dev "5" (Some 192) env h
  /\ Menu.brightness_menu dev "4" custom env h
     = Menu.brightness_menu dev "5" (Some 255) env h.
Proof.
  destruct dev as [[addr name] prefix].
  unfold Menu.brightness_menu.
  destruct (Menu.getitem Menu.DEVICE_MAPPINGS prefix); repeat split.
Qed.

(** C5.  For every level in 0..255 the floor payload is
    5A 00 02 00 00 00 00 level 00 A5: the three colour bytes are zero and
    the level sits in the brightness byte.  In the menu, a floor lamp gets
    that payload sent; for any other device class the menu prints that
    brightness is not supported and touches no device. *)
Theorem brightness_floor_only (level : Z) :
  0 <= level <= 255 ->
  brightness_cmd level = Ok [90; 0; 2; 0; 0; 0; 0; level; 0; 165]
  /\ forall addr name prefix m env h,
      In (prefix, m) Menu.DEVICE_MAPPINGS ->
      (Menu.get_type m = "floor" ->
       Menu.brightness_menu (addr, name, prefix) "5" (Some level) env h
       = (print MsgHeader ;;
          print MsgBrightnessMenu ;;
          Menu.send_command (addr, name, prefix)
            [90; 0; 2; 0; 0; 0; 0; level; 0; 165]
            ("brightness " ++ Menu.str_int level) true) env h)
      /\ (Menu.get_type m <> "floor" ->
          Menu.brightness_menu (addr, name, prefix) "5" (Some level) env h
          = (Ok tt,
             [EvPrint MsgHeader; EvPrint MsgBrightnessMenu;
              EvPrint MsgBrightnessUnsupported; EvSleep 2])).
Proof.
  intros Hl. split; [apply brightness_cmd_bytes; exact Hl |].
  intros addr name prefix m env h Hin.
  assert (Hrange : negb ((0 <=? level) && (level <=? 255)) = false).
  { destruct Hl as [H0 H1].
    apply Z.leb_le in H0. apply Z.leb_le in H1. rewrite H0, H1. reflexivity. }
  cbn [Menu.DEVICE_MAPPINGS In] in Hin.
  destruct Hin as [E | [E | [E | [E | [E | []]]]]]; inversion E; subst;
    (split; intros Ht; cbn in Ht; try discriminate Ht;
     try (exfalso; apply Ht; reflexivity));
    unfold Menu.brightness_menu;
    cbn [Menu.getitem Menu.DEVICE_MAPPINGS String.eqb Ascii.eqb Bool.eqb];
    rewrite bind_lift_ok;
    cbn [String.eqb Ascii.eqb Bool.eqb Menu.get_type Menu.type_];
    rewrite Hrange;
    unfold Menu.apply_brightness;
    cbn [String.eqb Ascii.eqb Bool.eqb];
    rewrite ?(brightness_cmd_bytes level Hl);
    try reflexivity.
  apply bind_ext; intros _ env1 h1.
  apply bind_ext; intros _ env2 h2.
  apply (bind_lift_ok [90; 0; 2; 0; 0; 0; 0; level; 0; 165]
           (fun cmd => Menu.send_command (addr, name, "KS03~") cmd
                         ("brightness " ++ Menu.str_int level) true)).
Qed.

Lemma brightness_floor_only_witness :
  brightness_cmd 128 = Ok [90; 0; 2; 0; 0; 0; 0; 128; 0; 165]
  /\ forall addr name prefix m env h,
      In (prefix, m) Menu.DEVICE_MAPPINGS ->
      (Menu.get_type m = "floor" ->
       Menu.brightness_menu (addr, name, prefix) "5" (Some 128) env h
       = (print MsgHeader ;;
          print MsgBrightnessMenu ;;
          Menu.send_command (addr, name, prefix)
            [90; 0; 2; 0; 0; 0; 0; 128; 0; 165]
            ("brightness " ++ Menu.str_int 128) true) env h)
      /\ (Menu.get_type m <> "floor" ->
          Menu.brightness_menu (addr, name, prefix) "5" (Some 128) env h
          = (Ok tt,
             [EvPrint MsgHeader; EvPrint MsgBrightnessMenu;
              EvPrint MsgBrightnessUnsupported; EvSleep 2])).
Proof. apply (brightness_floor_only 128). lia. Defined.

(** ** Device registry and discovery *)

(** Two prefixes of one name that have the same length are equal. *)
Lemma prefix_same_length (name : string) :
  forall a b,
    String.prefix a name = true -> String.prefix b name = true ->
    String.length a = String.length b -> a = b.
Proof.
  induction name as [| c name IH]; intros a b Ha Hb Hlen.
  - destruct a, b; try discriminate; reflexivity.
  - destruct a as [| x a], b as [| y b]; try discriminate; [reflexivity |].
    cbn [String.prefix] in Ha, Hb.
    destruct (ascii_dec x c) as [-> |]; [| discriminate].
    destruct (ascii_dec y c) as [-> |]; [| discriminate].
    f_equal. apply IH; [assumption | assumption |].
    cbn in Hlen. congruence.
Qed.

Lemma keys_length (q : string) :
  In q Menu.keys -> String.length q = 5%nat.
Proof.
  cbn. intros [<- | [<- | [<- | [<- | [<- | []]]]]]; reflexivity.
Qed.

Lemma first_prefix_spec (name : string) (prefixes : list string) :
  match Menu.first_prefix name prefixes with
  | Some p => In p prefixes /\ PyStr.startswith name p = true
  | None => forall q, In q prefixes -> PyStr.startswith name q = false
  end.
Proof.
  induction prefixes as [| p rest IH]; cbn [Menu.first_prefix].
  - intros q [].
  - destruct (PyStr.startswith name p) eqn:Hp.
    + split; [left; reflexivity | exact Hp].
    + destruct (Menu.first_prefix name rest) as [p' |].
      * destruct IH as [Hin Hs]. split; [right; exact Hin | exact Hs].
      * intros q [<- | Hq]; [exact Hp | apply IH; exact Hq].
Qed.

Lemma getitem_keys (p : string) :
  In p Menu.keys -> exists m, Menu.getitem Menu.DEVICE_MAPPINGS p = Ok m.
Proof.
  cbn. intros [<- | [<- | [<- | [<- | [<- | []]]]]]; eexists; reflexivity.
Qed.

(** C6.  Resolution returns a table entry whose prefix the name starts
    with; no other entry matches, so it is the longest match.  A name that
    matches nothing resolves to nothing, and the scan drops such a device
    without an error.  "KS03~370058" resolves to KS03~ and
    "KS99-anything" to nothing. *)
Theorem registry_resolution (name : string) :
  match Menu.resolve name with
  | Some p =>
      (exists m, Menu.getitem Menu.DEVICE_MAPPINGS p = Ok m)
      /\ PyStr.startswith name p = true
      /\ forall q, In q Menu.keys -> PyStr.startswith name q = true ->
                   q = p /\ (String.length q <= String.length p)%nat
  | None =>
      (forall q, In q Menu.keys -> PyStr.startswith name q = false)
      /\ forall dev rest devices,
          name_of dev = name ->
          Menu.scan_loop (dev :: rest) devices = Menu.scan_loop rest devices
  end
  /\ Menu.resolve "KS03~370058" = Some "KS03~"
  /\ Menu.getitem Menu.DEVICE_MAPPINGS "KS03~"
     = Ok (Menu.mk_mapping "AFD0" "AFD1" (Some "floor"))
  /\ Menu.resolve "KS99-anything" = None.
Proof.
  split; [| repeat split; reflexivity].
  pose proof (first_prefix_spec name Menu.keys) as H.
  unfold Menu.resolve in *.
  destruct (Menu.first_prefix name Menu.keys) as [p |] eqn:Hres.
  - destruct H as [Hin Hp]. split; [apply getitem_keys; exact Hin |].
    split; [exact Hp |].
    intros q Hq Hs.
    assert (q = p) as ->.
    { apply (prefix_same_length name); [exact Hs | exact Hp |].
      rewrite (keys_length q Hq), (keys_length p Hin). reflexivity. }
    split; [reflexivity | apply le_n].
  - split; [exact H |].
    intros dev rest devices Hname.
    cbn [Menu.scan_loop]. unfold Menu.resolve.
    unfold name_of in Hname. rewrite Hname, Hres. reflexivity.
Qed.

Lemma registry_resolution_witness :
  PyStr.startswith "KS03~370058" "KS03~" = true
  /\ (forall q, In q Menu.keys -> PyStr.startswith "KS03~370058" q = true ->
                q = "KS03~" /\ (String.length q <= String.length "KS03~")%nat)
  /\ Menu.scan_loop [mk_device "AA:BB:CC:DD:EE:FF" (Some "KS99-anything")] []
     = [].
Proof.
  split; [| split].
  - exact (proj1 (proj2 (proj1 (registry_resolution "KS03~370058")))).
  - exact (proj2 (proj2 (proj1 (registry_resolution "KS03~370058")))).
  - exact (proj2 (proj1 (registry_resolution "KS99-anything"))
             (mk_device "AA:BB:CC:DD:EE:FF" (Some "KS99-anything")) [] []
             eq_refl).
Defined.

(** C7, as stated, fails: with a duration of zero, and with a negative
    one, the scan is started with that very duration and its result is
    returned; nothing is rejected. *)
Lemma scan_devices_zero_duration_scans :
  run (Menu.scan_devices 0) stack_four_devices
  = (Ok [("11:22:33:44:55:66", "KS03-112233", "KS03-");
         ("BE:60:4D:00:58:37", "KS03~370058", "KS03~")],
     [EvDiscover 0 (Ok four_devices)])
  /\ run (Control.find_device_by_prefix "KS03~" (-1 # 1)) stack_four_devices
     = (Ok (Some "BE:60:4D:00:58:37"),
        [EvDiscover (-1 # 1) (Ok four_devices)]).
Proof. split; vm_compute; reflexivity. Qed.

(** C7, amended.  [scan_devices] and [find_device_by_prefix] hand the
    duration to the scanner of the BLE stack unchanged, whatever its sign:
    one scan is started with exactly that duration, its devices are
    filtered, and an exception of the scanner is passed on.  There is no
    check and no clamping. *)
Theorem scan_duration_passed_through (timeout : Q) (env : ble) :
  run (Menu.scan_devices timeout) env
  = (match ble_discover env [] timeout with
     | Ok found => Ok (Menu.scan_loop found [])
     | Raise e => Raise e
     end,
     [EvDiscover timeout (ble_discover env [] timeout)])
  /\ forall prefix,
      run (Control.find_device_by_prefix prefix timeout) env
      = (match ble_discover env [] timeout with
         | Ok devices => Ok (Control.first_address devices prefix)
         | Raise e => Raise e
         end,
         [EvDiscover timeout (ble_discover env [] timeout)]).
Proof.
  split; [| intros prefix];
    unfold run, Menu.scan_devices, Control.find_device_by_prefix, bind,
      discover, ret;
    destruct (ble_discover env [] timeout); reflexivity.
Qed.

(** ** Further properties of the two write engines *)

(** A refused connection, in either module: the exception of [connect]
    is the outcome, nothing is slept and nothing is written; only the
    guarded cleanup follows.  When [connect] returns but the client does
    not report connected, the engines raise their own error instead. *)
Theorem connection_failure_ends_the_call env address service_short char_short
    payload verbose :
  (forall e,
      ble_connect env [] address = Some e ->
      run (Control.write_command address service_short char_short payload
             verbose) env
      = (Raise e,
         EvConnect address (Some e)
           :: cleanup_events env [EvConnect address (Some e)])
      /\ run (Menu.write_command address service_short char_short payload) env
         = (Raise e,
            EvConnect address (Some e)
              :: cleanup_events env [EvConnect address (Some e)]))
  /\ (ble_connect env [] address = None ->
      ble_is_connected env [EvConnect address None] = false ->
      run (Control.write_command address service_short char_short payload
             verbose) env
      = (Raise (RuntimeError "Failed to connect to device"),
         EvConnect address None :: EvIsConnected false
           :: cleanup_events env [EvConnect address None; EvIsConnected false])
      /\ run (Menu.write_command address service_short char_short payload) env
         = (Raise (RuntimeError "Failed to connect"),
            EvConnect address None :: EvIsConnected false
              :: cleanup_events env
                   [EvConnect address None; EvIsConnected false])).
Proof.
  split.
  - intros e Hc.
    assert (Hb1 : Control.write_body address service_short char_short payload
                    verbose env [] = (Raise e, [EvConnect address (Some e)])).
    { unfold Control.write_body. unfold bind at 1. unfold connect at 1.
      rewrite Hc. reflexivity. }
    assert (Hb2 : Menu.write_body address service_short char_short payload
                    env [] = (Raise e, [EvConnect address (Some e)])).
    { unfold Menu.write_body. unfold bind at 1. unfold connect at 1.
      rewrite Hc. reflexivity. }
    split.
    + unfold Control.write_command.
      rewrite (try_finally_cleanup _ _ env (control_cleanup_spec env)), Hb1.
      reflexivity.
    + unfold Menu.write_command.
      rewrite (try_finally_cleanup _ _ env (menu_cleanup_spec env)), Hb2.
      reflexivity.
  - intros Hc Hi.
    assert (Hb1 : Control.write_body address service_short char_short payload
                    verbose env []
                  = (Raise (RuntimeError "Failed to connect to device"),
                     [EvConnect address None; EvIsConnected false])).
    { unfold Control.write_body. unfold bind at 1. unfold connect at 1.
      rewrite Hc. cbn [of_outcome app].
      unfold bind at 1. unfold is_connected at 1. rewrite Hi. reflexivity. }
    assert (Hb2 : Menu.write_body address service_short char_short payload
                    env []
                  = (Raise (RuntimeError "Failed to connect"),
                     [EvConnect address None; EvIsConnected false])).
    { unfold Menu.write_body. unfold bind at 1. unfold connect at 1.
      rewrite Hc. cbn [of_outcome app].
      unfold bind at 1. unfold is_connected at 1. rewrite Hi. reflexivity. }
    split.
    + unfold Control.write_command.
      rewrite (try_finally_cleanup _ _ env (control_cleanup_spec env)), Hb1.
      reflexivity.
    + unfold Menu.write_command.
      rewrite (try_finally_cleanup _ _ env (menu_cleanup_spec env)), Hb2.
      reflexivity.
Qed.

Lemma connection_failure_ends_the_call_witness :
  run (Control.write_command "BE:60:4D:00:58:37" "AFD0" "AFD1" on_bytes true)
      stack_no_connection
  = (Raise (BleakError "device not found"),
     [EvConnect "BE:60:4D:00:58:37" (Some (BleakError "device not found"));
      EvIsConnected false])
  /\ run (Menu.write_command "BE:60:4D:00:58:37" "AFD0" "AFD1" on_bytes)
         stack_silent_link
     = (Raise (RuntimeError "Failed to connect"),
        [EvConnect "BE:60:4D:00:58:37" None; EvIsConnected false;
         EvIsConnected false]).
Proof.
  split.
  - apply (proj1 (connection_failure_ends_the_call stack_no_connection
                    "BE:60:4D:00:58:37" "AFD0" "AFD1" on_bytes true)
             (BleakError "device not found")).
    reflexivity.
  - apply (proj2 (connection_failure_ends_the_call stack_silent_link
                    "BE:60:4D:00:58:37" "AFD0" "AFD1" on_bytes true));
      reflexivity.
Defined.

(** When the cascade of [write_command] returns at all, [write_success]
    is set: the final [else] that would raise "Write failed:" with the
    last error alone is never reached. *)
Theorem write_success_always_set env h char_short payload verbose
    write_success last_error :
  fst (Control.write_cascade char_short payload verbose env h)
  = Ok (write_success, last_error) ->
  write_success = true.
Proof.
  intros H.
  pose proof (write_cascade_runs env h char_short payload verbose) as Hrun.
  rewrite H in Hrun. inversion Hrun; reflexivity.
Qed.

Lemma write_success_always_set_witness :
  fst (Control.write_cascade "FFF3" on_bytes false stack_alt_succeeds [])
  = Ok (true, Some (BleakError "E2"))
  /\ true = true.
Proof.
  split; [reflexivity |].
  apply (write_success_always_set stack_alt_succeeds [] "FFF3" on_bytes false
           true (Some (BleakError "E2"))).
  reflexivity.
Defined.

Lemma write_cascade_events env h char_short payload verbose :
  forallb is_write_or_print
    (snd (Control.write_cascade char_short payload verbose env h)) = true.
Proof.
  unfold Control.write_cascade.
  destruct (Control.alt_char_short_of char_short) as [alt |];
    destruct verbose; run_py;
    repeat (ask_stack; cbn [fst snd app forallb is_write_or_print andb]);
    reflexivity.
Qed.

Lemma not_in_logs (e : event) (t : trace) :
  is_log e = false -> forallb is_log t = true -> ~ In e t.
Proof.
  intros He Ht Hin. rewrite forallb_forall in Ht.
  apply Ht in Hin. congruence.
Qed.

Lemma not_in_writes_or_prints (e : event) (t : trace) :
  is_write_or_print e = false -> forallb is_write_or_print t = true ->
  ~ In e t.
Proof.
  intros He Ht Hin. rewrite forallb_forall in Ht.
  apply Ht in Hin. congruence.
Qed.

Lemma not_in_cleanup_events (e : event) env t :
  is_disconnect e = false ->
  (forall b, e <> EvIsConnected b) ->
  ~ In e (cleanup_events env t).
Proof.
  intros Hd Hc. unfold cleanup_events.
  destruct (ble_is_connected env t); cbn [In].
  - intros [H | [H | []]]; [apply (Hc true); auto |].
    subst e. discriminate Hd.
  - intros [H | []]. apply (Hc false); auto.
Qed.

(** The two settle delays of [led_control.write_command].  After a
    successful connect the run opens with connect, the connection check
    and the 0.3 s delay, so every write comes after that delay; the 0.2 s
    delay before the link is dropped is taken exactly when the call
    succeeds. *)
Theorem settle_delays env address service_short char_short payload verbose :
  ble_connect env [] address = None ->
  ble_is_connected env [EvConnect address None] = true ->
  exists rest,
    snd (run (Control.write_command address service_short char_short payload
                verbose) env)
    = ([EvConnect address None; EvIsConnected true; EvSleep (3 # 10)]
         ++ rest)%list
    /\ (In (EvSleep (2 # 10)) rest
        <-> fst (run (Control.write_command address service_short char_short
                        payload verbose) env) = Ok tt).
Proof.
  intros Hc Hi.
  destruct (control_write_body_connected env [] address service_short
              char_short payload verbose Hc Hi) as (tpre & h' & Hlog & Hbody).
  cbv zeta in Hbody.
  unfold Control.write_command.
  rewrite (try_finally_cleanup _ _ env (control_cleanup_spec env)).
  rewrite Hbody. cbn [fst snd].
  pose proof (write_cascade_events env h' char_short payload verbose) as Hev.
  pose proof (write_cascade_runs env h' char_short payload verbose) as Hrun.
  destruct (Control.write_cascade char_short payload verbose env h')
    as [rc tc].
  cbn [fst snd] in *.
  eexists. split.
  - rewrite <- app_assoc. reflexivity.
  - rewrite !in_app_iff.
    assert (N1 : ~ In (EvSleep (2 # 10)) tpre)
      by (apply not_in_logs; [reflexivity | exact Hlog]).
    assert (N2 : ~ In (EvSleep (2 # 10)) tc)
      by (apply not_in_writes_or_prints; [reflexivity | exact Hev]).
    match goal with
    | |- context [cleanup_events ?e ?t] =>
        assert (N3 : ~ In (EvSleep (2 # 10)) (cleanup_events e t))
          by (apply not_in_cleanup_events; [reflexivity | discriminate])
    end.
    destruct rc as [[[|] le] | e].
    + split; [reflexivity | intros _; left; right; right; left; reflexivity].
    + inversion Hrun.
    + split; [| discriminate].
      intros H. exfalso. cbn [In] in H. tauto.
Qed.

Lemma settle_delays_witness :
  exists rest,
    snd (run (Control.write_command "BE:60:4D:00:58:37" "FFF0" "FFF3" on_bytes
                false) stack_alt_succeeds)
    = ([EvConnect "BE:60:4D:00:58:37" None; EvIsConnected true;
        EvSleep (3 # 10)] ++ rest)%list
    /\ (In (EvSleep (2 # 10)) rest
        <-> fst (run (Control.write_command "BE:60:4D:00:58:37" "FFF0" "FFF3"
                        on_bytes false) stack_alt_succeeds) = Ok tt).
Proof.
  apply (settle_delays stack_alt_succeeds "BE:60:4D:00:58:37" "FFF0" "FFF3"
           on_bytes false); reflexivity.
Defined.

(** The outcome of [led_menu.write_command] once connected: it succeeds
    as soon as one of its two writes does; when both fail it raises the
    error of the second write, the one with response, and the error of
    the first write is lost. *)
Theorem menu_write_command_outcome env address service_short char_short
    payload :
  ble_connect env [] address = None ->
  ble_is_connected env [EvConnect address None] = true ->
  let out := run (Menu.write_command address service_short char_short
                    payload) env in
  let W := EvWrite (UUID_TEMPLATE char_short) payload in
  (fst out = Ok tt
   /\ (writes_of (snd out) = [W false None]
       \/ exists e1, writes_of (snd out) = [W false (Some e1); W true None]))
  \/ exists e1 e2,
      writes_of (snd out) = [W false (Some e1); W true (Some e2)]
      /\ fst out = Raise e2.
Proof.
  intros Hc Hi. cbv zeta.
  unfold Menu.write_command.
  rewrite (try_finally_cleanup _ _ env (menu_cleanup_spec env)).
  cbn [fst snd].
  assert (Hclean : forall t,
             writes_of (t ++ cleanup_events env t)%list = writes_of t).
  { intros t. rewrite writes_of_app. unfold cleanup_events.
    destruct (ble_is_connected env t); cbn; apply app_nil_r. }
  rewrite Hclean.
  unfold Menu.write_body. run_py. rewrite Hc. cbn [app]. rewrite Hi.
  cbn [negb].
  ask_stack; cbn [fst snd app writes_of filter is_write].
  - ask_stack; cbn [fst snd app writes_of filter is_write].
    + right. eexists; eexists. split; reflexivity.
    + left. split; [reflexivity |]. right. eexists. reflexivity.
  - left. split; [reflexivity |]. left. reflexivity.
Qed.

Lemma menu_write_command_outcome_witness :
  let out := run (Menu.write_command "BE:60:4D:00:58:37" "FFF0" "FFF3"
                    on_bytes) stack_all_fail in
  let W := EvWrite (UUID_TEMPLATE "FFF3") on_bytes in
  (fst out = Ok tt
   /\ (writes_of (snd out) = [W false None]
       \/ exists e1, writes_of (snd out) = [W false (Some e1); W true None]))
  \/ exists e1 e2,
      writes_of (snd out) = [W false (Some e1); W true (Some e2)]
      /\ fst out = Raise e2.
Proof.
  apply (menu_write_command_outcome stack_all_fail "BE:60:4D:00:58:37" "FFF0"
           "FFF3" on_bytes); reflexivity.
Defined.

(** ** [send_command] *)



(** For a prefix of the table [send_command] returns, with one report. *)
Lemma send_command_in_table addr name prefix payload action_name is_color
    env h :
  In prefix Menu.keys ->
  exists t,
    Menu.send_command (addr, name, prefix) payload action_name is_color env h
    = (Ok tt, ([EvPrint (MsgSending action_name)] ++ t ++ [EvSleep 1])%list)
    /\ exists t', (t = t' ++ [EvPrint (MsgSent action_name)]
                   \/ exists e, t = t' ++ [EvPrint (MsgFailed e)])%list.
Proof.
  intros Hin. destruct (getitem_keys prefix Hin) as [m Hm].
  unfold Menu.send_command. rewrite Hm. rewrite bind_lift_ok.
  unfold bind at 1. unfold print at 1.
  unfold bind at 1. unfold try_except at 1. unfold bind at 1.
  match goal with
  | |- context [?f env (h ++ [EvPrint (MsgSending action_name)])%list] =>
      destruct (f env (h ++ [EvPrint (MsgSending action_name)])%list)
        as [[[] | ex] t1]
  end.
  - unfold print at 1. unfold sleep. cbn [app].
    exists (t1 ++ [EvPrint (MsgSent action_name)])%list.
    split; [rewrite <- app_assoc; reflexivity |].
    exists t1. left. reflexivity.
  - unfold print at 1. unfold sleep. cbn [app].
    exists (t1 ++ [EvPrint (MsgFailed ex)])%list.
    split; [rewrite <- app_assoc; reflexivity |].
    exists t1. right. exists ex. reflexivity.
Qed.



(** The colour path of [send_command] (the ON command and then the
    payload on one connection).  Both writes go to the device's write
    characteristic without response, the payload only after the ON
    command went through; the connection state is never asked for; the
    disconnect is attempted exactly when both writes succeeded, and the
    command is reported as sent exactly when that disconnect succeeded
    too. *)
Theorem send_command_color_path addr name prefix m payload action_name env h :
  Menu.getitem Menu.DEVICE_MAPPINGS prefix = Ok m ->
  let t := snd (Menu.send_command (addr, name, prefix) payload action_name
                  true env h) in
  let W := EvWrite (UUID_TEMPLATE (Menu.write m)) in
  (writes_of t = []
   \/ (exists e, writes_of t = [W on_bytes false (Some e)])
   \/ (exists o, writes_of t = [W on_bytes false None; W payload false o]))
  /\ (forall b, ~ In (EvIsConnected b) t)
  /\ (disconnects_of t <> []
      <-> writes_of t = [W on_bytes false None; W payload false None])
  /\ (In (EvPrint (MsgSent action_name)) t
      <-> disconnects_of t = [EvDisconnect None]).
Proof.
  intros Hm. cbv zeta.
  unfold Menu.send_command. rewrite Hm. rewrite bind_lift_ok.
  change (build_on_off_cmd true) with (Ok on_bytes).
  run_py.
  destruct (ble_connect env _ addr) as [ec |];
    [| ask_stack; [| ask_stack; [| destruct (ble_disconnect env _) as [ed |]]]];
    cbn [fst snd app writes_of disconnects_of filter is_write is_disconnect In];
    (split; [| split; [| split]]);
    try solve [ left; reflexivity
              | right; left; eexists; reflexivity
              | right; right; eexists; reflexivity
              | intros b Hb; repeat destruct Hb as [Hb | Hb];
                  try discriminate Hb; exact Hb
              | split; intro H;
                  first [ reflexivity
                        | discriminate H
                        | solve [intro; discriminate]
                        | solve [exfalso; apply H; reflexivity]
                        | solve [repeat (first [left; reflexivity | right])]
                        | solve [repeat destruct H as [H | H];
                                 try discriminate H; contradiction] ] ].
Qed.

Lemma send_command_color_path_witness :
  let t := snd (Menu.send_command
                  ("BE:60:4D:00:58:37", "KS03~370058", "KS03~")
                  [90; 0; 1; 255; 0; 0; 0; 255; 0; 165] "Red color" true
                  stack_alt_succeeds []) in
  let W := EvWrite (UUID_TEMPLATE "AFD1") in
  (writes_of t = []
   \/ (exists e, writes_of t = [W on_bytes false (Some e)])
   \/ (exists o, writes_of t
                 = [W on_bytes false None;
                    W [90; 0; 1; 255; 0; 0; 0; 255; 0; 165] false o]))
  /\ (forall b, ~ In (EvIsConnected b) t)
  /\ (disconnects_of t <> []
      <-> writes_of t
          = [W on_bytes false None;
             W [90; 0; 1; 255; 0; 0; 0; 255; 0; 165] false None])
  /\ (In (EvPrint (MsgSent "Red color")) t
      <-> disconnects_of t = [EvDisconnect None]).
Proof.
  apply (send_command_color_path "BE:60:4D:00:58:37" "KS03~370058" "KS03~"
           (Menu.mk_mapping "AFD0" "AFD1" (Some "floor"))
           [90; 0; 1; 255; 0; 0; 0; 255; 0; 165] "Red color"
           stack_alt_succeeds []).
  reflexivity.
Defined.

(** ** Discovery *)

Lemma scan_loop_acc (found : list device) :
  forall devices,
    Menu.scan_loop found devices = (devices ++ Menu.scan_loop found [])%list.
Proof.
  induction found as [| dev rest IH]; intros devices;
    cbn [Menu.scan_loop app].
  - rewrite app_nil_r. reflexivity.
  - destruct (Menu.resolve _) as [p |].
    + rewrite (IH (devices ++ _)%list), (IH [_]), <- app_assoc. reflexivity.
    + apply IH.
Qed.

Lemma scan_loop_cons (dev : device) (rest : list device) :
  Menu.scan_loop (dev :: rest) []
  = (match Menu.resolve (name_of dev) with
     | Some p => [(dev_address dev, name_of dev, p)]
     | None => []
     end ++ Menu.scan_loop rest [])%list.
Proof.
  cbn [Menu.scan_loop]. fold (name_of dev).
  destruct (Menu.resolve (name_of dev)); [| reflexivity].
  apply scan_loop_acc.
Qed.

Lemma scan_loop_in (found : list device) a n p :
  In (a, n, p) (Menu.scan_loop found [])
  <-> exists dev,
      In dev found /\ dev_address dev = a /\ name_of dev = n
      /\ Menu.resolve n = Some p.
Proof.
  induction found as [| dev rest IH].
  - cbn. split; [tauto | intros (dev & [] & _)].
  - rewrite scan_loop_cons, in_app_iff, IH. split.
    + intros [H | (d & Hd & H)].
      * destruct (Menu.resolve (name_of dev)) as [q |] eqn:Hq;
          [| destruct H].
        destruct H as [H | []]. inversion H; subst.
        exists dev. repeat split; [left; reflexivity | exact Hq].
      * exists d. split; [right; exact Hd | exact H].
    + intros (d & [-> | Hd] & Ha & Hn & Hr).
      * left. subst. rewrite Hr. left. reflexivity.
      * right. exists d. repeat split; assumption.
Qed.

Lemma scan_loop_length (found : list device) :
  (List.length (Menu.scan_loop found []) <= List.length found)%nat.
Proof.
  induction found as [| dev rest IH]; [apply le_n |].
  rewrite scan_loop_cons, length_app.
  unfold Menu.discovered in *.
  destruct (Menu.resolve (name_of dev)); cbn [Datatypes.length app];
    lia.
Qed.

Lemma resolve_some (n p : string) :
  Menu.resolve n = Some p -> In p Menu.keys /\ PyStr.startswith n p = true.
Proof.
  intros H. pose proof (first_prefix_spec n Menu.keys) as Hs.
  unfold Menu.resolve in H. rewrite H in Hs. exact Hs.
Qed.

Lemma resolve_unique (n : string) :
  match Menu.resolve n with
  | Some q => forall p, In p Menu.keys -> PyStr.startswith n p = true ->
                        p = q /\ True
  | None => forall p, In p Menu.keys -> PyStr.startswith n p = false
  end.
Proof.
  pose proof (first_prefix_spec n Menu.keys) as H.
  unfold Menu.resolve.
  destruct (Menu.first_prefix n Menu.keys) as [q |]; [| exact H].
  destruct H as [Hin Hq]. intros p Hp Hs. split; [| exact I].
  apply (prefix_same_length n); [exact Hs | exact Hq |].
  rewrite (keys_length p Hp), (keys_length q Hin). reflexivity.
Qed.

(** What a scan returns: exactly the devices seen whose name (the empty
    text for a device without one) starts with a key of the table, each
    with its address, that name and that key; never more entries than
    devices seen. *)
Theorem scan_devices_result (timeout : Q) (env : ble) (found : list device) :
  ble_discover env [] timeout = Ok found ->
  exists devices,
    fst (run (Menu.scan_devices timeout) env) = Ok devices
    /\ (forall a n p,
           In (a, n, p) devices
           <-> exists dev,
               In dev found /\ dev_address dev = a /\ name_of dev = n
               /\ In p Menu.keys /\ PyStr.startswith n p = true)
    /\ (List.length devices <= List.length found)%nat.
Proof.
  intros Hd. exists (Menu.scan_loop found []).
  split; [| split].
  - unfold run, Menu.scan_devices, bind, discover, ret. rewrite Hd.
    reflexivity.
  - intros a n p. rewrite scan_loop_in. split.
    + intros (dev & Hin & Ha & Hn & Hr).
      destruct (resolve_some n p Hr) as [Hk Hs].
      exists dev. repeat split; assumption.
    + intros (dev & Hin & Ha & Hn & Hk & Hs).
      exists dev. repeat split; try assumption.
      pose proof (resolve_unique n) as Hu.
      destruct (Menu.resolve n) as [q |] eqn:Hq.
      * destruct (Hu p Hk Hs) as [-> _]. reflexivity.
      * rewrite (Hu p Hk) in Hs. discriminate Hs.
  - apply scan_loop_length.
Qed.

Lemma scan_devices_result_witness :
  exists devices,
    fst (run (Menu.scan_devices 8) stack_four_devices) = Ok devices
    /\ (forall a n p,
           In (a, n, p) devices
           <-> exists dev,
               In dev four_devices /\ dev_address dev = a /\ name_of dev = n
               /\ In p Menu.keys /\ PyStr.startswith n p = true)
    /\ (List.length devices <= List.length four_devices)%nat.
Proof.
  apply (scan_devices_result 8 stack_four_devices four_devices). reflexivity.
Defined.

(** Scanning and sending compose: [send_command] to any device a scan
    returned never raises, on any stack and from any history, because the
    prefix a scan records is always a key of the table. *)
Theorem scanned_device_can_be_sent_to (timeout : Q) (env : ble)
    (devices : list Menu.discovered) (dev : Menu.discovered) :
  fst (run (Menu.scan_devices timeout) env) = Ok devices ->
  In dev devices ->
  forall payload action_name is_color env' h,
    fst (Menu.send_command dev payload action_name is_color env' h) = Ok tt.
Proof.
  intros Hscan Hin payload action_name is_color env' h.
  unfold run, Menu.scan_devices, bind, discover, ret in Hscan.
  destruct (ble_discover env [] timeout) as [found | e];
    cbn [fst] in Hscan; [| discriminate Hscan].
  inversion Hscan; subst devices.
  destruct dev as [[a n] p].
  apply scan_loop_in in Hin. destruct Hin as (d & _ & _ & _ & Hr).
  destruct (resolve_some n p Hr) as [Hk _].
  destruct (send_command_in_table a n p payload action_name is_color env' h
              Hk) as (t & E & _).
  rewrite E. reflexivity.
Qed.

Lemma scanned_device_can_be_sent_to_witness :
  fst (Menu.send_command ("BE:60:4D:00:58:37", "KS03~370058", "KS03~")
         on_bytes "ON" false stack_all_fail []) = Ok tt.
Proof.
  apply (scanned_device_can_be_sent_to 8 stack_four_devices
           [("11:22:33:44:55:66", "KS03-112233", "KS03-");
            ("BE:60:4D:00:58:37", "KS03~370058", "KS03~")]).
  - reflexivity.
  - right. left. reflexivity.
Defined.

Lemma first_address_spec (devices : list device) (prefix : string) :
  match Control.first_address devices prefix with
  | Some a =>
      exists before d after,
        devices = (before ++ d :: after)%list
        /\ dev_address d = a
        /\ Control.name_startswith d prefix = true
        /\ Forall (fun x => Control.name_startswith x prefix = false) before
  | None =>
      Forall (fun x => Control.name_startswith x prefix = false) devices
  end.
Proof.
  induction devices as [| d rest IH]; cbn [Control.first_address].
  - constructor.
  - destruct (Control.name_startswith d prefix) eqn:Hd.
    + exists [], d, rest. repeat split; [exact Hd | constructor].
    + destruct (Control.first_address rest prefix) as [a |].
      * destruct IH as (before & d' & after & -> & Ha & Hm & Hb).
        exists (d :: before), d', after.
        repeat split; [exact Ha | exact Hm | constructor; assumption].
      * constructor; assumption.
Qed.

(** [find_device_by_prefix] returns the address of the first device, in
    scan order, that has a non-empty name starting with the prefix, and
    [None] when there is none.  A device without a name, or with an empty
    one, is never returned, not even for the empty prefix. *)
Theorem find_device_by_prefix_first_match (prefix : string) (timeout : Q)
    (env : ble) (devices : list device) :
  ble_discover env [] timeout = Ok devices ->
  match fst (run (Control.find_device_by_prefix prefix timeout) env) with
  | Ok (Some a) =>
      exists before d after n,
        devices = (before ++ d :: after)%list
        /\ dev_address d = a
        /\ dev_name d = Some n /\ n <> "" /\ PyStr.startswith n prefix = true
        /\ Forall (fun x => Control.name_startswith x prefix = false) before
  | Ok None =>
      Forall (fun x => Control.name_startswith x prefix = false) devices
  | Raise _ => False
  end.
Proof.
  intros Hd.
  unfold run, Control.find_device_by_prefix, bind, discover, ret.
  rewrite Hd. cbn [fst].
  pose proof (first_address_spec devices prefix) as H.
  destruct (Control.first_address devices prefix) as [a |]; [| exact H].
  destruct H as (before & d & after & E & Ha & Hm & Hb).
  unfold Control.name_startswith in Hm.
  destruct (dev_name d) as [n |] eqn:Hn; [| discriminate Hm].
  apply andb_prop in Hm. destruct Hm as [Hne Hs].
  exists before, d, after, n. repeat split; try assumption.
  intros ->. discriminate Hne.
Qed.

Lemma find_device_by_prefix_first_match_witness :
  exists before d after n,
    four_devices = (before ++ d :: after)%list
    /\ dev_address d = "BE:60:4D:00:58:37"
    /\ dev_name d = Some n /\ n <> "" /\ PyStr.startswith n "KS03~" = true
    /\ Forall (fun x => Control.name_startswith x "KS03~" = false) before.
Proof.
  exact (find_device_by_prefix_first_match "KS03~" 8 stack_four_devices
           four_devices eq_refl).
Defined.

Lemma ks03_results_acc (devices : list device) :
  forall results,
    Control.ks03_results devices results
    = (results ++ Control.ks03_results devices [])%list.
Proof.
  induction devices as [| d rest IH]; intros results;
    cbn [Control.ks03_results app].
  - rewrite app_nil_r. reflexivity.
  - destruct (_ || _).
    + rewrite (IH (results ++ _)%list), (IH [_]), <- app_assoc. reflexivity.
    + apply IH.
Qed.

Lemma ks03_results_in (devices : list device) a n :
  In (a, n) (Control.ks03_results devices [])
  <-> exists d,
      In d devices /\ dev_address d = a /\ dev_name d = Some n /\ n <> ""
      /\ (PyStr.startswith n "KS03-" = true
          \/ PyStr.startswith n "KS03~" = true).
Proof.
  assert (Hmatch : forall d,
             Control.name_startswith d "KS03-"
             || Control.name_startswith d "KS03~" = true
             <-> exists n, dev_name d = Some n /\ n <> ""
                           /\ (PyStr.startswith n "KS03-" = true
                               \/ PyStr.startswith n "KS03~" = true)).
  { intros d. unfold Control.name_startswith.
    destruct (dev_name d) as [n0 |].
    - destruct (String.eqb_spec n0 "") as [-> | Hne]; cbn [negb andb orb].
      + split; [discriminate |].
        intros (n1 & E & Hn & _). inversion E; subst. congruence.
      + rewrite orb_true_iff. split.
        * intros H. exists n0. repeat split; assumption.
        * intros (n1 & E & _ & H). inversion E; subst. exact H.
    - cbn. split; [discriminate | intros (n1 & E & _); discriminate E]. }
  induction devices as [| d rest IH].
  - cbn. split; [tauto | intros (d & [] & _)].
  - cbn [Control.ks03_results app].
    destruct (Control.name_startswith d "KS03-"
              || Control.name_startswith d "KS03~") eqn:Hd.
    + rewrite ks03_results_acc. cbn [app In]. rewrite IH.
      apply Hmatch in Hd. destruct Hd as (n0 & En & Hne & Hs).
      rewrite En. split.
      * intros [H | (d' & Hin & H)].
        -- inversion H; subst. exists d.
           repeat split; try assumption. left. reflexivity.
        -- exists d'. split; [right; exact Hin | exact H].
      * intros (d' & [-> | Hin] & Ha & Hn & H).
        -- left. rewrite En in Hn. inversion Hn; subst. reflexivity.
        -- right. exists d'. split; [exact Hin |]. split; [exact Ha |].
           split; [exact Hn | exact H].
    + rewrite IH. split.
      * intros (d' & Hin & H). exists d'. split; [right; exact Hin | exact H].
      * intros (d' & [-> | Hin] & Ha & Hn & Hne & Hs).
        -- exfalso.
           assert (Ht : Control.name_startswith d' "KS03-"
                        || Control.name_startswith d' "KS03~" = true)
             by (apply Hmatch; exists n; repeat split; assumption).
           congruence.
        -- exists d'. repeat split; assumption.
Qed.

(** [find_all_ks03] and the menu's scan agree on the KS03 lamps: an
    address and name is returned by [find_all_ks03] exactly when the
    menu's scan loop, run on the same devices, returns it with the key
    KS03- or KS03~. *)
Theorem find_all_ks03_agrees_with_scan (timeout : Q) (env : ble)
    (devices : list device) :
  ble_discover env [] timeout = Ok devices ->
  exists targets,
    fst (run (Control.find_all_ks03 timeout) env) = Ok targets
    /\ forall a n,
        In (a, n) targets
        <-> (In (a, n, "KS03-") (Menu.scan_loop devices [])
             \/ In (a, n, "KS03~") (Menu.scan_loop devices [])).
Proof.
  intros Hd. exists (Control.ks03_results devices []). split.
  - unfold run, Control.find_all_ks03, bind, discover, ret. rewrite Hd.
    reflexivity.
  - intros a n. rewrite ks03_results_in, !scan_loop_in. split.
    + intros (d & Hin & Ha & Hn & Hne & Hs).
      assert (Hname : name_of d = n) by (unfold name_of; rewrite Hn; reflexivity).
      pose proof (resolve_unique n) as Hu.
      destruct Hs as [Hs | Hs]; [left | right]; exists d;
        repeat split; try assumption.
      * destruct (Menu.resolve n) as [q |].
        -- destruct (Hu "KS03-" (or_introl eq_refl) Hs) as [<- _]. reflexivity.
        -- rewrite (Hu "KS03-" (or_introl eq_refl)) in Hs. discriminate Hs.
      * destruct (Menu.resolve n) as [q |].
        -- destruct (Hu "KS03~" (or_intror (or_introl eq_refl)) Hs) as [<- _].
           reflexivity.
        -- rewrite (Hu "KS03~" (or_intror (or_introl eq_refl))) in Hs.
           discriminate Hs.
    + intros [(d & Hin & Ha & Hn & Hr) | (d & Hin & Ha & Hn & Hr)];
        destruct (resolve_some _ _ Hr) as [_ Hs];
        exists d; (split; [exact Hin |]); (split; [exact Ha |]);
        unfold name_of in Hn;
        (destruct (dev_name d) as [n' |];
         [subst n' | subst n; discriminate Hs]);
        (split; [reflexivity |]);
        (split; [intros ->; discriminate Hs |]);
        [left | right]; exact Hs.
Qed.

Lemma find_all_ks03_agrees_with_scan_witness :
  exists targets,
    fst (run (Control.find_all_ks03 8) stack_four_devices) = Ok targets
    /\ forall a n,
        In (a, n) targets
        <-> (In (a, n, "KS03-") (Menu.scan_loop four_devices [])
             \/ In (a, n, "KS03~") (Menu.scan_loop four_devices [])).
Proof.
  apply (find_all_ks03_agrees_with_scan 8 stack_four_devices four_devices).
  reflexivity.
Defined.

(** ** Characteristic UUIDs *)

Lemma length_append (a b : string) :
  String.length (a ++ b) = (String.length a + String.length b)%nat.
Proof.
  induction a as [| c a IH]; cbn [append String.length Nat.add];
    [reflexivity | rewrite IH; reflexivity].
Qed.

Lemma append_cancel_r (t : string) :
  forall a b, a ++ t = b ++ t -> a = b.
Proof.
  induction a as [| c a IH]; intros b H.
  - destruct b as [| d b]; [reflexivity |].
    apply (f_equal String.length) in H.
    rewrite !length_append in H. cbn in H. lia.
  - destruct b as [| d b].
    + apply (f_equal String.length) in H.
      rewrite !length_append in H. cbn in H. lia.
    + cbn [append] in H. inversion H; subst. f_equal. apply IH. assumption.
Qed.

Lemma uuid_template_inj (a b : string) :
  UUID_TEMPLATE a = UUID_TEMPLATE b -> a = b.
Proof.
  unfold UUID_TEMPLATE. cbn [append]. intros H.
  inversion H as [H']. exact (append_cancel_r _ _ _ H').
Qed.

(** The expansion of short codes is injective, so two short codes name the
    same characteristic only when they are the same text; and the
    alternate characteristic of the last-resort step is never the primary
    one, while the alternate of the alternate is the primary short code in
    upper case. *)
Theorem alternate_characteristic_differs (char_short alt : string) :
  Control.alt_char_short_of char_short = Some alt ->
  UUID_TEMPLATE alt <> UUID_TEMPLATE char_short
  /\ Control.alt_char_short_of alt = Some (PyStr.upper char_short).
Proof.
  intros H. unfold Control.alt_char_short_of in H.
  destruct (String.eqb_spec (PyStr.upper char_short) "AFD3") as [E1 | N1].
  - inversion H; subst alt. split.
    + intros Hu. apply uuid_template_inj in Hu. subst char_short.
      discriminate E1.
    + rewrite E1. reflexivity.
  - destruct (String.eqb_spec (PyStr.upper char_short) "FFF3") as [E2 | N2];
      [| discriminate H].
    inversion H; subst alt. split.
    + intros Hu. apply uuid_template_inj in Hu. subst char_short.
      discriminate E2.
    + rewrite E2. reflexivity.
Qed.

Lemma alternate_characteristic_differs_witness :
  UUID_TEMPLATE "AFD3" <> UUID_TEMPLATE "fff3"
  /\ Control.alt_char_short_of "AFD3" = Some (PyStr.upper "fff3").
Proof.
  apply (alternate_characteristic_differs "fff3" "AFD3"). reflexivity.
Defined.

(** ** Payload bytes *)

Lemma hexval_range (c : ascii) (v : Z) :
  PyStr.hexval c = Some v -> 0 <= v <= 15.
Proof.
  unfold PyStr.hexval, HexString.ascii_to_digit.
  repeat match goal with
         | |- context [ascii_dec ?a ?b] => destruct (ascii_dec a b)
         end;
    cbn [option_map]; intros H; inversion H; lia.
Qed.

Lemma fromhex_opt_range_bounded (n : nat) :
  forall s l, (String.length s <= n)%nat ->
              PyStr.fromhex_opt s = Some l ->
              Forall (fun x => 0 <= x <= 255) l.
Proof.
  induction n as [| n IH]; intros s l Hlen H.
  - destruct s; [inversion H; constructor | cbn in Hlen; lia].
  - destruct s as [| c s']; [inversion H; constructor |].
    cbn [PyStr.fromhex_opt String.length] in *.
    destruct (PyStr.is_space c).
    + apply (IH s'); [lia | exact H].
    + destruct (PyStr.hexval c) as [hi |] eqn:Hhi; [| discriminate H].
      destruct s' as [| c2 s'']; [discriminate H |].
      destruct (PyStr.hexval c2) as [lo |] eqn:Hlo; [| discriminate H].
      destruct (PyStr.fromhex_opt s'') as [l' |] eqn:Hrest;
        [| discriminate H].
      cbn [option_map] in H. injection H as Hl. subst l.
      apply hexval_range in Hhi. apply hexval_range in Hlo.
      constructor; [destruct hi; lia |].
      apply (IH s''); [cbn [String.length] in Hlen; lia | exact Hrest].
Qed.

Lemma fromhex_range (s : string) (p : bytes) :
  PyStr.fromhex s = Ok p -> Forall (fun x => 0 <= x <= 255) p.
Proof.
  unfold PyStr.fromhex.
  destruct (PyStr.fromhex_opt s) as [l |] eqn:H; [| discriminate].
  intros E. inversion E; subst.
  exact (fromhex_opt_range_bounded _ s p (le_n _) H).
Qed.

(** Whatever the arguments, a command the encoders return is a sequence
    of bytes: every element is in 0..255. *)
Theorem commands_are_byte_sequences (p : bytes) :
  (forall r g b device_type brightness,
      build_color_cmd r g b device_type brightness = Ok p ->
      Forall (fun x => 0 <= x <= 255) p)
  /\ (forall level,
         brightness_cmd level = Ok p -> Forall (fun x => 0 <= x <= 255) p)
  /\ (forall is_on,
         build_on_off_cmd is_on = Ok p -> Forall (fun x => 0 <= x <= 255) p).
Proof.
  repeat split; intros *; apply fromhex_range.
Qed.

Lemma commands_are_byte_sequences_witness :
  Forall (fun x => 0 <= x <= 255) [126; 7; 5; 3; 16; 1; 0; 0; 0; 239].
Proof.
  apply (proj1 (commands_are_byte_sequences
                  [126; 7; 5; 3; 16; 1; 0; 0; 0; 239])
           256 256 0 "ceiling" 255).
  reflexivity.
Defined.

(** ** The length of hex text *)

Lemma forall_char_app (f : ascii -> bool) (a b : string) :
  forall_char f (a ++ b) = forall_char f a && forall_char f b.
Proof.
  induction a as [| c a IH]; cbn [append forall_char]; [reflexivity |].
  rewrite IH. apply andb_assoc.
Qed.

(** Without white space, [bytes.fromhex] turns every two characters into
    one byte. *)
Lemma fromhex_opt_length_bounded (n : nat) :
  forall s l, (String.length s <= n)%nat ->
              forall_char not_space s = true ->
              PyStr.fromhex_opt s = Some l ->
              String.length s = (2 * List.length l)%nat.
Proof.
  induction n as [| n IH]; intros s l Hlen Hns H.
  - destruct s; [inversion H; reflexivity | cbn in Hlen; lia].
  - destruct s as [| c s']; [inversion H; reflexivity |].
    cbn [PyStr.fromhex_opt String.length forall_char] in *.
    apply andb_prop in Hns. destruct Hns as [Hc Hns].
    unfold not_space in Hc. apply negb_true_iff in Hc. rewrite Hc in H.
    destruct (PyStr.hexval c) as [hi |]; [| discriminate H].
    destruct s' as [| c2 s'']; [discriminate H |].
    destruct (PyStr.hexval c2) as [lo |]; [| discriminate H].
    destruct (PyStr.fromhex_opt s'') as [l' |] eqn:Hrest; [| discriminate H].
    cbn [option_map] in H. injection H as Hl. subst l.
    cbn [forall_char String.length] in *.
    apply andb_prop in Hns. destruct Hns as [_ Hns].
    rewrite (IH s'' l'); [cbn [Datatypes.length]; lia | lia | exact Hns
                         | exact Hrest].
Qed.

Lemma ascii_to_digit_upper (c : ascii) :
  HexString.ascii_to_digit (PyStr.upper_ascii c) = HexString.ascii_to_digit c.
Proof.
  destruct c as [[] [] [] [] [] [] [] []]; reflexivity.
Qed.

Lemma to_N_upper (s : string) :
  forall acc, HexString.Raw.to_N (PyStr.upper s) acc = HexString.Raw.to_N s acc.
Proof.
  induction s as [| c s IH]; intros acc; cbn [PyStr.upper HexString.Raw.to_N];
    [reflexivity |].
  rewrite ascii_to_digit_upper. apply IH.
Qed.

Lemma ascii_to_digit_range (c : ascii) (v : N) :
  HexString.ascii_to_digit c = Some v -> (v <= 15)%N.
Proof.
  unfold HexString.ascii_to_digit.
  repeat match goal with
         | |- context [ascii_dec ?a ?b] => destruct (ascii_dec a b)
         end;
    intros H; inversion H; lia.
Qed.

(** A text of [n] hex digits denotes a number below 16^n. *)
Lemma to_N_bound (s : string) :
  forall acc,
    (HexString.Raw.to_N s acc + 1
     <= 16 ^ N.of_nat (String.length s) * (acc + 1))%N.
Proof.
  induction s as [| c s IH]; intros acc.
  - cbn [HexString.Raw.to_N String.length N.of_nat].
    rewrite N.pow_0_r. lia.
  - cbn [HexString.Raw.to_N String.length].
    replace (N.of_nat (S (String.length s)))
      with (N.succ (N.of_nat (String.length s))) by lia.
    rewrite N.pow_succ_r'.
    match goal with
    | |- (HexString.Raw.to_N s ?a + 1 <= _)%N =>
        specialize (IH a); assert (Ha : (a + 1 <= 16 * (acc + 1))%N)
    end.
    { destruct (HexString.ascii_to_digit c) as [v |] eqn:Hv; [| lia].
      apply ascii_to_digit_range in Hv. lia. }
    etransitivity; [exact IH |].
    rewrite (N.mul_comm 16 (16 ^ N.of_nat (String.length s))),
      <- N.mul_assoc.
    apply N.mul_le_mono_l. exact Ha.
Qed.

Lemma hex_upper_bound (n : N) :
  (n + 1 <= 16 ^ N.of_nat (String.length (PyStr.hex_upper n)))%N.
Proof.
  destruct n as [| p]; [cbn; lia |].
  unfold PyStr.hex_upper.
  pose proof (to_N_bound (PyStr.upper (HexString.Raw.of_pos p "")) 0) as H.
  rewrite to_N_upper, (HexString.Raw.to_N_of_pos p "" 0) in H.
  cbn [HexString.Raw.to_N] in H. lia.
Qed.

(** The number of characters [02X] produces: at least two, and exactly two
    only for a value of 0..255. *)
Lemma format_02X_length (v : Z) :
  0 <= v ->
  (2 <= String.length (PyStr.format_02X v))%nat
  /\ (String.length (PyStr.format_02X v) = 2%nat -> v <= 255).
Proof.
  intros Hv. unfold PyStr.format_02X.
  assert (Hneg : (v <? 0) = false) by (apply Z.ltb_ge; exact Hv).
  rewrite Hneg.
  pose proof (hex_upper_bound (Z.abs_N v)) as Hb.
  set (digits := PyStr.hex_upper (Z.abs_N v)) in *.
  assert (Hone : (1 <= String.length digits)%nat).
  { subst digits. destruct (Z.abs_N v) as [| q]; [cbn; lia |].
    destruct (String.length (PyStr.hex_upper (N.pos q)));
      [cbn in Hb; lia | lia]. }
  assert (Htwo : (String.length digits <= 2)%nat -> v <= 255).
  { intros Hle.
    assert (H16 : (16 ^ N.of_nat (String.length digits) <= 16 ^ 2)%N)
      by (apply N.pow_le_mono_r; lia).
    change (16 ^ 2)%N with 256%N in H16. lia. }
  destruct (Nat.ltb_spec (String.length digits) 2) as [Hlt | Hge].
  - cbn [append String.length]. split; [lia |]. intros _. apply Htwo. lia.
  - split; [exact Hge |]. intros E. apply Htwo. lia.
Qed.

Fixpoint of_pos_not_space (p : positive) (rest : string) {struct p} :
  forall_char (fun c => not_space (PyStr.upper_ascii c)) rest = true ->
  forall_char (fun c => not_space (PyStr.upper_ascii c))
    (HexString.Raw.of_pos p rest) = true.
Proof.
  intros Hrest.
  do 4 try destruct p as [p | p |];
    cbn [HexString.Raw.of_pos];
    try (apply of_pos_not_space);
    cbn [forall_char]; rewrite Hrest; reflexivity.
Qed.

Lemma upper_not_space (s : string) :
  forall_char not_space (PyStr.upper s)
  = forall_char (fun c => not_space (PyStr.upper_ascii c)) s.
Proof.
  induction s as [| c s IH]; cbn [PyStr.upper forall_char];
    [reflexivity | rewrite IH; reflexivity].
Qed.

Lemma format_02X_not_space (v : Z) :
  0 <= v -> forall_char not_space (PyStr.format_02X v) = true.
Proof.
  intros Hv. unfold PyStr.format_02X.
  assert (Hneg : (v <? 0) = false) by (apply Z.ltb_ge; exact Hv).
  rewrite Hneg.
  assert (Hd : forall_char not_space (PyStr.hex_upper (Z.abs_N v)) = true).
  { unfold PyStr.hex_upper. destruct (Z.abs_N v) as [| p]; [reflexivity |].
    rewrite upper_not_space. apply of_pos_not_space. reflexivity. }
  destruct (_ <? _)%nat; [cbn [append forall_char]; rewrite Hd |];
    [reflexivity | exact Hd].
Qed.

Lemma fromhex_ok_no_minus (s : string) (p : bytes) :
  PyStr.fromhex s = Ok p -> mem_char "-" s = false.
Proof.
  intros H. destruct (mem_char "-" s) eqn:Hm; [| reflexivity].
  rewrite (fromhex_minus s Hm) in H. discriminate H.
Qed.

Lemma format_02X_no_minus (v : Z) :
  mem_char "-" (PyStr.format_02X v) = false -> 0 <= v.
Proof.
  intros H. destruct (Z.lt_ge_cases v 0) as [Hneg | Hpos]; [| exact Hpos].
  rewrite (format_02X_negative v Hneg) in H. discriminate H.
Qed.

Lemma fromhex_length (s : string) (p : bytes) :
  forall_char not_space s = true ->
  PyStr.fromhex s = Ok p ->
  String.length s = (2 * List.length p)%nat.
Proof.
  intros Hns H. unfold PyStr.fromhex in H.
  destruct (PyStr.fromhex_opt s) as [l |] eqn:Hl; [| discriminate H].
  inversion H; subst.
  exact (fromhex_opt_length_bounded _ s p (le_n _) Hns Hl).
Qed.

(** A value in range is what makes a command have its nominal length.
    If [build_color_cmd] returns a command of 9 bytes (10 for a floor
    lamp), then r, g and b, and for a floor lamp the brightness, were all
    in 0..255; the same holds for the 10-byte brightness command.  So a
    value out of range is never packed into a command of the usual
    length: the call raises or the command comes out longer. *)
Theorem nominal_length_only_in_range (r g b brightness : Z)
    (device_type : string) (p : bytes) :
  build_color_cmd r g b device_type brightness = Ok p ->
  List.length p = (if String.eqb device_type "floor" then 10 else 9)%nat ->
  0 <= r <= 255 /\ 0 <= g <= 255 /\ 0 <= b <= 255
  /\ (device_type = "floor" -> 0 <= brightness <= 255).
Proof.
  unfold build_color_cmd. intros H Hlen.
  pose proof (fromhex_ok_no_minus _ _ H) as Hm.
  destruct (String.eqb_spec device_type "floor") as [-> | Hdt].
  - rewrite !mem_char_app in Hm.
    repeat match type of Hm with
           | (_ || _) = false =>
               apply orb_false_iff in Hm; destruct Hm as [? Hm]
           end.
    repeat match goal with
           | Hx : (_ || _) = false |- _ =>
               apply orb_false_iff in Hx; destruct Hx
           end.
    assert (Hr : 0 <= r) by (apply format_02X_no_minus; assumption).
    assert (Hg : 0 <= g) by (apply format_02X_no_minus; assumption).
    assert (Hb : 0 <= b) by (apply format_02X_no_minus; assumption).
    assert (Hbr : 0 <= brightness)
      by (apply format_02X_no_minus; assumption).
    apply fromhex_length in H.
    + rewrite !length_append, Hlen in H. cbn [String.length] in H.
      destruct (format_02X_length r Hr), (format_02X_length g Hg),
        (format_02X_length b Hb), (format_02X_length brightness Hbr).
      repeat split; try assumption;
        try (intros _; split; [assumption |]);
        match goal with
        | Hx : String.length (PyStr.format_02X ?v) = 2%nat -> ?v <= 255
          |- ?v <= 255 => apply Hx; lia
        end.
    + rewrite !forall_char_app, !format_02X_not_space by assumption.
      reflexivity.
  - rewrite !mem_char_app in Hm.
    repeat match type of Hm with
           | (_ || _) = false =>
               apply orb_false_iff in Hm; destruct Hm as [? Hm]
           end.
    repeat match goal with
           | Hx : (_ || _) = false |- _ =>
               apply orb_false_iff in Hx; destruct Hx
           end.
    assert (Hr : 0 <= r) by (apply format_02X_no_minus; assumption).
    assert (Hg : 0 <= g) by (apply format_02X_no_minus; assumption).
    assert (Hb : 0 <= b) by (apply format_02X_no_minus; assumption).
    apply fromhex_length in H.
    + rewrite !length_append, Hlen in H. cbn [String.length] in H.
      destruct (format_02X_length r Hr), (format_02X_length g Hg),
        (format_02X_length b Hb).
      repeat split; try assumption;
        try (intros E; contradiction);
        match goal with
        | Hx : String.length (PyStr.format_02X ?v) = 2%nat -> ?v <= 255
          |- ?v <= 255 => apply Hx; lia
        end.
    + rewrite !forall_char_app, !format_02X_not_space by assumption.
      reflexivity.
Qed.

Lemma nominal_length_only_in_range_witness :
  0 <= 255 <= 255 /\ 0 <= 147 <= 255 /\ 0 <= 41 <= 255
  /\ ("floor" = "floor" -> 0 <= 64 <= 255).
Proof.
  apply (nominal_length_only_in_range 255 147 41 64 "floor"
           [90; 0; 1; 255; 147; 41; 0; 64; 0; 165]); reflexivity.
Defined.

(** ** What the menus put on the radio *)

Lemma bytes_eqb_eq (p q : bytes) : bytes_eqb p q = true <-> p = q.
Proof.
  revert q. induction p as [| x p IH]; intros [| y q]; cbn [bytes_eqb];
    try (split; [discriminate | discriminate]); [split; reflexivity |].
  rewrite andb_true_iff, Z.eqb_eq, IH. split.
  - intros [-> ->]. reflexivity.
  - intros H. inversion H. split; reflexivity.
Qed.

Lemma bytes_eqb_refl (p : bytes) : bytes_eqb p p = true.
Proof. apply bytes_eqb_eq. reflexivity. Qed.

(** The colour path, event by event. *)
Lemma send_command_color_events addr name prefix m payload action_name env h :
  Menu.getitem Menu.DEVICE_MAPPINGS prefix = Ok m ->
  exists t,
    Menu.send_command (addr, name, prefix) payload action_name true env h
    = (Ok tt, t)
    /\ forallb (color_path_event (UUID_TEMPLATE (Menu.write m)) payload) t
       = true.
Proof.
  intros Hm.
  unfold Menu.send_command. rewrite Hm. rewrite bind_lift_ok.
  change (build_on_off_cmd true) with (Ok on_bytes).
  run_py.
  destruct (ble_connect env _ addr) as [ec |];
    [| ask_stack; [| ask_stack; [| destruct (ble_disconnect env _) as [ed |]]]];
    cbn [fst snd app]; eexists; (split; [reflexivity |]);
    cbn [forallb color_path_event negb andb];
    rewrite ?String.eqb_refl, ?bytes_eqb_refl, ?orb_true_r;
    reflexivity.
Qed.

Lemma color_path_event_write uuid payload u p response o :
  color_path_event uuid payload (EvWrite u p response o) = true ->
  u = uuid /\ response = false /\ (p = on_bytes \/ p = payload).
Proof.
  cbn [color_path_event]. intros H.
  apply andb_prop in H. destruct H as [H Hp].
  apply andb_prop in H. destruct H as [Hu Hr].
  apply String.eqb_eq in Hu. apply negb_true_iff in Hr.
  apply orb_prop in Hp. rewrite !bytes_eqb_eq in Hp. auto.
Qed.

Lemma console_is_color_path uuid payload (t : trace) :
  forallb is_console t = true ->
  forallb (color_path_event uuid payload) t = true.
Proof.
  induction t as [| e t IH]; [reflexivity |]. cbn [forallb].
  intros H. apply andb_prop in H. destruct H as [He Ht].
  rewrite (IH Ht), andb_true_r.
  destruct e; try discriminate He; reflexivity.
Qed.

(** Whatever is chosen in the brightness menu and whatever the stack
    does, the menu returns, and every write it makes goes without response
    to the write characteristic of the device and carries either the ON
    command or a brightness command 5A 00 02 00 00 00 00 level 00 A5 with
    a level in 0..255.  For a device that is not a floor lamp it writes
    nothing at all. *)
Theorem brightness_menu_writes addr name prefix m choice custom env h :
  In (prefix, m) Menu.DEVICE_MAPPINGS ->
  exists t,
    Menu.brightness_menu (addr, name, prefix) choice custom env h = (Ok tt, t)
    /\ (forall u p response o,
           In (EvWrite u p response o) t ->
           Menu.get_type m = "floor"
           /\ u = UUID_TEMPLATE (Menu.write m) /\ response = false
           /\ (p = on_bytes
               \/ exists level,
                   0 <= level <= 255
                   /\ p = [90; 0; 2; 0; 0; 0; 0; level; 0; 165])).
Proof.
  intros Hin.
  assert (Hm : Menu.getitem Menu.DEVICE_MAPPINGS prefix = Ok m).
  { cbn [Menu.DEVICE_MAPPINGS In] in Hin.
    destruct Hin as [E | [E | [E | [E | [E | []]]]]]; inversion E;
      reflexivity. }
  (* what the menu does once a level in range is chosen *)
  assert (Happly : forall level h',
             0 <= level <= 255 ->
             exists t,
               Menu.apply_brightness (addr, name, prefix) (Menu.get_type m)
                 (Some level) env h' = (Ok tt, t)
               /\ forall u p response o,
                   In (EvWrite u p response o) t ->
                   Menu.get_type m = "floor"
                   /\ u = UUID_TEMPLATE (Menu.write m) /\ response = false
                   /\ (p = on_bytes
                       \/ exists level,
                           0 <= level <= 255
                           /\ p = [90; 0; 2; 0; 0; 0; 0; level; 0; 165])).
  { intros level h' Hl. unfold Menu.apply_brightness.
    destruct (String.eqb_spec (Menu.get_type m) "floor") as [Hfloor | Hnf].
    - rewrite (brightness_cmd_bytes level Hl), bind_lift_ok.
      destruct (send_command_color_events addr name prefix m
                  [90; 0; 2; 0; 0; 0; 0; level; 0; 165]
                  ("brightness " ++ Menu.str_int level) env h' Hm)
        as (t & E & Hev).
      exists t. split; [exact E |].
      intros u p response o Hw.
      rewrite forallb_forall in Hev. apply Hev in Hw.
      apply color_path_event_write in Hw.
      destruct Hw as (Hu & Hr & Hp).
      repeat split; try assumption.
      destruct Hp as [Hp | Hp]; [left; exact Hp |].
      right. exists level. split; assumption.
    - eexists. split; [reflexivity |].
      intros u p response o [Hw | [Hw | []]]; discriminate Hw. }
  assert (Hnone : forall t0,
             forallb is_console t0 = true ->
             forall u p response o,
               In (EvWrite u p response o) t0 ->
               Menu.get_type m = "floor"
               /\ u = UUID_TEMPLATE (Menu.write m) /\ response = false
               /\ (p = on_bytes
                   \/ exists level,
                       0 <= level <= 255
                       /\ p = [90; 0; 2; 0; 0; 0; 0; level; 0; 165])).
  { intros t0 Hc u p response o Hw. rewrite forallb_forall in Hc.
    apply Hc in Hw. discriminate Hw. }
  unfold Menu.brightness_menu. rewrite Hm, bind_lift_ok.
  unfold bind at 1. unfold print at 1.
  unfold bind at 1. unfold print at 1.
  cbn [app].
  assert (Hwrap : forall (k : M unit) hk,
             (exists t, k env hk = (Ok tt, t)
                        /\ forall u p response o,
                            In (EvWrite u p response o) t ->
                            Menu.get_type m = "floor"
                            /\ u = UUID_TEMPLATE (Menu.write m)
                            /\ response = false
                            /\ (p = on_bytes
                                \/ exists level,
                                    0 <= level <= 255
                                    /\ p = [90; 0; 2; 0; 0; 0; 0; level; 0;
                                            165])) ->
             exists t,
               (let (r, t2) := let (r, t2) := k env hk in
                               (r, EvPrint MsgBrightnessMenu :: t2) in
                (r, EvPrint MsgHeader :: t2)) = (Ok tt, t)
               /\ forall u p response o,
                   In (EvWrite u p response o) t ->
                   Menu.get_type m = "floor"
                   /\ u = UUID_TEMPLATE (Menu.write m) /\ response = false
                   /\ (p = on_bytes
                       \/ exists level,
                           0 <= level <= 255
                           /\ p = [90; 0; 2; 0; 0; 0; 0; level; 0; 165])).
  { intros k hk (t & E & Ht). rewrite E. eexists. split; [reflexivity |].
    intros u p response o [Hw | [Hw | Hw]]; try discriminate Hw.
    exact (Ht u p response o Hw). }
  apply Hwrap.
  repeat match goal with
         | |- context [if String.eqb choice ?c then _ else _] =>
             destruct (String.eqb choice c)
         end;
    try (apply Happly; lia);
    try (eexists; split; [reflexivity |]; apply Hnone; reflexivity).
  destruct custom as [level |].
  - destruct ((0 <=? level) && (level <=? 255)) eqn:Hr; cbn [negb].
    + apply andb_prop in Hr. destruct Hr as [H0 H1].
      apply Z.leb_le in H0. apply Z.leb_le in H1.
      apply Happly. lia.
    + eexists; split; [reflexivity |]; apply Hnone; reflexivity.
  - eexists; split; [reflexivity |]; apply Hnone; reflexivity.
Qed.

Lemma brightness_menu_writes_witness :
  exists t,
    Menu.brightness_menu ("BE:60:4D:00:58:37", "KS03~370058", "KS03~") "3"
      None stack_all_good [] = (Ok tt, t)
    /\ (forall u p response o,
           In (EvWrite u p response o) t ->
           Menu.get_type (Menu.mk_mapping "AFD0" "AFD1" (Some "floor"))
           = "floor"
           /\ u = UUID_TEMPLATE
                    (Menu.write (Menu.mk_mapping "AFD0" "AFD1" (Some "floor")))
           /\ response = false
           /\ (p = on_bytes
               \/ exists level,
                   0 <= level <= 255
                   /\ p = [90; 0; 2; 0; 0; 0; 0; level; 0; 165])).
Proof.
  apply (brightness_menu_writes "BE:60:4D:00:58:37" "KS03~370058" "KS03~"
           (Menu.mk_mapping "AFD0" "AFD1" (Some "floor")) "3" None
           stack_all_good []).
  right. left. reflexivity.
Defined.




(** For a short code outside the pair FFF3/AFD3 the write engine of
    [led_control.py] makes at most the two primary writes: it succeeds
    when one of them does, and when both fail it raises "Write failed:"
    followed by both errors, the first and then the second. *)
Theorem primary_only_without_alternate env address service_short char_short
    payload verbose :
  ble_connect env [] address = None ->
  ble_is_connected env [EvConnect address None] = true ->
  Control.alt_char_short_of char_short = None ->
  let out := run (Control.write_command address service_short char_short
                    payload verbose) env in
  let W := EvWrite (UUID_TEMPLATE char_short) payload in
  (fst out = Ok tt
   /\ (writes_of (snd out) = [W false None]
       \/ exists e1, writes_of (snd out) = [W false (Some e1); W true None]))
  \/ exists e1 e2,
      writes_of (snd out) = [W false (Some e1); W true (Some e2)]
      /\ fst out = Raise (RuntimeError ("Write failed: " ++ str_exn e1
                                        ++ ", " ++ str_exn e2)).
Proof.
  intros Hc Hi Halt. cbv zeta.
  destruct (control_write_command_connected env address service_short
              char_short payload verbose Hc Hi) as (h' & Hws & Hres).
  pose proof (write_cascade_runs env h' char_short payload verbose) as Hrun.
  pose proof (alt_char_short_of_spec char_short) as Hspec.
  rewrite Halt in Hspec. destruct Hspec as [N1 N2].
  rewrite Hws, Hres.
  assert (Hno : forall alt, ~ alternate_of char_short alt).
  { intros alt [[E _] | [E _]]; contradiction. }
  inversion Hrun;
    try match goal with
        | Ha : alternate_of char_short _ |- _ =>
            exfalso; exact (Hno _ Ha)
        end.
  - left. split; [reflexivity | left; reflexivity].
  - left. split; [reflexivity | right; eexists; reflexivity].
  - right. eexists; eexists. split; reflexivity.
Qed.

Lemma primary_only_without_alternate_witness :
  let out := run (Control.write_command "BE:60:4D:00:58:37" "AFD0" "AFD1"
                    on_bytes false) stack_all_fail in
  let W := EvWrite (UUID_TEMPLATE "AFD1") on_bytes in
  (fst out = Ok tt
   /\ (writes_of (snd out) = [W false None]
       \/ exists e1, writes_of (snd out) = [W false (Some e1); W true None]))
  \/ exists e1 e2,
      writes_of (snd out) = [W false (Some e1); W true (Some e2)]
      /\ fst out = Raise (RuntimeError ("Write failed: " ++ str_exn e1
                                        ++ ", " ++ str_exn e2)).
Proof.
  apply (primary_only_without_alternate stack_all_fail "BE:60:4D:00:58:37"
           "AFD0" "AFD1" on_bytes false); reflexivity.
Defined.

(** ** Presets and nicknames *)

Section DictFacts.

Context {V : Type}.
Implicit Types (d : Store.pydict V) (k : string) (v : V).

Lemma dict_get_set_same d k v :
  Store.dict_get (Store.dict_set d k v) k = Some v.
Proof.
  induction d as [| [k' v'] d IH]; cbn [Store.dict_set Store.dict_get].
  - rewrite String.eqb_refl. reflexivity.
  - destruct (String.eqb_spec k' k) as [-> | Hk];
      cbn [Store.dict_get].
    + rewrite String.eqb_refl. reflexivity.
    + apply String.eqb_neq in Hk. rewrite Hk. exact IH.
Qed.

Lemma dict_get_set_other d k v k0 :
  k0 <> k ->
  Store.dict_get (Store.dict_set d k v) k0 = Store.dict_get d k0.
Proof.
  intros Hne.
  induction d as [| [k' v'] d IH]; cbn [Store.dict_set Store.dict_get].
  - destruct (String.eqb_spec k k0); [congruence | reflexivity].
  - destruct (String.eqb_spec k' k) as [-> | Hk]; cbn [Store.dict_get].
    + destruct (String.eqb_spec k k0); [congruence | reflexivity].
    + rewrite IH. reflexivity.
Qed.

Lemma dict_keys_set d k v :
  Store.dict_keys (Store.dict_set d k v)
  = if in_dec string_dec k (Store.dict_keys d)
    then Store.dict_keys d
    else (Store.dict_keys d ++ [k])%list.
Proof.
  unfold Store.dict_keys.
  induction d as [| [k' v'] d IH]; cbn [Store.dict_set map fst].
  - destruct (in_dec string_dec k []) as [[] |]. reflexivity.
  - destruct (String.eqb_spec k' k) as [-> | Hk]; cbn [map fst].
    + destruct (in_dec string_dec k (k :: map fst d)) as [_ | Hn];
        [reflexivity | exfalso; apply Hn; left; reflexivity].
    + rewrite IH.
      destruct (in_dec string_dec k (map fst d)) as [Hin | Hn];
        destruct (in_dec string_dec k (k' :: map fst d)) as [Hin' | Hn'];
        try reflexivity.
      * exfalso. apply Hn'. right. exact Hin.
      * exfalso. destruct Hin' as [E | Hin']; [congruence | auto].
Qed.

Lemma dict_get_del_other d k k0 :
  k0 <> k ->
  Store.dict_get (Store.dict_del d k) k0 = Store.dict_get d k0.
Proof.
  intros Hne.
  induction d as [| [k' v'] d IH]; cbn [Store.dict_del Store.dict_get];
    [reflexivity |].
  destruct (String.eqb_spec k' k) as [-> | Hk]; cbn [Store.dict_get].
  - destruct (String.eqb_spec k k0); [congruence | reflexivity].
  - rewrite IH. reflexivity.
Qed.

Lemma dict_get_none_iff d k :
  Store.dict_get d k = None <-> ~ In k (Store.dict_keys d).
Proof.
  unfold Store.dict_keys.
  induction d as [| [k' v'] d IH]; cbn [Store.dict_get map fst In].
  - tauto.
  - destruct (String.eqb_spec k' k) as [-> | Hk].
    + split; [discriminate | intros H; exfalso; apply H; left; reflexivity].
    + rewrite IH. tauto.
Qed.

Lemma dict_get_del_same d k :
  NoDup (Store.dict_keys d) -> Store.dict_get (Store.dict_del d k) k = None.
Proof.
  unfold Store.dict_keys.
  induction d as [| [k' v'] d IH]; cbn [Store.dict_del Store.dict_get map fst];
    [reflexivity |].
  intros Hnd. inversion Hnd as [| ? ? Hnotin Hnd']; subst.
  destruct (String.eqb_spec k' k) as [-> | Hk]; cbn [Store.dict_get].
  - apply dict_get_none_iff. exact Hnotin.
  - apply String.eqb_neq in Hk. rewrite Hk. apply IH. exact Hnd'.
Qed.

(** Deleting the key at position [n] removes that position and keeps the
    order of the rest. *)
Lemma dict_keys_del_nth d k (n : nat) :
  NoDup (Store.dict_keys d) ->
  nth_error (Store.dict_keys d) n = Some k ->
  Store.dict_keys (Store.dict_del d k)
  = (firstn n (Store.dict_keys d) ++ skipn (S n) (Store.dict_keys d))%list.
Proof.
  unfold Store.dict_keys. revert n.
  induction d as [| [k' v'] d IH]; intros n Hnd Hn.
  - destruct n; discriminate Hn.
  - cbn [map fst] in *. inversion Hnd as [| ? ? Hnotin Hnd']; subst.
    cbn [Store.dict_del].
    destruct n as [| n]; cbn [nth_error] in Hn.
    + inversion Hn; subst. rewrite String.eqb_refl. reflexivity.
    + destruct (String.eqb_spec k' k) as [-> | Hk].
      * exfalso. apply Hnotin. exact (nth_error_In _ _ Hn).
      * cbn [map fst firstn skipn app]. f_equal. apply IH; assumption.
Qed.



End DictFacts.

Lemma default_presets_in_range : presets_in_range Store.DEFAULT_PRESETS.
Proof.
  unfold presets_in_range, Store.DEFAULT_PRESETS.
  repeat constructor; cbn; lia.
Qed.

Lemma presets_on_in_range_holds (d : Store.disk) :
  presets_in_range (presets_on d) <->
  match Store.presets_file d with
  | Store.Holds p => presets_in_range p
  | _ => True
  end.
Proof.
  unfold presets_on, Store.load_presets. cbn [fst].
  destruct (Store.presets_file d); split; intros; try exact I;
    try assumption; apply default_presets_in_range.
Qed.

(** The three things [save_presets] can leave behind. *)
Lemma save_presets_spec (p : Store.presets) (d : Store.disk) :
  Store.devices_file (disk_after (Store.save_presets p) d)
  = Store.devices_file d
  /\ Store.write_error (disk_after (Store.save_presets p) d)
     = Store.write_error d
  /\ match Store.write_error d with
     | None => presets_on (disk_after (Store.save_presets p) d) = p
     | Some _ => disk_after (Store.save_presets p) d = d
     end.
Proof.
  unfold disk_after, presets_on, Store.save_presets, Store.load_presets.
  destruct (Store.write_error d) eqn:E; cbn; rewrite ?E; auto.
Qed.





(** Adding a preset (choice 1).  With a non-empty name and three numbers
    in 0..255, the table afterwards maps the name to those numbers, every
    other name to what it had, and the order of the names is kept, a new
    name going last; on a writable disk that table is what is stored.
    With an empty name, a number missing or a number out of range,
    neither the table nor the disk changes. *)
Theorem manage_add_preset (p : Store.presets) (i : Store.manage_inputs)
    (d : Store.disk) :
  Store.mi_choice i = "1" ->
  let p' := fst (value_of (Store.manage_presets_pass p i) d) in
  let d' := disk_after (Store.manage_presets_pass p i) d in
  (forall r g b,
      Store.mi_name i <> "" ->
      Store.mi_r i = Some r -> Store.mi_g i = Some g ->
      Store.mi_b i = Some b ->
      0 <= r <= 255 -> 0 <= g <= 255 -> 0 <= b <= 255 ->
      Store.dict_get p' (Store.mi_name i) = Some (Store.mk_rgb r g b)
      /\ (forall k, k <> Store.mi_name i ->
                    Store.dict_get p' k = Store.dict_get p k)
      /\ Store.dict_keys p'
         = (if in_dec string_dec (Store.mi_name i) (Store.dict_keys p)
            then Store.dict_keys p
            else (Store.dict_keys p ++ [Store.mi_name i])%list)
      /\ (Store.write_error d = None -> presets_on d' = p'))
  /\ (Store.mi_name i = ""
      \/ Store.mi_r i = None \/ Store.mi_g i = None \/ Store.mi_b i = None
      \/ (exists r g b,
             Store.mi_r i = Some r /\ Store.mi_g i = Some g
             /\ Store.mi_b i = Some b
             /\ ~ (0 <= r <= 255 /\ 0 <= g <= 255 /\ 0 <= b <= 255)) ->
      p' = p /\ d' = d).
Proof.
  intros Hchoice. cbv zeta.
  unfold Store.manage_presets_pass, value_of, disk_after.
  rewrite Hchoice. cbn [String.eqb Ascii.eqb Bool.eqb].
  unfold Store.bind at 1. unfold Store.say at 1.
  unfold Store.bind at 1. unfold Store.say at 1.
  unfold Store.bind at 1. unfold Store.say at 1.
  split.
  - intros r g b Hname Hr Hg Hb Rr Rg Rb.
    apply String.eqb_neq in Hname. rewrite Hname, Hr, Hg, Hb.
    assert (Hrange : forallb Store.in_byte_range [r; g; b] = true).
    { cbn [forallb]. unfold Store.in_byte_range.
      repeat (apply andb_true_intro; split); try reflexivity;
        apply Z.leb_le; lia. }
    rewrite Hrange.
    pose proof (save_presets_spec
                  (Store.dict_set p (Store.mi_name i) (Store.mk_rgb r g b)) d)
      as (_ & _ & Hs).
    unfold disk_after in Hs.
    unfold Store.bind, Store.say, Store.pause, Store.ret.
    destruct (Store.save_presets _ d) as [[u d1] o1]. cbn [fst snd] in *.
    split; [apply dict_get_set_same |].
    split; [intros k Hk; apply dict_get_set_other; exact Hk |].
    split; [apply dict_keys_set |].
    intros Hw. rewrite Hw in Hs. exact Hs.
  - intros H.
    destruct (String.eqb_spec (Store.mi_name i) "") as [_ | Hname];
      [split; reflexivity |].
    destruct H as [H | H]; [contradiction |].
    destruct (Store.mi_r i) as [r |]; [| split; reflexivity].
    destruct (Store.mi_g i) as [g |]; [| split; reflexivity].
    destruct (Store.mi_b i) as [b |]; [| split; reflexivity].
    destruct (forallb Store.in_byte_range [r; g; b]) eqn:Hrange;
      [| split; reflexivity].
    exfalso.
    destruct H as [H | [H | [H | (r0 & g0 & b0 & Er & Eg & Eb & Hout)]]];
      try discriminate H.
    inversion Er; inversion Eg; inversion Eb; subst.
    apply Hout.
    cbn [forallb] in Hrange. unfold Store.in_byte_range in Hrange.
    repeat match goal with
           | H : (_ && _) = true |- _ => apply andb_prop in H; destruct H
           | H : (_ <=? _) = true |- _ => apply Z.leb_le in H
           end.
    lia.
Qed.

Lemma manage_add_preset_witness :
  let p' := fst (value_of (Store.manage_presets_pass Store.DEFAULT_PRESETS
                             add_mine) disk_empty) in
  let d' := disk_after (Store.manage_presets_pass Store.DEFAULT_PRESETS
                          add_mine) disk_empty in
  Store.dict_get p' "Mine" = Some (Store.mk_rgb 1 2 3)
  /\ (forall k, k <> "Mine" ->
                Store.dict_get p' k = Store.dict_get Store.DEFAULT_PRESETS k)
  /\ Store.dict_keys p'
     = (Store.dict_keys Store.DEFAULT_PRESETS ++ ["Mine"])%list
  /\ presets_on d' = p'.
Proof.
  cbv zeta.
  destruct (proj1 (manage_add_preset Store.DEFAULT_PRESETS add_mine
                     disk_empty eq_refl) 1 2 3)
    as (H1 & H2 & H3 & H4);
    try reflexivity; try lia; try discriminate.
  split; [exact H1 |]. split; [exact H2 |]. split; [exact H3 |].
  apply H4. reflexivity.
Defined.

(** Deleting a preset (choice 2) from a table with distinct names.  For a
    number between 1 and the number of presets, confirmed with y, exactly
    the preset shown at that number goes: its name is no longer in the
    table, every other name keeps its value, and the remaining names keep
    their order; on a writable disk the new table is what is stored.  For
    any other number, or without the y, nothing changes. *)
Theorem manage_delete_preset (p : Store.presets) (i : Store.manage_inputs)
    (d : Store.disk) (idx : Z) :
  Store.mi_choice i = "2" ->
  Store.mi_idx i = Some idx ->
  NoDup (Store.dict_keys p) ->
  let p' := fst (value_of (Store.manage_presets_pass p i) d) in
  let d' := disk_after (Store.manage_presets_pass p i) d in
  (1 <= idx <= Z.of_nat (List.length (Store.dict_keys p)) ->
   Store.mi_confirm i = "y" ->
   exists name,
     nth_error (Store.dict_keys p) (Z.to_nat (idx - 1)) = Some name
     /\ Store.dict_get p' name = None
     /\ (forall k, k <> name -> Store.dict_get p' k = Store.dict_get p k)
     /\ Store.dict_keys p'
        = (firstn (Z.to_nat (idx - 1)) (Store.dict_keys p)
             ++ skipn (Z.to_nat idx) (Store.dict_keys p))%list
     /\ (Store.write_error d = None -> presets_on d' = p'))
  /\ (idx < 1 \/ Z.of_nat (List.length (Store.dict_keys p)) < idx
      \/ Store.mi_confirm i <> "y" ->
      p' = p /\ d' = d).
Proof.
  intros Hchoice Hidx Hnd. cbv zeta.
  unfold Store.manage_presets_pass, value_of, disk_after.
  rewrite Hchoice, Hidx. cbn [String.eqb Ascii.eqb Bool.eqb].
  unfold Store.bind at 1. unfold Store.say at 1.
  unfold Store.bind at 1. unfold Store.say at 1.
  unfold Store.bind at 1. unfold Store.say at 1.
  split.
  - intros Hrange Hy.
    assert (Hpos : (idx >? 0) = true) by (apply Z.gtb_lt; lia).
    assert (Hin : (0 <? idx)
                  && (idx <=? Z.of_nat (List.length (Store.dict_keys p)))
                  = true).
    { apply andb_true_intro. split; [apply Z.ltb_lt | apply Z.leb_le]; lia. }
    rewrite Hpos, Hin, Hy. cbn [String.eqb Ascii.eqb Bool.eqb].
    destruct (nth_error (Store.dict_keys p) (Z.to_nat (idx - 1)))
      as [name |] eqn:Hnth.
    + exists name. split; [reflexivity |].
      pose proof (save_presets_spec (Store.dict_del p name) d)
        as (_ & _ & Hs).
      unfold disk_after in Hs.
      unfold Store.bind, Store.say, Store.pause, Store.ret.
      destruct (Store.save_presets _ d) as [[u d1] o1]. cbn [fst snd] in *.
      split; [apply dict_get_del_same; exact Hnd |].
      split; [intros k Hk; apply dict_get_del_other; exact Hk |].
      split.
      * rewrite (dict_keys_del_nth p name (Z.to_nat (idx - 1)) Hnd Hnth).
        replace (S (Z.to_nat (idx - 1))) with (Z.to_nat idx) by lia.
        reflexivity.
      * intros Hw. rewrite Hw in Hs. exact Hs.
    + exfalso. apply nth_error_None in Hnth. lia.
  - intros H.
    destruct (idx >? 0) eqn:Hpos; [| split; reflexivity].
    destruct ((0 <? idx)
              && (idx <=? Z.of_nat (List.length (Store.dict_keys p))))
      eqn:Hin; [| split; reflexivity].
    destruct (nth_error _ _) as [name |]; [| split; reflexivity].
    destruct (String.eqb_spec (Store.mi_confirm i) "y") as [Hy | Hn];
      [| split; reflexivity].
    exfalso. apply andb_prop in Hin. destruct Hin as [H0 H1].
    apply Z.ltb_lt in H0. apply Z.leb_le in H1.
    destruct H as [H | [H | H]]; [lia | lia | contradiction].
Qed.

Lemma manage_delete_preset_witness :
  let p' := fst (value_of (Store.manage_presets_pass Store.DEFAULT_PRESETS
                             delete_first) disk_empty) in
  exists name,
    nth_error (Store.dict_keys Store.DEFAULT_PRESETS) (Z.to_nat (1 - 1))
    = Some name
    /\ Store.dict_get p' name = None
    /\ (forall k, k <> name ->
                  Store.dict_get p' k = Store.dict_get Store.DEFAULT_PRESETS k)
    /\ Store.dict_keys p'
       = (firstn (Z.to_nat (1 - 1)) (Store.dict_keys Store.DEFAULT_PRESETS)
            ++ skipn (Z.to_nat 1) (Store.dict_keys Store.DEFAULT_PRESETS))%list.
Proof.
  cbv zeta.
  assert (Hnd : NoDup (Store.dict_keys Store.DEFAULT_PRESETS)).
  { cbn. repeat constructor; cbn; intuition discriminate. }
  destruct (proj1 (manage_delete_preset Store.DEFAULT_PRESETS delete_first
                     disk_empty 1 eq_refl eq_refl Hnd))
    as (name & H1 & H2 & H3 & H4 & _).
  - cbn. lia.
  - reflexivity.
  - exists name. repeat split; assumption.
Defined.

(** The disk [set_device_nickname] leaves when it can write. *)
Lemma set_device_nickname_disk (addr name prefix nickname : string)
    (d : Store.disk) :
  Store.write_error d = None ->
  disk_after (Store.set_device_nickname (addr, name, prefix) nickname) d
  = let nicks := nicknames_on d in
    let current := match Store.dict_get nicks addr with
                   | Some c => c
                   | None => ""
                   end in
    if negb (String.eqb nickname "") then
      Store.mk_disk (Store.presets_file d)
        (Store.Holds (Store.dict_set nicks addr nickname))
        (Store.write_error d)
    else if negb (String.eqb current "") then
      Store.mk_disk (Store.presets_file d)
        (Store.Holds (Store.dict_del nicks addr)) (Store.write_error d)
    else d.
Proof.
  intros Hw. cbv zeta.
  unfold disk_after, Store.set_device_nickname.
  unfold Store.bind at 1.
  change (Store.load_devices d) with (nicknames_on d, d, @nil Store.out).
  set (nicks := nicknames_on d).
  unfold Store.bind, Store.say, Store.pause, Store.ret, Store.save_devices.
  cbv beta zeta.
  destruct (Store.dict_get nicks addr) as [c |];
    [destruct (String.eqb c "") |];
    destruct (String.eqb nickname "");
    cbn [negb String.eqb]; cbv beta iota; rewrite ?Hw; reflexivity.
Qed.

(** Nicknames, from typing to display, on a writable disk whose nickname
    table has distinct addresses.  After a non-empty nickname is typed for
    a device, its display name is the nickname followed by the real name
    in brackets; after an empty one, its display name is the real name
    again.  The display name of every other address is what it was, and
    the presets file is not touched. *)
Theorem nickname_round_trip (addr name prefix nickname : string)
    (d : Store.disk) :
  Store.write_error d = None ->
  NoDup (Store.dict_keys (nicknames_on d)) ->
  let d' := disk_after
              (Store.set_device_nickname (addr, name, prefix) nickname) d in
  (nickname <> "" ->
   Store.get_device_display_name addr name (nicknames_on d')
   = nickname ++ " (" ++ name ++ ")")
  /\ (nickname = "" ->
      Store.get_device_display_name addr name (nicknames_on d') = name)
  /\ (forall addr2 name2,
         addr2 <> addr ->
         Store.get_device_display_name addr2 name2 (nicknames_on d')
         = Store.get_device_display_name addr2 name2 (nicknames_on d))
  /\ Store.presets_file d' = Store.presets_file d.
Proof.
  intros Hw Hnd. cbv zeta.
  rewrite (set_device_nickname_disk addr name prefix nickname d Hw).
  cbv zeta.
  set (nicks := nicknames_on d) in *.
  destruct (String.eqb_spec nickname "") as [-> | Hnick]; cbn [negb].
  - destruct (Store.dict_get nicks addr) as [c |] eqn:Hget.
    + destruct (String.eqb_spec c "") as [-> | Hc]; cbn [negb].
      * fold nicks.
        split; [intros H; congruence |].
        split; [| split; reflexivity].
        intros _. unfold Store.get_device_display_name.
        rewrite Hget. reflexivity.
      * cbn [nicknames_on Store.load_devices Store.devices_file
             Store.presets_file fst].
        split; [intros H; congruence |].
        split; [| split; [| reflexivity]].
        -- intros _. unfold Store.get_device_display_name.
           rewrite (dict_get_del_same nicks addr Hnd). reflexivity.
        -- intros addr2 name2 Hne. unfold Store.get_device_display_name.
           rewrite (dict_get_del_other nicks addr addr2 Hne). reflexivity.
    + cbn [String.eqb negb]. fold nicks.
      split; [intros H; congruence |].
      split; [| split; reflexivity].
      intros _. unfold Store.get_device_display_name.
      rewrite Hget. reflexivity.
  - cbn [nicknames_on Store.load_devices Store.devices_file
         Store.presets_file fst].
    split; [| split; [intros H; congruence | split; [| reflexivity]]].
    + intros _. unfold Store.get_device_display_name.
      rewrite dict_get_set_same.
      apply String.eqb_neq in Hnick. rewrite Hnick. reflexivity.
    + intros addr2 name2 Hne. unfold Store.get_device_display_name.
      rewrite (dict_get_set_other nicks addr nickname addr2 Hne).
      reflexivity.
Qed.

Lemma nickname_round_trip_witness :
  Store.get_device_display_name "BE:60:4D:00:58:37" "KS03~370058"
    (nicknames_on
       (disk_after
          (Store.set_device_nickname
             ("BE:60:4D:00:58:37", "KS03~370058", "KS03~") "Desk")
          disk_empty))
  = "Desk (KS03~370058)".
Proof.
  apply (proj1 (nickname_round_trip "BE:60:4D:00:58:37" "KS03~370058"
                  "KS03~" "Desk" disk_empty eq_refl (NoDup_nil _))).
  discriminate.
Defined.

(** ** The command line of [led_control.py] *)

Lemma forallb_implies {A} (p q : A -> bool) (l : list A) :
  (forall x, p x = true -> q x = true) ->
  forallb p l = true -> forallb q l = true.
Proof.
  intros H. induction l as [| x l IH]; [reflexivity |]. cbn [forallb].
  intros Hp. apply andb_prop in Hp. destruct Hp as [Hx Hl].
  rewrite (H x Hx), (IH Hl). reflexivity.
Qed.

Lemma write_cascade_after_connect env h char_short payload verbose :
  forallb (after_connect payload)
    (snd (Control.write_cascade char_short payload verbose env h)) = true.
Proof.
  unfold Control.write_cascade.
  destruct (Control.alt_char_short_of char_short) as [alt |];
    destruct verbose; run_py;
    repeat (ask_stack; cbn [fst snd app forallb after_connect andb]);
    cbn [fst snd app forallb after_connect andb];
    rewrite ?bytes_eqb_refl; reflexivity.
Qed.

Lemma cleanup_events_after_connect payload env t :
  forallb (after_connect payload) (cleanup_events env t) = true.
Proof.
  unfold cleanup_events. destruct (ble_is_connected env t); reflexivity.
Qed.

(** A call of [led_control.write_command], from any history: it opens
    with the one connect, to the address given; what follows neither
    connects nor scans, and writes nothing but the payload. *)
Lemma control_write_command_shape env h address service_short char_short
    payload verbose :
  exists o rest,
    snd (Control.write_command address service_short char_short payload
           verbose env h) = EvConnect address o :: rest
    /\ forallb (after_connect payload) rest = true.
Proof.
  unfold Control.write_command, try_finally.
  destruct (ble_connect env h address) as [e |] eqn:Hc.
  - assert (Hb : Control.write_body address service_short char_short payload
                   verbose env h = (Raise e, [EvConnect address (Some e)])).
    { unfold Control.write_body. unfold bind at 1. unfold connect at 1.
      rewrite Hc. reflexivity. }
    rewrite Hb, control_cleanup_spec. cbn [fst snd app].
    eexists; eexists; split; [reflexivity |].
    apply (cleanup_events_after_connect payload env
             (h ++ [EvConnect address (Some e)])).
  - destruct (ble_is_connected env (h ++ [EvConnect address None])) eqn:Hi.
    + destruct (control_write_body_connected env h address service_short
                  char_short payload verbose Hc Hi)
        as (tpre & h' & Hlog & Hbody).
      cbv zeta in Hbody. rewrite Hbody, control_cleanup_spec.
      pose proof (write_cascade_after_connect env h' char_short payload
                    verbose) as Hcas.
      destruct (Control.write_cascade char_short payload verbose env h')
        as [rc tc].
      cbn [fst snd] in *.
      assert (Hpre : forallb (after_connect payload) tpre = true).
      { apply (forallb_implies is_log); [| exact Hlog].
        intros x Hx. destruct x; try discriminate Hx; reflexivity. }
      match goal with
      | |- context [if ?b then ?x else ?y] =>
          change (if b then x else y) with
            (cleanup_events env
               (h ++ [EvConnect address None; EvIsConnected true;
                      EvSleep (3 # 10)]
                  ++ tpre ++ tc
                  ++ match rc with
                     | Ok (true, _) => [EvSleep (2 # 10)]
                     | _ => []
                     end))
      end.
      destruct rc as [[[|] le] | e];
        cbn [fst snd app]; (eexists; eexists; split; [reflexivity |]);
        cbn [forallb after_connect andb];
        rewrite !forallb_app, Hpre, Hcas, cleanup_events_after_connect;
        reflexivity.
    + assert (Hb : Control.write_body address service_short char_short
                     payload verbose env h
                   = (Raise (RuntimeError "Failed to connect to device"),
                      [EvConnect address None; EvIsConnected false])).
      { unfold Control.write_body. unfold bind at 1. unfold connect at 1.
        rewrite Hc. cbn [of_outcome].
        unfold bind at 1. unfold is_connected at 1. rewrite Hi.
        reflexivity. }
      rewrite Hb, control_cleanup_spec. cbn [fst snd app].
      eexists; eexists; split; [reflexivity |].
      cbn [forallb after_connect andb].
      apply (cleanup_events_after_connect payload env
               (h ++ [EvConnect address None; EvIsConnected false])).
Qed.

Lemma connects_of_app (t1 t2 : list Session.sevent) :
  connects_of (t1 ++ t2) = (connects_of t1 ++ connects_of t2)%list.
Proof.
  induction t1 as [| [[] | n] t1 IH]; cbn [app connects_of]; rewrite ?IH;
    reflexivity.
Qed.

Lemma scans_of_app (t1 t2 : list Session.sevent) :
  scans_of (t1 ++ t2) = (scans_of t1 ++ scans_of t2)%list.
Proof.
  induction t1 as [| [[] | n] t1 IH]; cbn [app scans_of]; rewrite ?IH;
    reflexivity.
Qed.

Lemma notes_of_app (t1 t2 : list Session.sevent) :
  notes_of (t1 ++ t2) = (notes_of t1 ++ notes_of t2)%list.
Proof.
  induction t1 as [| [e | n] t1 IH]; cbn [app notes_of]; rewrite ?IH;
    reflexivity.
Qed.

Lemma session_writes_app (t1 t2 : list Session.sevent) :
  session_writes (t1 ++ t2) = (session_writes t1 ++ session_writes t2)%list.
Proof.
  induction t1 as [| [[] | n] t1 IH]; cbn [app session_writes]; rewrite ?IH;
    reflexivity.
Qed.

Lemma notes_of_ble (t : trace) : notes_of (map Session.Ble t) = [].
Proof. induction t as [| e t IH]; [reflexivity | exact IH]. Qed.

(** Events after the connect, seen from the session. *)
Lemma after_connect_session payload (t : trace) :
  forallb (after_connect payload) t = true ->
  connects_of (map Session.Ble t) = []
  /\ scans_of (map Session.Ble t) = []
  /\ forallb (carries payload) (map Session.Ble t) = true.
Proof.
  induction t as [| e t IH]; [repeat split |].
  cbn [forallb map]. intros H. apply andb_prop in H. destruct H as [He Ht].
  destruct (IH Ht) as (Hc & Hs & Hp).
  destruct e; cbn [after_connect] in He; try discriminate He;
    cbn [connects_of scans_of forallb carries andb]; rewrite ?Hp, ?He;
    repeat split; first [assumption | reflexivity].
Qed.

(** The loop of [--all-ks03]: it never raises, and for every target, in
    order, it connects once and prints one line. *)
Lemma send_to_all_spec payload action verbose env :
  forall targets h,
  exists t,
    Session.send_to_all targets payload action verbose env h = (Ok tt, t)
    /\ connects_of t = map fst targets
    /\ scans_of t = []
    /\ Forall2 (told_about action) (notes_of t) targets
    /\ forallb (carries payload) t = true.
Proof.
  induction targets as [| [addr name] rest IH]; intros h.
  - exists []. cbn. repeat split; constructor.
  - cbn [Session.send_to_all].
    set (prefix := if PyStr.startswith name "KS03~" then "KS03~" else "KS03-").
    assert (Hm : exists mapping,
               Session.uuids_get Control.DEVICE_UUIDS prefix = Some mapping).
    { subst prefix. destruct (PyStr.startswith name "KS03~");
        eexists; reflexivity. }
    destruct Hm as [mapping Hm]. rewrite Hm.
    destruct (control_write_command_shape env (Session.ble_view h) addr
                (Control.service mapping) (Control.write mapping) payload
                verbose) as (o & tl & Ht & Hq).
    destruct (after_connect_session payload tl Hq) as (Hc & Hs & Hp).
    cbv [Session.bind Session.try_except Session.call Session.say].
    destruct (Control.write_command addr (Control.service mapping)
                (Control.write mapping) payload verbose env
                (Session.ble_view h)) as [r t].
    cbn [snd] in Ht. subst t.
    destruct r as [[] | e];
      match goal with
      | |- context [Session.send_to_all rest payload action verbose env ?hh] =>
          destruct (IH hh) as (t2 & E2 & Hc2 & Hs2 & Hn2 & Hp2); rewrite E2
      end;
      (eexists; split; [reflexivity |]);
      cbn [map fst];
      rewrite ?connects_of_app, ?scans_of_app, ?notes_of_app, ?forallb_app;
      cbn [map connects_of scans_of notes_of forallb carries app];
      rewrite ?connects_of_app, ?scans_of_app, ?notes_of_app, ?forallb_app;
      cbn [map connects_of scans_of notes_of forallb carries app];
      rewrite ?notes_of_ble, ?Hc, ?Hs, ?Hp, ?Hc2, ?Hs2, ?Hp2;
      cbn [app andb]; (repeat split; try reflexivity);
      (constructor; [| exact Hn2]).
    + left. reflexivity.
    + right. exists e. reflexivity.
Qed.

Lemma uuids_get_in (table : list (string * Control.uuids)) (prefix : string) :
  In prefix (map fst table) <-> Session.uuids_get table prefix <> None.
Proof.
  induction table as [| [k m] rest IH]; cbn [map fst In Session.uuids_get].
  - split; [intros [] | intros H; apply H; reflexivity].
  - destruct (String.eqb_spec k prefix) as [-> | Hk].
    + split; [discriminate | intros _; left; reflexivity].
    + rewrite <- IH. split; [intros [H | H]; [contradiction | exact H] |].
      intros H. right. exact H.
Qed.

Lemma main_payload (action : string) :
  Control.build_on_off_cmd (String.eqb action "on") = Ok (payload_of action).
Proof.
  unfold payload_of. destruct (String.eqb action "on"); reflexivity.
Qed.

(** [main] with [--all-ks03], after the scan came back. *)
Lemma main_all_ks03_run (a : Session.args) (env : ble) (devices : list device)
    m :
  Session.all_ks03 a = true ->
  Session.uuids_get Control.DEVICE_UUIDS (Session.model_prefix a) = Some m ->
  ble_discover env [] (Session.timeout a) = Ok devices ->
  Session.run (Session.main a) env
  = match Control.ks03_results devices [] with
    | [] =>
        (Ok (Session.SystemExit Session.NoKS03DevicesFound),
         [Session.Ble (EvDiscover (Session.timeout a) (Ok devices))])
    | targets =>
        (match fst (Session.send_to_all targets (payload_of (Session.action a))
                     (Session.action a) (Session.verbose a) env
                     [Session.Ble (EvDiscover (Session.timeout a)
                                     (Ok devices))])
        with
        | Ok _ => Ok Session.Returned
        | Raise e => Raise e
        end,
        Session.Ble (EvDiscover (Session.timeout a) (Ok devices))
          :: snd (Session.send_to_all targets (payload_of (Session.action a))
                    (Session.action a) (Session.verbose a) env
                    [Session.Ble (EvDiscover (Session.timeout a)
                                    (Ok devices))]))
    end.
Proof.
  intros Hall Hm Hd.
  unfold Session.run, Session.main. rewrite Hm, Hall, main_payload.
  cbv [Session.bind Session.call Session.ret lift Control.find_all_ks03 bind
       discover ret Session.ble_view map fst snd].
  cbn [app]. rewrite Hd.
  destruct (Control.ks03_results devices []) as [| target rest];
    [reflexivity |].
  destruct (Session.send_to_all (target :: rest) _ _ _ env _) as [[[] | e] t];
    cbn [app]; rewrite ?app_nil_r; reflexivity.
Qed.

(** With [--all-ks03], and at least one KS03 lamp in the scan, [main]
    returns normally whatever happens on the radio: a target that cannot
    be reached costs one "Failed to send" line and the loop goes on.  The
    run scans once, then connects once to every lamp the scan returned, in
    scan order, prints one line per lamp, and writes nothing but the
    on/off command.  The model prefix is only checked against the table;
    it does not select the targets. *)
Theorem main_all_ks03_visits_every_target (a : Session.args) (env : ble)
    (devices : list device) :
  Session.all_ks03 a = true ->
  In (Session.model_prefix a) (map fst Control.DEVICE_UUIDS) ->
  ble_discover env [] (Session.timeout a) = Ok devices ->
  Control.ks03_results devices [] <> [] ->
  exists t,
    Session.run (Session.main a) env = (Ok Session.Returned, t)
    /\ scans_of t = [Session.timeout a]
    /\ connects_of t = map fst (Control.ks03_results devices [])
    /\ Forall2 (told_about (Session.action a)) (notes_of t)
         (Control.ks03_results devices [])
    /\ forallb (carries (payload_of (Session.action a))) t = true.
Proof.
  intros Hall Hin Hd Hne.
  apply uuids_get_in in Hin.
  destruct (Session.uuids_get Control.DEVICE_UUIDS (Session.model_prefix a))
    as [m |] eqn:Hm; [| contradiction].
  rewrite (main_all_ks03_run a env devices m Hall Hm Hd).
  remember (Control.ks03_results devices []) as targets eqn:Ht.
  destruct (send_to_all_spec (payload_of (Session.action a))
              (Session.action a) (Session.verbose a) env
              targets
              [Session.Ble (EvDiscover (Session.timeout a) (Ok devices))])
    as (t & E & Hc & Hs & Hn & Hp).
  destruct targets as [| target rest]; [contradiction |].
  cbv beta iota zeta. rewrite E. cbn [fst snd]. eexists. split; [reflexivity |].
  cbn [scans_of connects_of notes_of forallb carries andb].
  rewrite Hs, Hc, Hp. repeat split. exact Hn.
Qed.

Lemma main_all_ks03_visits_every_target_witness :
  exists t,
    Session.run (Session.main (Session.mk_args "on" "KS04-" "" true 8 false))
      stack_four_devices_failing = (Ok Session.Returned, t)
    /\ scans_of t = [8%Q]
    /\ connects_of t = ["11:22:33:44:55:66"; "BE:60:4D:00:58:37"]
    /\ Forall2 (told_about "on") (notes_of t)
         [("11:22:33:44:55:66", "KS03-112233");
          ("BE:60:4D:00:58:37", "KS03~370058")]
    /\ forallb (carries on_bytes) t = true.
Proof.
  apply (main_all_ks03_visits_every_target
           (Session.mk_args "on" "KS04-" "" true 8 false)
           stack_four_devices_failing four_devices).
  - reflexivity.
  - right. left. reflexivity.
  - reflexivity.
  - discriminate.
Defined.

(** The single-target run of [main], once the target is known. *)
Lemma main_single_target_run (a : Session.args) (env : ble) m addr
    (pre : trace) :
  Session.all_ks03 a = false ->
  Session.uuids_get Control.DEVICE_UUIDS (Session.model_prefix a) = Some m ->
  addr <> "" ->
  (if String.eqb (Session.address a) "" then
     Control.find_device_by_prefix (Session.model_prefix a) (Session.timeout a)
       env [] = (Ok (Some addr), pre)
   else addr = Session.address a /\ pre = []) ->
  Session.run (Session.main a) env
  = match Control.write_command addr (Control.service m) (Control.write m)
            (payload_of (Session.action a)) (Session.verbose a) env pre
    with
    | (Ok _, t) =>
        (Ok Session.Returned,
         (map Session.Ble (pre ++ t)
            ++ [Session.Note
                  (Session.SentTo (PyStr.upper (Session.action a)) addr
                     (Session.model_prefix a))])%list)
    | (Raise e, t) => (Raise e, map Session.Ble (pre ++ t))
    end.
Proof.
  intros Hall Hm Hne Hfound.
  apply String.eqb_neq in Hne.
  assert (Hview : forall t : trace,
             Session.ble_view (map Session.Ble t) = t).
  { induction t as [| e t IH]; [reflexivity |]. cbn. rewrite IH.
    reflexivity. }
  unfold Session.run, Session.main. rewrite Hm, Hall, main_payload.
  unfold Session.bind at 1. unfold Session.call at 1. unfold lift.
  cbn [app map].
  unfold Session.bind at 1.
  destruct (String.eqb (Session.address a) "") eqn:Ha.
  - unfold Session.call at 1. cbn [Session.ble_view]. rewrite Hfound.
    rewrite Hne. cbn [app].
    cbv [Session.bind Session.call Session.say Session.ret].
    rewrite Hview.
    destruct (Control.write_command addr _ _ _ _ env pre) as [[[] | e] t];
      cbn [app]; rewrite ?app_nil_r, ?map_app, <- ?app_assoc; reflexivity.
  - destruct Hfound as [-> ->]. unfold Session.ret at 1. rewrite Ha.
    cbn [app].
    cbv [Session.bind Session.call Session.say Session.ret Session.ble_view].
    destruct (Control.write_command (Session.address a) _ _ _ _ env [])
      as [[[] | e] t];
      cbn [app]; rewrite ?app_nil_r; reflexivity.
Qed.

(** Without [--all-ks03], [main] talks to one lamp: the address given on
    the command line, whatever the model prefix says, and only when that
    address is empty the first lamp of a scan whose name starts with the
    prefix.  A given address means no scan.  The run connects once, writes
    nothing but the on/off command, and, unlike the loop of [--all-ks03],
    lets a failure of the write engine through: the "Sent" line is printed
    exactly when the engine returned. *)
Theorem main_single_target (a : Session.args) (env : ble) m addr :
  Session.all_ks03 a = false ->
  Session.uuids_get Control.DEVICE_UUIDS (Session.model_prefix a) = Some m ->
  addr <> "" ->
  Session.address a = addr
  \/ (Session.address a = ""
      /\ exists devices,
          ble_discover env [] (Session.timeout a) = Ok devices
          /\ Control.first_address devices (Session.model_prefix a)
             = Some addr) ->
  let pre :=
    if String.eqb (Session.address a) ""
    then [EvDiscover (Session.timeout a)
            (ble_discover env [] (Session.timeout a))]
    else [] in
  let t := snd (Session.run (Session.main a) env) in
  connects_of t = [addr]
  /\ scans_of t
     = (if String.eqb (Session.address a) "" then [Session.timeout a] else [])
  /\ forallb (carries (payload_of (Session.action a))) t = true
  /\ match fst (Control.write_command addr (Control.service m)
                  (Control.write m) (payload_of (Session.action a))
                  (Session.verbose a) env pre)
     with
     | Ok _ =>
         fst (Session.run (Session.main a) env) = Ok Session.Returned
         /\ notes_of t
            = [Session.SentTo (PyStr.upper (Session.action a)) addr
                 (Session.model_prefix a)]
     | Raise e =>
         fst (Session.run (Session.main a) env) = Raise e
         /\ notes_of t = []
     end.
Proof.
  intros Hall Hm Hne Hsrc pre t.
  assert (Hrun : if String.eqb (Session.address a) "" then
                   Control.find_device_by_prefix (Session.model_prefix a)
                     (Session.timeout a) env [] = (Ok (Some addr), pre)
                 else addr = Session.address a /\ pre = []).
  { subst pre. destruct Hsrc as [Ha | (Ha & devices & Hd & Hf)].
    - subst addr. apply String.eqb_neq in Hne. rewrite Hne. auto.
    - rewrite Ha. cbn [String.eqb].
      unfold Control.find_device_by_prefix, bind, discover, ret.
      rewrite Hd, Hf. reflexivity. }
  pose proof (main_single_target_run a env m addr pre Hall Hm Hne Hrun) as E.
  destruct (control_write_command_shape env pre addr (Control.service m)
              (Control.write m) (payload_of (Session.action a))
              (Session.verbose a)) as (o & tl & Ht & Hq).
  destruct (after_connect_session _ tl Hq) as (Hc & Hs & Hp).
  assert (Hpre : connects_of (map Session.Ble pre) = []
                 /\ scans_of (map Session.Ble pre)
                    = (if String.eqb (Session.address a) ""
                       then [Session.timeout a] else [])
                 /\ forallb (carries (payload_of (Session.action a)))
                      (map Session.Ble pre) = true).
  { subst pre. destruct (String.eqb (Session.address a) "");
      repeat split. }
  destruct Hpre as (Hc0 & Hs0 & Hp0).
  subst t. rewrite E.
  destruct (Control.write_command addr (Control.service m) (Control.write m)
              (payload_of (Session.action a)) (Session.verbose a) env pre)
    as [r tw].
  cbn [snd] in Ht. subst tw.
  destruct r as [[] | e]; cbn [fst snd];
    rewrite ?map_app, ?connects_of_app, ?scans_of_app, ?notes_of_app,
      ?forallb_app;
    cbn [map connects_of scans_of notes_of forallb carries];
    rewrite ?notes_of_ble, Hc0, Hs0, Hp0, Hc, Hs, Hp;
    cbn [app andb]; rewrite ?app_nil_r; repeat split.
Qed.

Lemma main_single_target_witness :
  connects_of (snd (Session.run (Session.main (Session.default_args "off"))
                      stack_all_good)) = ["BE:60:4D:00:58:37"]
  /\ scans_of (snd (Session.run (Session.main (Session.default_args "off"))
                      stack_all_good)) = []
  /\ forallb (carries [91; 15; 1; 181])
       (snd (Session.run (Session.main (Session.default_args "off"))
               stack_all_good)) = true
  /\ fst (Session.run (Session.main (Session.default_args "off"))
            stack_all_good) = Ok Session.Returned
  /\ notes_of (snd (Session.run (Session.main (Session.default_args "off"))
                      stack_all_good))
     = [Session.SentTo "OFF" "BE:60:4D:00:58:37" "KS03~"].
Proof.
  exact (main_single_target (Session.default_args "off") stack_all_good
           (Control.mk_uuids "AFD0" "AFD1") "BE:60:4D:00:58:37"
           eq_refl eq_refl ltac:(discriminate) (or_introl eq_refl)).
Defined.

(** Whenever [main] ends in [SystemExit], nothing was connected to,
    written or reported as sent.  An unknown model prefix ends the run
    before anything happens at all, also with [--all-ks03], where the
    prefix is not used for anything else; the two other exits come after
    exactly one scan: [--all-ks03] without a KS03 lamp, and an empty
    address without a lamp for the prefix. *)
Theorem main_exits_before_connecting (a : Session.args) (env : ble)
    (why : Session.exit_reason) :
  fst (Session.run (Session.main a) env) = Ok (Session.SystemExit why) ->
  let t := snd (Session.run (Session.main a) env) in
  connects_of t = [] /\ session_writes t = [] /\ notes_of t = []
  /\ match why with
     | Session.UnknownModelPrefix =>
         ~ In (Session.model_prefix a) (map fst Control.DEVICE_UUIDS)
         /\ t = []
     | Session.NoKS03DevicesFound =>
         Session.all_ks03 a = true /\ scans_of t = [Session.timeout a]
     | Session.NoDeviceFound prefix =>
         prefix = Session.model_prefix a
         /\ Session.all_ks03 a = false
         /\ Session.address a = ""
         /\ scans_of t = [Session.timeout a]
     end.
Proof.
  intros H t. subst t.
  destruct (Session.run (Session.main a) env) as [r t] eqn:E.
  cbn [fst snd] in *. subst r.
  unfold Session.run, Session.main in E.
  destruct (Session.uuids_get Control.DEVICE_UUIDS (Session.model_prefix a))
    as [m |] eqn:Hm.
  - rewrite main_payload in E.
    destruct (Session.all_ks03 a) eqn:Hall.
    + cbv [Session.bind Session.call Session.ret lift Control.find_all_ks03
           bind discover ret Session.ble_view map app] in E.
      destruct (ble_discover env [] (Session.timeout a)) as [devices | e];
        [| discriminate E].
      destruct (Control.ks03_results devices []) as [| target rest].
      * inversion E; subst. repeat split.
      * exfalso.
        match type of E with
        | context [Session.send_to_all ?tg ?p ?ac ?v env ?hh] =>
            destruct (send_to_all_spec p ac v env tg hh) as (t2 & E2 & _);
            rewrite E2 in E
        end.
        discriminate E.
    + destruct (String.eqb_spec (Session.address a) "") as [Ha | Ha].
      * cbv [Session.bind Session.call Session.ret Session.say lift
             Control.find_device_by_prefix bind discover ret
             Session.ble_view map app] in E.
        destruct (ble_discover env [] (Session.timeout a)) as [devices | e];
          [| discriminate E].
        destruct (Control.first_address devices (Session.model_prefix a))
          as [addr |].
        -- destruct (String.eqb addr "").
           ++ inversion E; subst. repeat split. exact Ha.
           ++ exfalso.
              destruct (Control.write_command _ _ _ _ _ env _)
                as [[[] | e] tw]; discriminate E.
        -- inversion E; subst. repeat split. exact Ha.
      * exfalso. apply String.eqb_neq in Ha.
        cbv [Session.bind Session.call Session.ret Session.say lift
             Session.ble_view map app] in E.
        rewrite Ha in E.
        destruct (Control.write_command _ _ _ _ _ env _)
          as [[[] | e] tw]; discriminate E.
  - unfold Session.ret in E. inversion E; subst. repeat split.
    intros Hin. apply uuids_get_in in Hin. contradiction.
Qed.

Lemma main_exits_before_connecting_witness :
  connects_of
    (snd (Session.run
            (Session.main (Session.mk_args "on" "KS04-" "" false 8 false))
            stack_four_devices)) = []
  /\ session_writes
       (snd (Session.run
               (Session.main (Session.mk_args "on" "KS04-" "" false 8 false))
               stack_four_devices)) = []
  /\ notes_of
       (snd (Session.run
               (Session.main (Session.mk_args "on" "KS04-" "" false 8 false))
               stack_four_devices)) = []
  /\ "KS04-" = "KS04-" /\ false = false /\ "" = ""
  /\ scans_of
       (snd (Session.run
               (Session.main (Session.mk_args "on" "KS04-" "" false 8 false))
               stack_four_devices)) = [8%Q].
Proof.
  exact (main_exits_before_connecting
           (Session.mk_args "on" "KS04-" "" false 8 false)
           stack_four_devices (Session.NoDeviceFound "KS04-") eq_refl).
Defined.

(** ** The preset menu of [led_menu.py] *)

Lemma build_color_cmd_negative (r g b : Z) (device_type : string)
    (brightness : Z) :
  r < 0 \/ g < 0 \/ b < 0 ->
  build_color_cmd r g b device_type brightness = Raise PyStr.fromhex_error.
Proof.
  intros H. unfold build_color_cmd. apply fromhex_minus.
  destruct (String.eqb device_type "floor");
    rewrite !mem_char_app;
    destruct H as [H | [H | H]]; rewrite (format_02X_negative _ H);
    repeat first [rewrite orb_true_r | rewrite orb_true_l]; reflexivity.
Qed.

(** The encoder raises nothing but [ValueError]. *)
Lemma build_color_cmd_value_error (r g b : Z) (device_type : string)
    (brightness : Z) e :
  build_color_cmd r g b device_type brightness = Raise e ->
  is_value_error e = true.
Proof.
  unfold build_color_cmd, PyStr.fromhex.
  destruct (PyStr.fromhex_opt _); [discriminate |].
  intros H. inversion H. reflexivity.
Qed.

Lemma ble_view_app (h1 h2 : list Session.sevent) :
  Session.ble_view (h1 ++ h2)
  = (Session.ble_view h1 ++ Session.ble_view h2)%list.
Proof.
  induction h1 as [| [e | n] h1 IH]; cbn [app Session.ble_view];
    rewrite ?IH; reflexivity.
Qed.

(** One pass of the preset menu, case by case. *)
Lemma color_preset_pass_run addr name prefix m p c env h :
  Menu.getitem Menu.DEVICE_MAPPINGS prefix = Ok m ->
  Session.color_preset_pass (addr, name, prefix) (Menu.get_type m) p c env h
  = if String.eqb (Session.pc_choice c) "0" then
      (Ok false, [Session.Note (Session.PresetsShown p)])
    else
      (Ok true,
       Session.Note (Session.PresetsShown p)
         :: match Session.pc_number c with
            | None =>
                [Session.Note Session.PleaseEnterNumber;
                 Session.Ble (EvSleep 1)]
            | Some v =>
                if (0 <=? v - 1) && (v - 1 <? Z.of_nat (List.length p)) then
                  match nth_error p (Z.to_nat (v - 1)) with
                  | Some (preset_name, rgb) =>
                      match build_color_cmd (Store.rgb_r rgb)
                              (Store.rgb_g rgb) (Store.rgb_b rgb)
                              (Menu.get_type m) 255
                      with
                      | Ok cmd =>
                          map Session.Ble
                            (snd (Menu.send_command (addr, name, prefix) cmd
                                    (preset_name ++ " color") true env
                                    (Session.ble_view h)))
                      | Raise _ =>
                          [Session.Note Session.PleaseEnterNumber;
                           Session.Ble (EvSleep 1)]
                      end
                  | None => []
                  end
                else
                  [Session.Note Session.InvalidPresetNumber;
                   Session.Ble (EvSleep 1)]
            end).
Proof.
  intros Hm. unfold Session.color_preset_pass.
  unfold Session.bind at 1. unfold Session.say at 1.
  destruct (String.eqb (Session.pc_choice c) "0") eqn:Hc0.
  - reflexivity.
  - unfold Session.bind at 1. unfold Session.try_except_value_error.
    unfold Session.bind at 1.
    destruct (Session.pc_number c) as [v |]; [| reflexivity].
    unfold Session.ret at 1. cbn [app].
    destruct ((0 <=? v - 1) && (v - 1 <? Z.of_nat (List.length p)));
      [| reflexivity].
    destruct (nth_error p (Z.to_nat (v - 1))) as [[preset_name rgb] |];
      [| reflexivity].
    unfold Session.bind at 1. unfold Session.call at 1. unfold lift.
    destruct (build_color_cmd (Store.rgb_r rgb) (Store.rgb_g rgb)
                (Store.rgb_b rgb) (Menu.get_type m) 255) as [cmd | e] eqn:Hb.
    + unfold Session.call. rewrite !ble_view_app. cbn [Session.ble_view map].
      rewrite !app_nil_r.
      destruct (send_command_color_events addr name prefix m cmd
                  (preset_name ++ " color") env (Session.ble_view h) Hm)
        as (t & E & _).
      rewrite E. cbn [snd app]. unfold Session.ret.
      rewrite !app_nil_r. reflexivity.
    + cbn [map]. rewrite (build_color_cmd_value_error _ _ _ _ _ _ Hb).
      reflexivity.
Qed.





(** What the preset menu turns down, each time without touching the
    radio.  "0" ends the loop.  Text that is no number gets "Please enter
    a number"; a number outside 1..n gets "Invalid preset number".  A
    valid number whose preset holds a negative value also gets "Please
    enter a number": the encoder's [ValueError] is caught by the handler
    meant for the typed text.  In each of the three cases the menu waits
    a second and asks again. *)
Theorem color_preset_pass_rejections addr name prefix m p c env h :
  Menu.getitem Menu.DEVICE_MAPPINGS prefix = Ok m ->
  let pass :=
    Session.color_preset_pass (addr, name, prefix) (Menu.get_type m) p c
      env h in
  (Session.pc_choice c = "0" ->
   pass = (Ok false, [Session.Note (Session.PresetsShown p)]))
  /\ (Session.pc_choice c <> "0" ->
      (Session.pc_number c = None ->
       pass = (Ok true, turned_down p Session.PleaseEnterNumber))
      /\ (forall v,
             Session.pc_number c = Some v ->
             v < 1 \/ Z.of_nat (List.length p) < v ->
             pass = (Ok true, turned_down p Session.InvalidPresetNumber))
      /\ (forall v preset_name rgb,
             Session.pc_number c = Some v ->
             1 <= v ->
             nth_error p (Z.to_nat (v - 1)) = Some (preset_name, rgb) ->
             Store.rgb_r rgb < 0 \/ Store.rgb_g rgb < 0
             \/ Store.rgb_b rgb < 0 ->
             pass = (Ok true, turned_down p Session.PleaseEnterNumber))).
Proof.
  intros Hm pass. subst pass.
  rewrite (color_preset_pass_run addr name prefix m p c env h Hm).
  split.
  - intros ->. reflexivity.
  - intros Hc. apply String.eqb_neq in Hc. rewrite Hc.
    split; [| split].
    + intros ->. reflexivity.
    + intros v -> Hv.
      assert (Hb : (0 <=? v - 1) && (v - 1 <? Z.of_nat (List.length p))
                   = false).
      { apply andb_false_iff. destruct Hv as [Hv | Hv];
          [left; apply Z.leb_gt; lia | right; apply Z.ltb_ge; lia]. }
      rewrite Hb. reflexivity.
    + intros v preset_name rgb -> Hv Hn Hneg.
      assert (Hlen : (Z.to_nat (v - 1) < List.length p)%nat).
      { apply nth_error_Some. rewrite Hn. discriminate. }
      assert (Hb : (0 <=? v - 1) && (v - 1 <? Z.of_nat (List.length p))
                   = true).
      { apply andb_true_iff. split; [apply Z.leb_le | apply Z.ltb_lt]; lia. }
      rewrite Hb, Hn, (build_color_cmd_negative _ _ _ _ _ Hneg).
      reflexivity.
Qed.

Lemma color_preset_pass_rejections_witness :
  Session.color_preset_pass ("BE:60:4D:00:58:37", "KS03~370058", "KS03~")
    "floor" [("Broken", Store.mk_rgb (-1) 0 0)]
    (Session.mk_preset_choice "1" (Some 1)) stack_all_good []
  = (Ok true,
     turned_down [("Broken", Store.mk_rgb (-1) 0 0)]
       Session.PleaseEnterNumber).
Proof.
  apply (proj2 (proj2 (proj2 (color_preset_pass_rejections
           "BE:60:4D:00:58:37" "KS03~370058" "KS03~"
           (Menu.mk_mapping "AFD0" "AFD1" (Some "floor"))
           [("Broken", Store.mk_rgb (-1) 0 0)]
           (Session.mk_preset_choice "1" (Some 1)) stack_all_good []
           eq_refl) ltac:(discriminate)))
           1 "Broken" (Store.mk_rgb (-1) 0 0) eq_refl ltac:(lia) eq_refl).
  left. reflexivity.
Defined.

(** A valid choice sends that preset: for a number in 1..n whose preset
    has its three values in 0..255, the pass is the header followed by
    one run of [send_command] on the colour path, named after the preset,
    with the command bytes of that preset at full brightness in the
    layout of the device type; then the menu asks again. *)
Theorem color_preset_pass_sends_selected addr name prefix m p c v preset_name
    rgb env h :
  Menu.getitem Menu.DEVICE_MAPPINGS prefix = Ok m ->
  Session.pc_choice c <> "0" ->
  Session.pc_number c = Some v ->
  1 <= v ->
  nth_error p (Z.to_nat (v - 1)) = Some (preset_name, rgb) ->
  0 <= Store.rgb_r rgb <= 255 ->
  0 <= Store.rgb_g rgb <= 255 ->
  0 <= Store.rgb_b rgb <= 255 ->
  Session.color_preset_pass (addr, name, prefix) (Menu.get_type m) p c env h
  = (Ok true,
     Session.Note (Session.PresetsShown p)
       :: map Session.Ble
            (snd (Menu.send_command (addr, name, prefix)
                    (preset_bytes (Menu.get_type m) rgb)
                    (preset_name ++ " color") true env
                    (Session.ble_view h)))).
Proof.
  intros Hm Hc Hnum Hv Hn Hr Hg Hb.
  rewrite (color_preset_pass_run addr name prefix m p c env h Hm).
  apply String.eqb_neq in Hc. rewrite Hc, Hnum.
  assert (Hlen : (Z.to_nat (v - 1) < List.length p)%nat).
  { apply nth_error_Some. rewrite Hn. discriminate. }
  assert (Hin : (0 <=? v - 1) && (v - 1 <? Z.of_nat (List.length p)) = true).
  { apply andb_true_iff. split; [apply Z.leb_le | apply Z.ltb_lt]; lia. }
  rewrite Hin, Hn.
  assert (Hcmd : build_color_cmd (Store.rgb_r rgb) (Store.rgb_g rgb)
                   (Store.rgb_b rgb) (Menu.get_type m) 255
                 = Ok (preset_bytes (Menu.get_type m) rgb)).
  { unfold preset_bytes.
    destruct (String.eqb_spec (Menu.get_type m) "floor") as [-> | Hdt].
    - apply build_color_cmd_floor_bytes; lia.
    - apply build_color_cmd_ceiling_bytes; assumption. }
  rewrite Hcmd. reflexivity.
Qed.

Lemma color_preset_pass_sends_selected_witness :
  Session.color_preset_pass ("BE:60:4D:00:58:37", "KS03~370058", "KS03~")
    "floor" Store.DEFAULT_PRESETS (Session.mk_preset_choice "10" (Some 10))
    stack_all_good []
  = (Ok true,
     Session.Note (Session.PresetsShown Store.DEFAULT_PRESETS)
       :: map Session.Ble
            (snd (Menu.send_command
                    ("BE:60:4D:00:58:37", "KS03~370058", "KS03~")
                    [90; 0; 1; 255; 165; 0; 0; 255; 0; 165]
                    "Orange color" true stack_all_good []))).
Proof.
  apply (color_preset_pass_sends_selected "BE:60:4D:00:58:37" "KS03~370058"
           "KS03~" (Menu.mk_mapping "AFD0" "AFD1" (Some "floor"))
           Store.DEFAULT_PRESETS (Session.mk_preset_choice "10" (Some 10)) 10
           "Orange" (Store.mk_rgb 255 165 0));
    first [reflexivity | discriminate | cbn; lia].
Defined.

(** ** The device selection of [led_menu.main] *)

Lemma last_scan_from_app latest (t1 t2 : list Session.sevent) :
  last_scan_from latest (t1 ++ t2)
  = last_scan_from (last_scan_from latest t1) t2.
Proof.
  revert latest.
  induction t1 as [| [[] | n] t1 IH]; intros latest;
    cbn [app last_scan_from]; rewrite ?IH; reflexivity.
Qed.

(** The loop keeps a non-empty list that is the answer of the latest
    scan, and an index into it. *)
Lemma select_loop_invariant nicks env :
  forall inputs devices selected_idx h found devices' idx' t,
    devices = Menu.scan_loop found [] ->
    0 <= selected_idx < Z.of_nat (List.length devices) ->
    Session.select_loop devices selected_idx nicks inputs env h
    = (Ok (Session.Selected devices' idx'), t) ->
    exists found',
      last_scan_from (Some (Ok found)) t = Some (Ok found')
      /\ devices' = Menu.scan_loop found' []
      /\ 0 <= idx' < Z.of_nat (List.length devices').
Proof.
  induction inputs as [| c rest IH];
    intros devices selected_idx h found devices' idx' t Hdev Hidx E.
  - discriminate E.
  - cbn [Session.select_loop] in E.
    unfold Session.bind at 1 in E. unfold Session.say at 1 in E.
    destruct (String.eqb (Session.dc_text c) "q"); [discriminate E |].
    destruct (String.eqb (Session.dc_text c) "r").
    + unfold Session.bind at 1 in E. unfold Session.say at 1 in E.
      unfold Session.bind at 1 in E. unfold Session.call at 1 in E.
      unfold Menu.scan_devices, bind, discover, ret in E.
      destruct (ble_discover env _ 8) as [found1 | e]; [| discriminate E].
      cbn [map app] in E.
      destruct (Menu.scan_loop found1 []) as [| d1 ds1] eqn:Hs1.
      * cbv [Session.bind Session.say Session.call Session.ret sleep] in E.
        discriminate E.
      * match type of E with
        | context [Session.select_loop ?ds ?i nicks rest env ?hh] =>
            destruct (Session.select_loop ds i nicks rest env hh)
              as [r2 t2] eqn:E2
        end.
        inversion E; subst r2 t.
        destruct (IH (d1 :: ds1) 0 _ found1 devices' idx' t2
                    (eq_sym Hs1) ltac:(cbn [List.length]; lia) E2)
          as (found' & Hl & Hd' & Hi').
        exists found'. cbn [app map last_scan_from].
        split; [exact Hl |]. split; [exact Hd' | exact Hi'].
    + destruct (String.eqb (Session.dc_text c) "").
      * unfold Session.ret in E. inversion E; subst.
        exists found. split; [reflexivity |]. split; [reflexivity | exact Hidx].
      * destruct (Session.dc_isdigit c).
        -- unfold Session.bind at 1 in E.
           destruct (Session.dc_number c) as [v |]; [| discriminate E].
           unfold Session.ret at 1 in E.
           destruct ((0 <=? v - 1)
                     && (v - 1 <? Z.of_nat (List.length devices))) eqn:Hb.
           ++ unfold Session.ret in E. inversion E; subst.
              apply andb_prop in Hb. destruct Hb as [H0 H1].
              apply Z.leb_le in H0. apply Z.ltb_lt in H1.
              exists found. split; [reflexivity |]. split; [reflexivity | lia].
           ++ match type of E with
              | context [Session.select_loop ?ds ?i nicks rest env ?hh] =>
                  destruct (Session.select_loop ds i nicks rest env hh)
                    as [r2 t2] eqn:E2
              end.
              inversion E; subst r2 t.
              destruct (IH devices selected_idx _ found devices' idx' t2
                          Hdev Hidx E2) as (found' & Hl & Hd' & Hi').
              exists found'. cbn [app map last_scan_from].
              split; [exact Hl |]. split; [exact Hd' | exact Hi'].
        -- match type of E with
           | context [Session.select_loop ?ds ?i nicks rest env ?hh] =>
               destruct (Session.select_loop ds i nicks rest env hh)
                 as [r2 t2] eqn:E2
           end.
           inversion E; subst r2 t.
           destruct (IH devices selected_idx _ found devices' idx' t2
                       Hdev Hidx E2) as (found' & Hl & Hd' & Hi').
           exists found'. cbn [app map last_scan_from].
           split; [exact Hl |]. split; [exact Hd' | exact Hi'].
Qed.

(** When the selection loop of [led_menu.main] ends with a device
    chosen, [devices[selected_idx]] is there: the list is what the latest
    scan of the session returned, also after any number of rescans, the
    index is inside it, and the device it denotes carries a key of the
    mapping table, so that the table lookups of the menus that follow
    find their entry. *)
Theorem select_device_in_latest_scan nicks inputs env devices selected_idx :
  fst (Session.run (Session.select_device nicks inputs) env)
  = Ok (Session.Selected devices selected_idx) ->
  exists found addr name prefix,
    last_scan (snd (Session.run (Session.select_device nicks inputs) env))
    = Some (Ok found)
    /\ devices = Menu.scan_loop found []
    /\ Session.list_getitem devices selected_idx = Some (addr, name, prefix)
    /\ In (addr, name, prefix) devices
    /\ In prefix Menu.keys.
Proof.
  intros H.
  destruct (Session.run (Session.select_device nicks inputs) env)
    as [r t] eqn:E.
  cbn [fst snd] in *. subst r.
  unfold Session.run, Session.select_device in E.
  unfold Session.bind at 1 in E. unfold Session.say at 1 in E.
  unfold Session.bind at 1 in E. unfold Session.call at 1 in E.
  unfold Menu.scan_devices, bind, discover, ret in E.
  destruct (ble_discover env _ 8) as [found0 | e]; [| discriminate E].
  cbn [map app] in E.
  destruct (Menu.scan_loop found0 []) as [| d0 ds0] eqn:Hs0.
  - cbv [Session.bind Session.say Session.ret] in E. discriminate E.
  - match type of E with
    | context [Session.select_loop ?ds ?i nicks inputs env ?hh] =>
        destruct (Session.select_loop ds i nicks inputs env hh)
          as [r2 t2] eqn:E2
    end.
    inversion E; subst r2 t.
    destruct (select_loop_invariant nicks env inputs (d0 :: ds0) 0 _ found0
                devices selected_idx t2 (eq_sym Hs0)
                ltac:(cbn [List.length]; lia) E2)
      as (found & Hl & Hd & Hi).
    assert (Hget : exists dev,
               Session.list_getitem devices selected_idx = Some dev
               /\ In dev devices).
    { unfold Session.list_getitem.
      assert (Hb : (0 <=? selected_idx)
                   && (selected_idx <? Z.of_nat (List.length devices))
                   = true).
      { apply andb_true_iff. split; [apply Z.leb_le | apply Z.ltb_lt]; lia. }
      cbv zeta. rewrite Hb.
      destruct (nth_error devices (Z.to_nat selected_idx)) as [dev |] eqn:Hn.
      - exists dev. split; [reflexivity |]. exact (nth_error_In _ _ Hn).
      - exfalso. apply nth_error_None in Hn. lia. }
    destruct Hget as ([[addr name] prefix] & Hg & Hin).
    exists found, addr, name, prefix.
    split; [exact Hl |]. split; [exact Hd |]. split; [exact Hg |].
    split; [exact Hin |].
    rewrite Hd in Hin. apply scan_loop_in in Hin.
    destruct Hin as (dev & _ & _ & _ & Hr).
    exact (proj1 (resolve_some _ _ Hr)).
Qed.

Lemma select_device_in_latest_scan_witness :
  exists found addr name prefix,
    last_scan
      (snd (Session.run
              (Session.select_device []
                 [Session.mk_device_choice "9" true (Some 9);
                  Session.mk_device_choice "r" false None;
                  Session.mk_device_choice "2" true (Some 2)])
              stack_four_devices))
    = Some (Ok found)
    /\ [("11:22:33:44:55:66", "KS03-112233", "KS03-");
        ("BE:60:4D:00:58:37", "KS03~370058", "KS03~")]
       = Menu.scan_loop found []
    /\ Session.list_getitem
         [("11:22:33:44:55:66", "KS03-112233", "KS03-");
          ("BE:60:4D:00:58:37", "KS03~370058", "KS03~")] 1
       = Some (addr, name, prefix)
    /\ In (addr, name, prefix)
         [("11:22:33:44:55:66", "KS03-112233", "KS03-");
          ("BE:60:4D:00:58:37", "KS03~370058", "KS03~")]
    /\ In prefix Menu.keys.
Proof.
  exact (select_device_in_latest_scan []
           [Session.mk_device_choice "9" true (Some 9);
            Session.mk_device_choice "r" false None;
            Session.mk_device_choice "2" true (Some 2)]
           stack_four_devices
           [("11:22:33:44:55:66", "KS03-112233", "KS03-");
            ("BE:60:4D:00:58:37", "KS03~370058", "KS03~")] 1 eq_refl).
Defined.
